(** * CmD3D9RenderWindow: the Direct3D 9 render window of the Camelot framework

    A shallow embedding of [CamelotD3D9Renderer/Source/CmD3D9RenderWindow.cpp]
    and the properties of its mode-switching state machine, its window
    geometry and its presentation-parameter negotiation.

    Conventions.
    - A [UINT32], [DWORD] or [unsigned int] value is a [Z] in [0, 2^32); an
      [INT32], [LONG] or [int] value is a [Z] in [-2^31, 2^31).  Conversions
      and arithmetic results are wrapped explicitly with [u32] and [s32].
    - The object is the record [D3D9RenderWindow]; a member function is a
      computation in the monad [M], which threads the object, keeps the log of
      the calls that leave the object (window system, Direct3D, device, input
      system, base class) and can end by a C++ exception or by a call through
      a null device pointer.
    - What the window system, Direct3D and the device answer during one call
      is the record [Env].  A call to a collaborator is its entry in the log
      and its answer; when a collaborator calls back into the window (the
      device manager calls [_finishSwitchingFullscreen] once a reset is
      done), the callback is a call of its own in a history ([run_ops]). *)

From Stdlib Require Import ZArith List Bool String Lia.
Import ListNotations.
Open Scope Z_scope.

(** ** Machine integers *)

Definition u32 (z : Z) : Z := z mod 2 ^ 32.
Definition s32 (z : Z) : Z := (z + 2 ^ 31) mod 2 ^ 32 - 2 ^ 31.

Definition is_s32 (z : Z) : Prop := - 2 ^ 31 <= z < 2 ^ 31.

(** ** Win32 and Direct3D 9 data (values of the platform SDK headers) *)

Definition DWORD := Z.
Definition HWND := Z.
Definition HMONITOR := Z.
Definition HINSTANCE := Z.
Definition HRESULT := Z.

Definition FAILED (hr : HRESULT) : bool := hr <? 0.
Definition SUCCEEDED (hr : HRESULT) : bool := 0 <=? hr.

Record RECT := { left : Z; top : Z; right : Z; bottom : Z }.

Definition SetRect (xLeft yTop xRight yBottom : Z) : RECT :=
  {| left := xLeft; top := yTop; right := xRight; bottom := yBottom |}.

Record MONITORINFO := { rcMonitor : RECT; rcWork : RECT }.

(** [memset(&monitorInfo, 0, sizeof(MONITORINFO))] *)
Definition zeroed_MONITORINFO : MONITORINFO :=
  {| rcMonitor := SetRect 0 0 0 0; rcWork := SetRect 0 0 0 0 |}.

Definition WS_OVERLAPPED : DWORD := 0x00000000.
Definition WS_POPUP : DWORD := 0x80000000.
Definition WS_CHILD : DWORD := 0x40000000.
Definition WS_VISIBLE : DWORD := 0x10000000.
Definition WS_CLIPCHILDREN : DWORD := 0x02000000.
Definition WS_CAPTION : DWORD := 0x00C00000.
Definition WS_BORDER : DWORD := 0x00800000.
Definition WS_SYSMENU : DWORD := 0x00080000.
Definition WS_MINIMIZEBOX : DWORD := 0x00020000.
Definition WS_OVERLAPPEDWINDOW : DWORD := 0x00CF0000.
Definition WS_EX_TOPMOST : DWORD := 0x00000008.
Definition WS_EX_TOOLWINDOW : DWORD := 0x00000080.

Definition SWP_NOSIZE : Z := 0x0001.
Definition SWP_NOMOVE : Z := 0x0002.
Definition SWP_NOZORDER : Z := 0x0004.
Definition SWP_NOACTIVATE : Z := 0x0010.
Definition SWP_FRAMECHANGED : Z := 0x0020.
Definition SWP_DRAWFRAME : Z := 0x0020.

Definition HWND_TOPMOST : HWND := -1.
Definition HWND_NOTOPMOST : HWND := -2.
Definition GWL_STYLE : Z := -16.
Definition MONITOR_DEFAULTTOPRIMARY : DWORD := 1.
Definition MONITOR_DEFAULTTONEAREST : DWORD := 2.

Definition WM_NCLBUTTONDOWN : Z := 0x00A1.
Definition HTCAPTION : Z := 2.
Definition HTLEFT : Z := 10.
Definition HTRIGHT : Z := 11.
Definition HTTOP : Z := 12.
Definition HTTOPLEFT : Z := 13.
Definition HTTOPRIGHT : Z := 14.
Definition HTBOTTOM : Z := 15.
Definition HTBOTTOMLEFT : Z := 16.
Definition HTBOTTOMRIGHT : Z := 17.

Inductive D3DFORMAT :=
| D3DFMT_UNKNOWN
| D3DFMT_R5G6B5
| D3DFMT_X8R8G8B8
| D3DFMT_D32
| D3DFMT_D24S8
| D3DFMT_D24X8
| D3DFMT_D16.

Inductive D3DDEVTYPE := D3DDEVTYPE_HAL | D3DDEVTYPE_REF | D3DDEVTYPE_SW | D3DDEVTYPE_NULLREF.

Inductive D3DSWAPEFFECT := D3DSWAPEFFECT_NONE | D3DSWAPEFFECT_DISCARD.

Definition D3DUSAGE_DEPTHSTENCIL : DWORD := 0x00000002.
Definition D3DRTYPE_SURFACE : Z := 1.
Definition D3DMULTISAMPLE_NONE : Z := 0.

Definition D3DPRESENT_INTERVAL_ONE : Z := 0x00000001.
Definition D3DPRESENT_INTERVAL_TWO : Z := 0x00000002.
Definition D3DPRESENT_INTERVAL_THREE : Z := 0x00000004.
Definition D3DPRESENT_INTERVAL_FOUR : Z := 0x00000008.
Definition D3DPRESENT_INTERVAL_IMMEDIATE : Z := 0x80000000.

Record D3DCAPS9 := { PresentationIntervals : Z }.

Record D3DPRESENT_PARAMETERS := {
  BackBufferWidth : Z;
  BackBufferHeight : Z;
  BackBufferFormat : D3DFORMAT;
  BackBufferCount : Z;
  MultiSampleType : Z;
  MultiSampleQuality : Z;
  SwapEffect : D3DSWAPEFFECT;
  hDeviceWindow : HWND;
  Windowed : bool;
  EnableAutoDepthStencil : bool;
  AutoDepthStencilFormat : D3DFORMAT;
  Flags : DWORD;
  FullScreen_RefreshRateInHz : Z;
  PresentationInterval : Z
}.

(** ** Framework data *)

Inductive WindowBorder := Border_Normal | Border_None | Border_Fixed.

Inductive WindowResizeDirection :=
| Dir_Left | Dir_TopLeft | Dir_Top | Dir_TopRight
| Dir_Right | Dir_BottomRight | Dir_Bottom | Dir_BottomLeft.

Inductive FrameBuffer := FB_FRONT | FB_BACK | FB_AUTO.

(** The destination of [copyToMemory] is only handed on to the device. *)
Definition PixelData := Z.

(** [NameValuePairList]: a map from strings to strings. *)
Definition NameValuePairList := list (string * string).

Fixpoint find (key : string) (l : NameValuePairList) : option string :=
  match l with
  | [] => None
  | (k, v) :: rest => if String.eqb k key then Some v else find key rest
  end.

(** The fields of [RENDER_WINDOW_DESC] that the window reads. *)
Record RENDER_WINDOW_DESC := {
  desc_width : Z;
  desc_height : Z;
  desc_fullscreen : bool;
  desc_vsync : bool;
  desc_vsyncInterval : Z;
  desc_depthBuffer : bool;
  desc_colorDepth : Z;
  desc_FSAA : Z;
  desc_left : Z;
  desc_top : Z;
  desc_title : string;
  desc_border : WindowBorder;
  desc_outerDimensions : bool;
  desc_toolWindow : bool;
  desc_monitorIndex : Z;
  desc_platformSpecific : NameValuePairList
}.

(** A [D3D9Device*] that is not null names a device. *)
Definition D3D9Device := nat.

(** ** The object *)

(** The data members of [D3D9RenderWindow], with those it inherits from
    [RenderWindow] and [RenderTarget].  [mDevice = None] is the null pointer. *)
Record D3D9RenderWindow := {
  mDesc : RENDER_WINDOW_DESC;
  mInstance : HINSTANCE;
  mDevice : option D3D9Device;
  mIsFullScreen : bool;
  mIsExternal : bool;
  mHWnd : HWND;
  mActive : bool;
  mClosed : bool;
  mSwitchingFullscreen : bool;
  mDisplayFrequency : Z;
  mDeviceValid : bool;
  mIsDepthBuffered : bool;
  mFSAAType : Z;
  mFSAAQuality : Z;
  mFSAA : Z;
  mFSAAHint : string;
  mVSync : bool;
  mVSyncInterval : Z;
  mWidth : Z;
  mHeight : Z;
  mDesiredWidth : Z;
  mDesiredHeight : Z;
  mTop : Z;
  mLeft : Z;
  mStyle : DWORD;
  mName : string;
  mColorDepth : Z;
  mHwGamma : bool
}.

(** Assignment to one member. *)

Definition set_mDevice (v : option D3D9Device) (t : D3D9RenderWindow) : D3D9RenderWindow :=
  {| mDesc := mDesc t; mInstance := mInstance t; mDevice := v;
     mIsFullScreen := mIsFullScreen t; mIsExternal := mIsExternal t; mHWnd := mHWnd t;
     mActive := mActive t; mClosed := mClosed t;
     mSwitchingFullscreen := mSwitchingFullscreen t; mDisplayFrequency := mDisplayFrequency t;
     mDeviceValid := mDeviceValid t; mIsDepthBuffered := mIsDepthBuffered t;
     mFSAAType := mFSAAType t; mFSAAQuality := mFSAAQuality t; mFSAA := mFSAA t;
     mFSAAHint := mFSAAHint t; mVSync := mVSync t; mVSyncInterval := mVSyncInterval t;
     mWidth := mWidth t; mHeight := mHeight t; mDesiredWidth := mDesiredWidth t;
     mDesiredHeight := mDesiredHeight t; mTop := mTop t; mLeft := mLeft t; mStyle := mStyle t;
     mName := mName t; mColorDepth := mColorDepth t; mHwGamma := mHwGamma t |}.

Definition set_mIsFullScreen (v : bool) (t : D3D9RenderWindow) : D3D9RenderWindow :=
  {| mDesc := mDesc t; mInstance := mInstance t; mDevice := mDevice t; mIsFullScreen := v;
     mIsExternal := mIsExternal t; mHWnd := mHWnd t; mActive := mActive t;
     mClosed := mClosed t; mSwitchingFullscreen := mSwitchingFullscreen t;
     mDisplayFrequency := mDisplayFrequency t; mDeviceValid := mDeviceValid t;
     mIsDepthBuffered := mIsDepthBuffered t; mFSAAType := mFSAAType t;
     mFSAAQuality := mFSAAQuality t; mFSAA := mFSAA t; mFSAAHint := mFSAAHint t;
     mVSync := mVSync t; mVSyncInterval := mVSyncInterval t; mWidth := mWidth t;
     mHeight := mHeight t; mDesiredWidth := mDesiredWidth t;
     mDesiredHeight := mDesiredHeight t; mTop := mTop t; mLeft := mLeft t; mStyle := mStyle t;
     mName := mName t; mColorDepth := mColorDepth t; mHwGamma := mHwGamma t |}.

Definition set_mIsExternal (v : bool) (t : D3D9RenderWindow) : D3D9RenderWindow :=
  {| mDesc := mDesc t; mInstance := mInstance t; mDevice := mDevice t;
     mIsFullScreen := mIsFullScreen t; mIsExternal := v; mHWnd := mHWnd t;
     mActive := mActive t; mClosed := mClosed t;
     mSwitchingFullscreen := mSwitchingFullscreen t; mDisplayFrequency := mDisplayFrequency t;
     mDeviceValid := mDeviceValid t; mIsDepthBuffered := mIsDepthBuffered t;
     mFSAAType := mFSAAType t; mFSAAQuality := mFSAAQuality t; mFSAA := mFSAA t;
     mFSAAHint := mFSAAHint t; mVSync := mVSync t; mVSyncInterval := mVSyncInterval t;
     mWidth := mWidth t; mHeight := mHeight t; mDesiredWidth := mDesiredWidth t;
     mDesiredHeight := mDesiredHeight t; mTop := mTop t; mLeft := mLeft t; mStyle := mStyle t;
     mName := mName t; mColorDepth := mColorDepth t; mHwGamma := mHwGamma t |}.

Definition set_mHWnd (v : HWND) (t : D3D9RenderWindow) : D3D9RenderWindow :=
  {| mDesc := mDesc t; mInstance := mInstance t; mDevice := mDevice t;
     mIsFullScreen := mIsFullScreen t; mIsExternal := mIsExternal t; mHWnd := v;
     mActive := mActive t; mClosed := mClosed t;
     mSwitchingFullscreen := mSwitchingFullscreen t; mDisplayFrequency := mDisplayFrequency t;
     mDeviceValid := mDeviceValid t; mIsDepthBuffered := mIsDepthBuffered t;
     mFSAAType := mFSAAType t; mFSAAQuality := mFSAAQuality t; mFSAA := mFSAA t;
     mFSAAHint := mFSAAHint t; mVSync := mVSync t; mVSyncInterval := mVSyncInterval t;
     mWidth := mWidth t; mHeight := mHeight t; mDesiredWidth := mDesiredWidth t;
     mDesiredHeight := mDesiredHeight t; mTop := mTop t; mLeft := mLeft t; mStyle := mStyle t;
     mName := mName t; mColorDepth := mColorDepth t; mHwGamma := mHwGamma t |}.

Definition set_mActive (v : bool) (t : D3D9RenderWindow) : D3D9RenderWindow :=
  {| mDesc := mDesc t; mInstance := mInstance t; mDevice := mDevice t;
     mIsFullScreen := mIsFullScreen t; mIsExternal := mIsExternal t; mHWnd := mHWnd t;
     mActive := v; mClosed := mClosed t; mSwitchingFullscreen := mSwitchingFullscreen t;
     mDisplayFrequency := mDisplayFrequency t; mDeviceValid := mDeviceValid t;
     mIsDepthBuffered := mIsDepthBuffered t; mFSAAType := mFSAAType t;
     mFSAAQuality := mFSAAQuality t; mFSAA := mFSAA t; mFSAAHint := mFSAAHint t;
     mVSync := mVSync t; mVSyncInterval := mVSyncInterval t; mWidth := mWidth t;
     mHeight := mHeight t; mDesiredWidth := mDesiredWidth t;
     mDesiredHeight := mDesiredHeight t; mTop := mTop t; mLeft := mLeft t; mStyle := mStyle t;
     mName := mName t; mColorDepth := mColorDepth t; mHwGamma := mHwGamma t |}.

Definition set_mClosed (v : bool) (t : D3D9RenderWindow) : D3D9RenderWindow :=
  {| mDesc := mDesc t; mInstance := mInstance t; mDevice := mDevice t;
     mIsFullScreen := mIsFullScreen t; mIsExternal := mIsExternal t; mHWnd := mHWnd t;
     mActive := mActive t; mClosed := v; mSwitchingFullscreen := mSwitchingFullscreen t;
     mDisplayFrequency := mDisplayFrequency t; mDeviceValid := mDeviceValid t;
     mIsDepthBuffered := mIsDepthBuffered t; mFSAAType := mFSAAType t;
     mFSAAQuality := mFSAAQuality t; mFSAA := mFSAA t; mFSAAHint := mFSAAHint t;
     mVSync := mVSync t; mVSyncInterval := mVSyncInterval t; mWidth := mWidth t;
     mHeight := mHeight t; mDesiredWidth := mDesiredWidth t;
     mDesiredHeight := mDesiredHeight t; mTop := mTop t; mLeft := mLeft t; mStyle := mStyle t;
     mName := mName t; mColorDepth := mColorDepth t; mHwGamma := mHwGamma t |}.

Definition set_mSwitchingFullscreen (v : bool) (t : D3D9RenderWindow) : D3D9RenderWindow :=
  {| mDesc := mDesc t; mInstance := mInstance t; mDevice := mDevice t;
     mIsFullScreen := mIsFullScreen t; mIsExternal := mIsExternal t; mHWnd := mHWnd t;
     mActive := mActive t; mClosed := mClosed t; mSwitchingFullscreen := v;
     mDisplayFrequency := mDisplayFrequency t; mDeviceValid := mDeviceValid t;
     mIsDepthBuffered := mIsDepthBuffered t; mFSAAType := mFSAAType t;
     mFSAAQuality := mFSAAQuality t; mFSAA := mFSAA t; mFSAAHint := mFSAAHint t;
     mVSync := mVSync t; mVSyncInterval := mVSyncInterval t; mWidth := mWidth t;
     mHeight := mHeight t; mDesiredWidth := mDesiredWidth t;
     mDesiredHeight := mDesiredHeight t; mTop := mTop t; mLeft := mLeft t; mStyle := mStyle t;
     mName := mName t; mColorDepth := mColorDepth t; mHwGamma := mHwGamma t |}.

Definition set_mDisplayFrequency (v : Z) (t : D3D9RenderWindow) : D3D9RenderWindow :=
  {| mDesc := mDesc t; mInstance := mInstance t; mDevice := mDevice t;
     mIsFullScreen := mIsFullScreen t; mIsExternal := mIsExternal t; mHWnd := mHWnd t;
     mActive := mActive t; mClosed := mClosed t;
     mSwitchingFullscreen := mSwitchingFullscreen t; mDisplayFrequency := v;
     mDeviceValid := mDeviceValid t; mIsDepthBuffered := mIsDepthBuffered t;
     mFSAAType := mFSAAType t; mFSAAQuality := mFSAAQuality t; mFSAA := mFSAA t;
     mFSAAHint := mFSAAHint t; mVSync := mVSync t; mVSyncInterval := mVSyncInterval t;
     mWidth := mWidth t; mHeight := mHeight t; mDesiredWidth := mDesiredWidth t;
     mDesiredHeight := mDesiredHeight t; mTop := mTop t; mLeft := mLeft t; mStyle := mStyle t;
     mName := mName t; mColorDepth := mColorDepth t; mHwGamma := mHwGamma t |}.

Definition set_mDeviceValid (v : bool) (t : D3D9RenderWindow) : D3D9RenderWindow :=
  {| mDesc := mDesc t; mInstance := mInstance t; mDevice := mDevice t;
     mIsFullScreen := mIsFullScreen t; mIsExternal := mIsExternal t; mHWnd := mHWnd t;
     mActive := mActive t; mClosed := mClosed t;
     mSwitchingFullscreen := mSwitchingFullscreen t; mDisplayFrequency := mDisplayFrequency t;
     mDeviceValid := v; mIsDepthBuffered := mIsDepthBuffered t; mFSAAType := mFSAAType t;
     mFSAAQuality := mFSAAQuality t; mFSAA := mFSAA t; mFSAAHint := mFSAAHint t;
     mVSync := mVSync t; mVSyncInterval := mVSyncInterval t; mWidth := mWidth t;
     mHeight := mHeight t; mDesiredWidth := mDesiredWidth t;
     mDesiredHeight := mDesiredHeight t; mTop := mTop t; mLeft := mLeft t; mStyle := mStyle t;
     mName := mName t; mColorDepth := mColorDepth t; mHwGamma := mHwGamma t |}.

Definition set_mIsDepthBuffered (v : bool) (t : D3D9RenderWindow) : D3D9RenderWindow :=
  {| mDesc := mDesc t; mInstance := mInstance t; mDevice := mDevice t;
     mIsFullScreen := mIsFullScreen t; mIsExternal := mIsExternal t; mHWnd := mHWnd t;
     mActive := mActive t; mClosed := mClosed t;
     mSwitchingFullscreen := mSwitchingFullscreen t; mDisplayFrequency := mDisplayFrequency t;
     mDeviceValid := mDeviceValid t; mIsDepthBuffered := v; mFSAAType := mFSAAType t;
     mFSAAQuality := mFSAAQuality t; mFSAA := mFSAA t; mFSAAHint := mFSAAHint t;
     mVSync := mVSync t; mVSyncInterval := mVSyncInterval t; mWidth := mWidth t;
     mHeight := mHeight t; mDesiredWidth := mDesiredWidth t;
     mDesiredHeight := mDesiredHeight t; mTop := mTop t; mLeft := mLeft t; mStyle := mStyle t;
     mName := mName t; mColorDepth := mColorDepth t; mHwGamma := mHwGamma t |}.

Definition set_mFSAAType (v : Z) (t : D3D9RenderWindow) : D3D9RenderWindow :=
  {| mDesc := mDesc t; mInstance := mInstance t; mDevice := mDevice t;
     mIsFullScreen := mIsFullScreen t; mIsExternal := mIsExternal t; mHWnd := mHWnd t;
     mActive := mActive t; mClosed := mClosed t;
     mSwitchingFullscreen := mSwitchingFullscreen t; mDisplayFrequency := mDisplayFrequency t;
     mDeviceValid := mDeviceValid t; mIsDepthBuffered := mIsDepthBuffered t; mFSAAType := v;
     mFSAAQuality := mFSAAQuality t; mFSAA := mFSAA t; mFSAAHint := mFSAAHint t;
     mVSync := mVSync t; mVSyncInterval := mVSyncInterval t; mWidth := mWidth t;
     mHeight := mHeight t; mDesiredWidth := mDesiredWidth t;
     mDesiredHeight := mDesiredHeight t; mTop := mTop t; mLeft := mLeft t; mStyle := mStyle t;
     mName := mName t; mColorDepth := mColorDepth t; mHwGamma := mHwGamma t |}.

Definition set_mFSAAQuality (v : Z) (t : D3D9RenderWindow) : D3D9RenderWindow :=
  {| mDesc := mDesc t; mInstance := mInstance t; mDevice := mDevice t;
     mIsFullScreen := mIsFullScreen t; mIsExternal := mIsExternal t; mHWnd := mHWnd t;
     mActive := mActive t; mClosed := mClosed t;
     mSwitchingFullscreen := mSwitchingFullscreen t; mDisplayFrequency := mDisplayFrequency t;
     mDeviceValid := mDeviceValid t; mIsDepthBuffered := mIsDepthBuffered t;
     mFSAAType := mFSAAType t; mFSAAQuality := v; mFSAA := mFSAA t; mFSAAHint := mFSAAHint t;
     mVSync := mVSync t; mVSyncInterval := mVSyncInterval t; mWidth := mWidth t;
     mHeight := mHeight t; mDesiredWidth := mDesiredWidth t;
     mDesiredHeight := mDesiredHeight t; mTop := mTop t; mLeft := mLeft t; mStyle := mStyle t;
     mName := mName t; mColorDepth := mColorDepth t; mHwGamma := mHwGamma t |}.

Definition set_mFSAA (v : Z) (t : D3D9RenderWindow) : D3D9RenderWindow :=
  {| mDesc := mDesc t; mInstance := mInstance t; mDevice := mDevice t;
     mIsFullScreen := mIsFullScreen t; mIsExternal := mIsExternal t; mHWnd := mHWnd t;
     mActive := mActive t; mClosed := mClosed t;
     mSwitchingFullscreen := mSwitchingFullscreen t; mDisplayFrequency := mDisplayFrequency t;
     mDeviceValid := mDeviceValid t; mIsDepthBuffered := mIsDepthBuffered t;
     mFSAAType := mFSAAType t; mFSAAQuality := mFSAAQuality t; mFSAA := v;
     mFSAAHint := mFSAAHint t; mVSync := mVSync t; mVSyncInterval := mVSyncInterval t;
     mWidth := mWidth t; mHeight := mHeight t; mDesiredWidth := mDesiredWidth t;
     mDesiredHeight := mDesiredHeight t; mTop := mTop t; mLeft := mLeft t; mStyle := mStyle t;
     mName := mName t; mColorDepth := mColorDepth t; mHwGamma := mHwGamma t |}.

Definition set_mVSync (v : bool) (t : D3D9RenderWindow) : D3D9RenderWindow :=
  {| mDesc := mDesc t; mInstance := mInstance t; mDevice := mDevice t;
     mIsFullScreen := mIsFullScreen t; mIsExternal := mIsExternal t; mHWnd := mHWnd t;
     mActive := mActive t; mClosed := mClosed t;
     mSwitchingFullscreen := mSwitchingFullscreen t; mDisplayFrequency := mDisplayFrequency t;
     mDeviceValid := mDeviceValid t; mIsDepthBuffered := mIsDepthBuffered t;
     mFSAAType := mFSAAType t; mFSAAQuality := mFSAAQuality t; mFSAA := mFSAA t;
     mFSAAHint := mFSAAHint t; mVSync := v; mVSyncInterval := mVSyncInterval t;
     mWidth := mWidth t; mHeight := mHeight t; mDesiredWidth := mDesiredWidth t;
     mDesiredHeight := mDesiredHeight t; mTop := mTop t; mLeft := mLeft t; mStyle := mStyle t;
     mName := mName t; mColorDepth := mColorDepth t; mHwGamma := mHwGamma t |}.

Definition set_mVSyncInterval (v : Z) (t : D3D9RenderWindow) : D3D9RenderWindow :=
  {| mDesc := mDesc t; mInstance := mInstance t; mDevice := mDevice t;
     mIsFullScreen := mIsFullScreen t; mIsExternal := mIsExternal t; mHWnd := mHWnd t;
     mActive := mActive t; mClosed := mClosed t;
     mSwitchingFullscreen := mSwitchingFullscreen t; mDisplayFrequency := mDisplayFrequency t;
     mDeviceValid := mDeviceValid t; mIsDepthBuffered := mIsDepthBuffered t;
     mFSAAType := mFSAAType t; mFSAAQuality := mFSAAQuality t; mFSAA := mFSAA t;
     mFSAAHint := mFSAAHint t; mVSync := mVSync t; mVSyncInterval := v; mWidth := mWidth t;
     mHeight := mHeight t; mDesiredWidth := mDesiredWidth t;
     mDesiredHeight := mDesiredHeight t; mTop := mTop t; mLeft := mLeft t; mStyle := mStyle t;
     mName := mName t; mColorDepth := mColorDepth t; mHwGamma := mHwGamma t |}.

Definition set_mWidth (v : Z) (t : D3D9RenderWindow) : D3D9RenderWindow :=
  {| mDesc := mDesc t; mInstance := mInstance t; mDevice := mDevice t;
     mIsFullScreen := mIsFullScreen t; mIsExternal := mIsExternal t; mHWnd := mHWnd t;
     mActive := mActive t; mClosed := mClosed t;
     mSwitchingFullscreen := mSwitchingFullscreen t; mDisplayFrequency := mDisplayFrequency t;
     mDeviceValid := mDeviceValid t; mIsDepthBuffered := mIsDepthBuffered t;
     mFSAAType := mFSAAType t; mFSAAQuality := mFSAAQuality t; mFSAA := mFSAA t;
     mFSAAHint := mFSAAHint t; mVSync := mVSync t; mVSyncInterval := mVSyncInterval t;
     mWidth := v; mHeight := mHeight t; mDesiredWidth := mDesiredWidth t;
     mDesiredHeight := mDesiredHeight t; mTop := mTop t; mLeft := mLeft t; mStyle := mStyle t;
     mName := mName t; mColorDepth := mColorDepth t; mHwGamma := mHwGamma t |}.

Definition set_mHeight (v : Z) (t : D3D9RenderWindow) : D3D9RenderWindow :=
  {| mDesc := mDesc t; mInstance := mInstance t; mDevice := mDevice t;
     mIsFullScreen := mIsFullScreen t; mIsExternal := mIsExternal t; mHWnd := mHWnd t;
     mActive := mActive t; mClosed := mClosed t;
     mSwitchingFullscreen := mSwitchingFullscreen t; mDisplayFrequency := mDisplayFrequency t;
     mDeviceValid := mDeviceValid t; mIsDepthBuffered := mIsDepthBuffered t;
     mFSAAType := mFSAAType t; mFSAAQuality := mFSAAQuality t; mFSAA := mFSAA t;
     mFSAAHint := mFSAAHint t; mVSync := mVSync t; mVSyncInterval := mVSyncInterval t;
     mWidth := mWidth t; mHeight := v; mDesiredWidth := mDesiredWidth t;
     mDesiredHeight := mDesiredHeight t; mTop := mTop t; mLeft := mLeft t; mStyle := mStyle t;
     mName := mName t; mColorDepth := mColorDepth t; mHwGamma := mHwGamma t |}.

Definition set_mDesiredWidth (v : Z) (t : D3D9RenderWindow) : D3D9RenderWindow :=
  {| mDesc := mDesc t; mInstance := mInstance t; mDevice := mDevice t;
     mIsFullScreen := mIsFullScreen t; mIsExternal := mIsExternal t; mHWnd := mHWnd t;
     mActive := mActive t; mClosed := mClosed t;
     mSwitchingFullscreen := mSwitchingFullscreen t; mDisplayFrequency := mDisplayFrequency t;
     mDeviceValid := mDeviceValid t; mIsDepthBuffered := mIsDepthBuffered t;
     mFSAAType := mFSAAType t; mFSAAQuality := mFSAAQuality t; mFSAA := mFSAA t;
     mFSAAHint := mFSAAHint t; mVSync := mVSync t; mVSyncInterval := mVSyncInterval t;
     mWidth := mWidth t; mHeight := mHeight t; mDesiredWidth := v;
     mDesiredHeight := mDesiredHeight t; mTop := mTop t; mLeft := mLeft t; mStyle := mStyle t;
     mName := mName t; mColorDepth := mColorDepth t; mHwGamma := mHwGamma t |}.

Definition set_mDesiredHeight (v : Z) (t : D3D9RenderWindow) : D3D9RenderWindow :=
  {| mDesc := mDesc t; mInstance := mInstance t; mDevice := mDevice t;
     mIsFullScreen := mIsFullScreen t; mIsExternal := mIsExternal t; mHWnd := mHWnd t;
     mActive := mActive t; mClosed := mClosed t;
     mSwitchingFullscreen := mSwitchingFullscreen t; mDisplayFrequency := mDisplayFrequency t;
     mDeviceValid := mDeviceValid t; mIsDepthBuffered := mIsDepthBuffered t;
     mFSAAType := mFSAAType t; mFSAAQuality := mFSAAQuality t; mFSAA := mFSAA t;
     mFSAAHint := mFSAAHint t; mVSync := mVSync t; mVSyncInterval := mVSyncInterval t;
     mWidth := mWidth t; mHeight := mHeight t; mDesiredWidth := mDesiredWidth t;
     mDesiredHeight := v; mTop := mTop t; mLeft := mLeft t; mStyle := mStyle t;
     mName := mName t; mColorDepth := mColorDepth t; mHwGamma := mHwGamma t |}.

Definition set_mTop (v : Z) (t : D3D9RenderWindow) : D3D9RenderWindow :=
  {| mDesc := mDesc t; mInstance := mInstance t; mDevice := mDevice t;
     mIsFullScreen := mIsFullScreen t; mIsExternal := mIsExternal t; mHWnd := mHWnd t;
     mActive := mActive t; mClosed := mClosed t;
     mSwitchingFullscreen := mSwitchingFullscreen t; mDisplayFrequency := mDisplayFrequency t;
     mDeviceValid := mDeviceValid t; mIsDepthBuffered := mIsDepthBuffered t;
     mFSAAType := mFSAAType t; mFSAAQuality := mFSAAQuality t; mFSAA := mFSAA t;
     mFSAAHint := mFSAAHint t; mVSync := mVSync t; mVSyncInterval := mVSyncInterval t;
     mWidth := mWidth t; mHeight := mHeight t; mDesiredWidth := mDesiredWidth t;
     mDesiredHeight := mDesiredHeight t; mTop := v; mLeft := mLeft t; mStyle := mStyle t;
     mName := mName t; mColorDepth := mColorDepth t; mHwGamma := mHwGamma t |}.

Definition set_mLeft (v : Z) (t : D3D9RenderWindow) : D3D9RenderWindow :=
  {| mDesc := mDesc t; mInstance := mInstance t; mDevice := mDevice t;
     mIsFullScreen := mIsFullScreen t; mIsExternal := mIsExternal t; mHWnd := mHWnd t;
     mActive := mActive t; mClosed := mClosed t;
     mSwitchingFullscreen := mSwitchingFullscreen t; mDisplayFrequency := mDisplayFrequency t;
     mDeviceValid := mDeviceValid t; mIsDepthBuffered := mIsDepthBuffered t;
     mFSAAType := mFSAAType t; mFSAAQuality := mFSAAQuality t; mFSAA := mFSAA t;
     mFSAAHint := mFSAAHint t; mVSync := mVSync t; mVSyncInterval := mVSyncInterval t;
     mWidth := mWidth t; mHeight := mHeight t; mDesiredWidth := mDesiredWidth t;
     mDesiredHeight := mDesiredHeight t; mTop := mTop t; mLeft := v; mStyle := mStyle t;
     mName := mName t; mColorDepth := mColorDepth t; mHwGamma := mHwGamma t |}.

Definition set_mStyle (v : DWORD) (t : D3D9RenderWindow) : D3D9RenderWindow :=
  {| mDesc := mDesc t; mInstance := mInstance t; mDevice := mDevice t;
     mIsFullScreen := mIsFullScreen t; mIsExternal := mIsExternal t; mHWnd := mHWnd t;
     mActive := mActive t; mClosed := mClosed t;
     mSwitchingFullscreen := mSwitchingFullscreen t; mDisplayFrequency := mDisplayFrequency t;
     mDeviceValid := mDeviceValid t; mIsDepthBuffered := mIsDepthBuffered t;
     mFSAAType := mFSAAType t; mFSAAQuality := mFSAAQuality t; mFSAA := mFSAA t;
     mFSAAHint := mFSAAHint t; mVSync := mVSync t; mVSyncInterval := mVSyncInterval t;
     mWidth := mWidth t; mHeight := mHeight t; mDesiredWidth := mDesiredWidth t;
     mDesiredHeight := mDesiredHeight t; mTop := mTop t; mLeft := mLeft t; mStyle := v;
     mName := mName t; mColorDepth := mColorDepth t; mHwGamma := mHwGamma t |}.

Definition set_mName (v : string) (t : D3D9RenderWindow) : D3D9RenderWindow :=
  {| mDesc := mDesc t; mInstance := mInstance t; mDevice := mDevice t;
     mIsFullScreen := mIsFullScreen t; mIsExternal := mIsExternal t; mHWnd := mHWnd t;
     mActive := mActive t; mClosed := mClosed t;
     mSwitchingFullscreen := mSwitchingFullscreen t; mDisplayFrequency := mDisplayFrequency t;
     mDeviceValid := mDeviceValid t; mIsDepthBuffered := mIsDepthBuffered t;
     mFSAAType := mFSAAType t; mFSAAQuality := mFSAAQuality t; mFSAA := mFSAA t;
     mFSAAHint := mFSAAHint t; mVSync := mVSync t; mVSyncInterval := mVSyncInterval t;
     mWidth := mWidth t; mHeight := mHeight t; mDesiredWidth := mDesiredWidth t;
     mDesiredHeight := mDesiredHeight t; mTop := mTop t; mLeft := mLeft t; mStyle := mStyle t;
     mName := v; mColorDepth := mColorDepth t; mHwGamma := mHwGamma t |}.

Definition set_mColorDepth (v : Z) (t : D3D9RenderWindow) : D3D9RenderWindow :=
  {| mDesc := mDesc t; mInstance := mInstance t; mDevice := mDevice t;
     mIsFullScreen := mIsFullScreen t; mIsExternal := mIsExternal t; mHWnd := mHWnd t;
     mActive := mActive t; mClosed := mClosed t;
     mSwitchingFullscreen := mSwitchingFullscreen t; mDisplayFrequency := mDisplayFrequency t;
     mDeviceValid := mDeviceValid t; mIsDepthBuffered := mIsDepthBuffered t;
     mFSAAType := mFSAAType t; mFSAAQuality := mFSAAQuality t; mFSAA := mFSAA t;
     mFSAAHint := mFSAAHint t; mVSync := mVSync t; mVSyncInterval := mVSyncInterval t;
     mWidth := mWidth t; mHeight := mHeight t; mDesiredWidth := mDesiredWidth t;
     mDesiredHeight := mDesiredHeight t; mTop := mTop t; mLeft := mLeft t; mStyle := mStyle t;
     mName := mName t; mColorDepth := v; mHwGamma := mHwGamma t |}.

(** ** Calls that leave the object *)

Inductive Call :=
(* window system *)
| call_MonitorFromPoint (x y : Z) (flags : DWORD)
| call_MonitorFromWindow (hWnd : HWND) (flags : DWORD)
| call_GetMonitorInfo (hMonitor : HMONITOR)
| call_RegisterClass
| call_CreateWindowEx (dwExStyle : DWORD) (title : string) (dwStyle : DWORD)
    (x y nWidth nHeight : Z) (parent : HWND) (instance : HINSTANCE)
| call_DestroyWindow (hWnd : HWND)
| call_GetWindowRect (hWnd : HWND)
| call_GetClientRect (hWnd : HWND)
| call_IsIconic (hWnd : HWND)
| call_SetWindowPos (hWnd insertAfter : HWND) (x y cx cy : Z) (flags : Z)
| call_SetWindowLong (hWnd : HWND) (index : Z) (value : DWORD)
| call_SetWindowRgn (hWnd : HWND) (region : RECT) (redraw : bool)
| call_SendMessage (hWnd : HWND) (msg wParam lParam : Z)
| call_AdjustWindowRect (rc : RECT) (style : DWORD)
(* Direct3D and the render system *)
| call_GetAdapterCount
| call_GetAdapterMonitor (adapter : Z)
| call_GetDeviceCaps (adapter : Z) (devType : D3DDEVTYPE)
| call_CheckDeviceFormat (adapter : Z) (devType : D3DDEVTYPE) (adapterFormat : D3DFORMAT)
    (usage : DWORD) (rtype : Z) (checkFormat : D3DFORMAT)
| call_CheckDepthStencilMatch (adapter : Z) (devType : D3DDEVTYPE)
    (adapterFormat renderTargetFormat depthStencilFormat : D3DFORMAT)
| call_determineFSAASettings (fsaa : Z) (fsaaHint : string) (format : D3DFORMAT)
    (fullScreen : bool)
| call_registerWindow
(* the bound device *)
| call_Device_detachRenderWindow (d : D3D9Device)
| call_Device_invalidate (d : D3D9Device)
| call_Device_validate (d : D3D9Device)
| call_Device_present (d : D3D9Device)
| call_Device_copyContentsToMemory (d : D3D9Device) (dst : PixelData) (buffer : FrameBuffer)
(* input system and base class *)
| call_simulateButtonUp
| call_RenderWindow_initialize_internal
| call_RenderWindow_destroy_internal
| call_RenderWindow_windowMovedOrResized.

(** ** The answers of the collaborators during one call *)

Record Env := {
  onCoreThread : bool;
  (* window system *)
  os_MonitorFromPoint : Z -> Z -> HMONITOR;
  os_MonitorFromWindow : HWND -> HMONITOR;
  os_GetMonitorInfo : HMONITOR -> option MONITORINFO;
  os_AdjustWindowRect : RECT -> DWORD -> RECT;
  os_CreateWindowEx : HWND;
  os_GetWindowRect : HWND -> option RECT;
  os_GetClientRect : HWND -> option RECT;
  os_IsIconic : HWND -> bool;
  indeterminate_RECT : RECT;
  (* Direct3D and the render system *)
  d3d_GetAdapterCount : Z;
  d3d_GetAdapterMonitor : Z -> HMONITOR;
  d3d_GetDeviceCaps : Z -> D3DDEVTYPE -> D3DCAPS9;
  d3d_CheckDeviceFormat :
    Z -> D3DDEVTYPE -> D3DFORMAT -> DWORD -> Z -> D3DFORMAT -> HRESULT;
  d3d_CheckDepthStencilMatch :
    Z -> D3DDEVTYPE -> D3DFORMAT -> D3DFORMAT -> D3DFORMAT -> HRESULT;
  rs_determineFSAASettings : Z -> string -> D3DFORMAT -> bool -> Z * Z;
  parseUnsignedInt : string -> Z;
  (* the devices *)
  dev_getAdapterNumber : D3D9Device -> Z;
  dev_getDeviceType : D3D9Device -> D3DDEVTYPE;
  dev_validate : D3D9Device -> bool
}.

(** ** The monad of member functions *)

Record World := { this : D3D9RenderWindow; calls : list Call }.

Inductive Exception := NotCoreThread.

(** How a member function ends: it returns, it throws (the object keeps the
    state it had at the throw), or it calls a member of a null [mDevice]. *)
Inductive Outcome (A : Type) :=
| Returned (a : A) (w : World)
| Thrown (e : Exception) (w : World)
| NullDeviceCall.

Arguments Returned {A} a w.
Arguments Thrown {A} e w.
Arguments NullDeviceCall {A}.

Definition M (A : Type) : Type := World -> Outcome A.

Definition ret {A} (a : A) : M A := fun w => Returned a w.

Definition bind {A B} (m : M A) (k : A -> M B) : M B :=
  fun w =>
    match m w with
    | Returned a w' => k a w'
    | Thrown e w' => Thrown e w'
    | NullDeviceCall => NullDeviceCall
    end.

Declare Scope m_scope.
Delimit Scope m_scope with m.
Bind Scope m_scope with M.

Notation "x <- c ;; k" := (bind c (fun x => k))
  (at level 61, c at next level, right associativity) : m_scope.
Notation "c ;; k" := (bind c (fun _ => k))
  (at level 61, right associativity) : m_scope.
Notation "' pat <- c ;; k" := (bind c (fun x => match x with pat => k end))
  (at level 61, pat pattern, c at next level, right associativity) : m_scope.

Open Scope m_scope.

Definition get : M D3D9RenderWindow := fun w => Returned (this w) w.

Definition assign (f : D3D9RenderWindow -> D3D9RenderWindow) : M unit :=
  fun w => Returned tt {| this := f (this w); calls := calls w |}.

Definition call (c : Call) : M unit :=
  fun w => Returned tt {| this := this w; calls := calls w ++ [c] |}.

Definition throw {A} (e : Exception) : M A := fun w => Thrown e w.

(** An [if] without [else]. *)
Definition when (b : bool) (m : M unit) : M unit := if b then m else ret tt.

(** The world an outcome leaves behind, when there is one. *)
Definition after {A} (o : Outcome A) : option World :=
  match o with
  | Returned _ w => Some w
  | Thrown _ w => Some w
  | NullDeviceCall => None
  end.

(** [THROW_IF_NOT_CORE_THREAD] *)
Definition THROW_IF_NOT_CORE_THREAD (env : Env) : M unit :=
  if onCoreThread env then ret tt else throw NotCoreThread.

(** [mDevice->...]: the device behind the pointer. *)
Definition deref_mDevice : M D3D9Device :=
  fun w =>
    match mDevice (this w) with
    | Some d => Returned d w
    | None => NullDeviceCall
    end.

(** *** Window system *)

Definition MonitorFromPoint (env : Env) (x y : Z) (flags : DWORD) : M HMONITOR :=
  call (call_MonitorFromPoint x y flags) ;; ret (os_MonitorFromPoint env x y).

Definition MonitorFromWindow (env : Env) (hWnd : HWND) (flags : DWORD) : M HMONITOR :=
  call (call_MonitorFromWindow hWnd flags) ;; ret (os_MonitorFromWindow env hWnd).

(** [memset(&monitorInfo, 0, ...); GetMonitorInfo(hMonitor, &monitorInfo)]: the
    result of the call is not looked at, a failed call leaves the zeroes. *)
Definition GetMonitorInfo (env : Env) (hMonitor : HMONITOR) : M MONITORINFO :=
  call (call_GetMonitorInfo hMonitor) ;;
  ret (match os_GetMonitorInfo env hMonitor with
       | Some info => info
       | None => zeroed_MONITORINFO
       end).

Definition AdjustWindowRect (env : Env) (rc : RECT) (style : DWORD) : M RECT :=
  call (call_AdjustWindowRect rc style) ;; ret (os_AdjustWindowRect env rc style).

Definition GetWindowRect (env : Env) (hWnd : HWND) : M (option RECT) :=
  call (call_GetWindowRect hWnd) ;; ret (os_GetWindowRect env hWnd).

Definition GetClientRect (env : Env) (hWnd : HWND) : M (option RECT) :=
  call (call_GetClientRect hWnd) ;; ret (os_GetClientRect env hWnd).

Definition IsIconic (env : Env) (hWnd : HWND) : M bool :=
  call (call_IsIconic hWnd) ;; ret (os_IsIconic env hWnd).

Definition SetWindowPos (hWnd insertAfter : HWND) (x y cx cy : Z) (flags : Z) : M unit :=
  call (call_SetWindowPos hWnd insertAfter x y cx cy flags).

Definition SetWindowLong (hWnd : HWND) (index : Z) (value : DWORD) : M unit :=
  call (call_SetWindowLong hWnd index value).

Definition SetWindowRgn (hWnd : HWND) (region : RECT) (redraw : bool) : M unit :=
  call (call_SetWindowRgn hWnd region redraw).

Definition SendMessage (hWnd : HWND) (msg wParam lParam : Z) : M unit :=
  call (call_SendMessage hWnd msg wParam lParam).

Definition DestroyWindow (hWnd : HWND) : M unit := call (call_DestroyWindow hWnd).

Definition CreateWindowEx (env : Env) (dwExStyle : DWORD) (title : string) (dwStyle : DWORD)
    (x y nWidth nHeight : Z) (parent : HWND) (instance : HINSTANCE) : M HWND :=
  call (call_CreateWindowEx dwExStyle title dwStyle x y nWidth nHeight parent instance) ;;
  ret (os_CreateWindowEx env).

(** *** Direct3D and the render system *)

Definition GetAdapterCount (env : Env) : M Z :=
  call call_GetAdapterCount ;; ret (d3d_GetAdapterCount env).

Definition GetAdapterMonitor (env : Env) (adapter : Z) : M HMONITOR :=
  call (call_GetAdapterMonitor adapter) ;; ret (d3d_GetAdapterMonitor env adapter).

Definition determineFSAASettings (env : Env) (fsaa : Z) (fsaaHint : string)
    (format : D3DFORMAT) (fullScreen : bool) : M (Z * Z) :=
  call (call_determineFSAASettings fsaa fsaaHint format fullScreen) ;;
  ret (rs_determineFSAASettings env fsaa fsaaHint format fullScreen).

Definition GetDeviceCaps (env : Env) (adapter : Z) (devType : D3DDEVTYPE) : M D3DCAPS9 :=
  call (call_GetDeviceCaps adapter devType) ;; ret (d3d_GetDeviceCaps env adapter devType).

Definition CheckDeviceFormat (env : Env) (adapter : Z) (devType : D3DDEVTYPE)
    (adapterFormat : D3DFORMAT) (usage : DWORD) (rtype : Z) (checkFormat : D3DFORMAT)
    : M HRESULT :=
  call (call_CheckDeviceFormat adapter devType adapterFormat usage rtype checkFormat) ;;
  ret (d3d_CheckDeviceFormat env adapter devType adapterFormat usage rtype checkFormat).

Definition CheckDepthStencilMatch (env : Env) (adapter : Z) (devType : D3DDEVTYPE)
    (adapterFormat renderTargetFormat depthStencilFormat : D3DFORMAT) : M HRESULT :=
  call (call_CheckDepthStencilMatch adapter devType adapterFormat renderTargetFormat
          depthStencilFormat) ;;
  ret (d3d_CheckDepthStencilMatch env adapter devType adapterFormat renderTargetFormat
         depthStencilFormat).

(** *** Members of the bound device, called through [mDevice] *)

Definition Device_getAdapterNumber (env : Env) : M Z :=
  d <- deref_mDevice ;; ret (dev_getAdapterNumber env d).

Definition Device_invalidate : M unit :=
  d <- deref_mDevice ;; call (call_Device_invalidate d).

Definition Device_present : M unit :=
  d <- deref_mDevice ;; call (call_Device_present d).

Definition Device_copyContentsToMemory (dst : PixelData) (buffer : FrameBuffer) : M unit :=
  d <- deref_mDevice ;; call (call_Device_copyContentsToMemory d dst buffer).

Definition Device_validate (env : Env) : M bool :=
  d <- deref_mDevice ;; call (call_Device_validate d) ;; ret (dev_validate env d).

Definition Device_detachRenderWindow : M unit :=
  d <- deref_mDevice ;; call (call_Device_detachRenderWindow d).

(** ** The member functions of [D3D9RenderWindow] *)

Definition HACK_SendLMBUpEvent : M unit := call call_simulateButtonUp.

(** The constructor.  [base] holds what the constructor of [RenderWindow]
    and the members this constructor does not mention start with. *)
Definition D3D9RenderWindow_ctor (base : D3D9RenderWindow) (desc : RENDER_WINDOW_DESC)
    (instance : HINSTANCE) : D3D9RenderWindow :=
  {| mDesc := desc; mInstance := instance; mDevice := None; mIsFullScreen := false;
     mIsExternal := false; mHWnd := 0; mActive := false; mClosed := false;
     mSwitchingFullscreen := false; mDisplayFrequency := 0; mDeviceValid := false;
     mIsDepthBuffered := true;
     mFSAAType := mFSAAType base; mFSAAQuality := mFSAAQuality base; mFSAA := mFSAA base;
     mFSAAHint := mFSAAHint base; mVSync := mVSync base;
     mVSyncInterval := mVSyncInterval base; mWidth := mWidth base; mHeight := mHeight base;
     mDesiredWidth := mDesiredWidth base; mDesiredHeight := mDesiredHeight base;
     mTop := mTop base; mLeft := mLeft base; mStyle := mStyle base; mName := mName base;
     mColorDepth := mColorDepth base; mHwGamma := mHwGamma base |}.

(** [_adjustWindow]: the outer size of a window with the given client size and
    style, clamped to the work area of the monitor nearest to the window.  The
    two results are the values left in [*winWidth] and [*winHeight]. *)
Definition _adjustWindow (env : Env) (clientWidth clientHeight : Z) (style : DWORD)
    : M (Z * Z) :=
  (* NB only call this for non full screen *)
  let rc := SetRect 0 0 (s32 clientWidth) (s32 clientHeight) in
  rc <- AdjustWindowRect env rc style ;;
  let winWidth := u32 (s32 (right rc - left rc)) in
  let winHeight := u32 (s32 (bottom rc - top rc)) in
  (* adjust to monitor *)
  t <- get ;;
  hMonitor <- MonitorFromWindow env (mHWnd t) MONITOR_DEFAULTTONEAREST ;;
  monitorInfo <- GetMonitorInfo env hMonitor ;;
  let maxW := s32 (right (rcWork monitorInfo) - left (rcWork monitorInfo)) in
  let maxH := s32 (bottom (rcWork monitorInfo) - top (rcWork monitorInfo)) in
  let winWidth := if winWidth >? u32 maxW then u32 maxW else winWidth in
  let winHeight := if winHeight >? u32 maxH then u32 maxH else winHeight in
  ret (winWidth, winHeight).

(** The loop of [initialize_internal] over the adapters, from index [i] on:
    the monitor of adapter [monitorIndex], or [NULL] when the index is not
    below the adapter count.  [fuel] bounds the iterations left. *)
Fixpoint adapter_monitor_loop (env : Env) (monitorIndex : Z) (i : Z) (fuel : nat)
    : M HMONITOR :=
  count <- GetAdapterCount env ;;
  if i <? count then
    if i =? monitorIndex then GetAdapterMonitor env i
    else
      match fuel with
      | O => ret 0
      | S fuel' => adapter_monitor_loop env monitorIndex (u32 (i + 1)) fuel'
      end
  else ret 0.

Definition initialize_internal (env : Env) : M unit :=
  t <- get ;;
  let desc := mDesc t in
  let hInst := mInstance t in
  assign (set_mFSAAType D3DMULTISAMPLE_NONE) ;;
  assign (set_mFSAAQuality 0) ;;
  assign (set_mFSAA (desc_FSAA desc)) ;;
  assign (set_mVSync (desc_vsync desc)) ;;
  assign (set_mVSyncInterval (desc_vsyncInterval desc)) ;;
  let parentHWnd :=
    match find "parentWindowHandle" (desc_platformSpecific desc) with
    | Some v => parseUnsignedInt env v
    | None => 0
    end in
  let externalHandle :=
    match find "externalWindowHandle" (desc_platformSpecific desc) with
    | Some v => parseUnsignedInt env v
    | None => 0
    end in
  let monitorIndexGiven := negb (u32 (desc_monitorIndex desc) =? u32 (-1)) in
  (if externalHandle =? 0 then
     let dwStyle := Z.lor WS_VISIBLE WS_CLIPCHILDREN in
     let dwStyleEx := 0 in
     (* If we specified which adapter we want to use - find it's monitor. *)
     hMonitor <- (if monitorIndexGiven
                  then adapter_monitor_loop env (u32 (desc_monitorIndex desc)) 0
                         (Z.to_nat (d3d_GetAdapterCount env))
                  else ret 0) ;;
     (* If we didn't specified the adapter index, or if it didn't find it *)
     hMonitor <- (if hMonitor =? 0
                  then MonitorFromPoint env (s32 (desc_left desc)) (s32 (desc_top desc))
                         MONITOR_DEFAULTTOPRIMARY
                  else ret hMonitor) ;;
     (* Get the target monitor info *)
     monitorInfo <- GetMonitorInfo env hMonitor ;;
     let rcW := rcWork monitorInfo in
     let winWidth := desc_width desc in
     let winHeight := desc_height desc in
     let left0 := u32 (desc_left desc) in
     let top0 := u32 (desc_top desc) in
     (* No specified top left -> Center the window in the middle of the monitor *)
     let '(left1, top1) :=
       if (left0 =? u32 (-1)) || (top0 =? u32 (-1)) then
         let screenw := s32 (right rcW - left rcW) in
         let screenh := s32 (bottom rcW - top rcW) in
         (* clamp window dimensions to screen size *)
         let outerw := if s32 winWidth <? screenw then s32 winWidth else screenw in
         let outerh := if s32 winHeight <? screenh then s32 winHeight else screenh in
         (if left0 =? u32 (-1)
          then u32 (left rcW + Z.quot (s32 (screenw - outerw)) 2)
          else if monitorIndexGiven then u32 (left0 + left rcW) else left0,
          if top0 =? u32 (-1)
          then u32 (top rcW + Z.quot (s32 (screenh - outerh)) 2)
          else if monitorIndexGiven then u32 (top0 + top rcW) else top0)
       else if monitorIndexGiven then (u32 (left0 + left rcW), u32 (top0 + top rcW))
       else (left0, top0) in
     assign (set_mDesiredWidth (desc_width desc)) ;;
     assign (set_mWidth (desc_width desc)) ;;
     assign (set_mDesiredHeight (desc_height desc)) ;;
     assign (set_mHeight (desc_height desc)) ;;
     assign (set_mTop (s32 top1)) ;;
     assign (set_mLeft (s32 left1)) ;;
     '(dwStyleEx, dwStyle, winWidth, winHeight) <-
       (if desc_fullscreen desc then
          assign (set_mTop (top (rcMonitor monitorInfo))) ;;
          assign (set_mLeft (left (rcMonitor monitorInfo))) ;;
          ret (Z.lor dwStyleEx WS_EX_TOPMOST, Z.lor dwStyle WS_POPUP, winWidth, winHeight)
        else
          let '(dwStyleEx, dwStyle) :=
            if negb (parentHWnd =? 0) then
              if desc_toolWindow desc then (WS_EX_TOOLWINDOW, dwStyle)
              else (dwStyleEx, Z.lor dwStyle WS_CHILD)
            else (dwStyleEx, dwStyle) in
          let dwStyle :=
            if (parentHWnd =? 0) || desc_toolWindow desc then
              match desc_border desc with
              | Border_None => Z.lor dwStyle WS_POPUP
              | Border_Fixed =>
                  Z.lor dwStyle
                    (Z.lor WS_OVERLAPPED
                       (Z.lor WS_BORDER (Z.lor WS_CAPTION (Z.lor WS_SYSMENU WS_MINIMIZEBOX))))
              | Border_Normal => Z.lor dwStyle WS_OVERLAPPEDWINDOW
              end
            else dwStyle in
          '(winWidth, winHeight) <-
            _adjustWindow env (desc_width desc) (desc_height desc) dwStyle ;;
          if negb (desc_outerDimensions desc) then
            (* Calculate window dimensions required to get the requested client area *)
            t <- get ;;
            rc <- AdjustWindowRect env (SetRect 0 0 (s32 (mWidth t)) (s32 (mHeight t)))
                    dwStyle ;;
            assign (set_mWidth (u32 (s32 (right rc - left rc)))) ;;
            assign (set_mHeight (u32 (s32 (bottom rc - top rc)))) ;;
            (* Clamp window rect to the nearest display monitor. *)
            t <- get ;;
            when (mLeft t <? left rcW) (assign (set_mLeft (left rcW))) ;;
            t <- get ;;
            when (mTop t <? top rcW) (assign (set_mTop (top rcW))) ;;
            t <- get ;;
            let winWidth :=
              if s32 winWidth >? s32 (right rcW - mLeft t)
              then u32 (s32 (right rcW - mLeft t)) else winWidth in
            let winHeight :=
              if s32 winHeight >? s32 (bottom rcW - mTop t)
              then u32 (s32 (bottom rcW - mTop t)) else winHeight in
            ret (dwStyleEx, dwStyle, winWidth, winHeight)
          else ret (dwStyleEx, dwStyle, winWidth, winHeight)) ;;
     (* Register the window class, create our main window *)
     call call_RegisterClass ;;
     assign (set_mIsExternal false) ;;
     t <- get ;;
     hWnd <- CreateWindowEx env dwStyleEx (desc_title desc) dwStyle (mLeft t) (mTop t)
               (s32 winWidth) (s32 winHeight) parentHWnd hInst ;;
     assign (set_mHWnd hWnd) ;;
     assign (set_mStyle dwStyle)
   else
     assign (set_mHWnd externalHandle) ;;
     assign (set_mIsExternal true)) ;;
  t <- get ;;
  (* top and left represent outer window coordinates *)
  r <- GetWindowRect env (mHWnd t) ;;
  let rc := match r with Some rc => rc | None => indeterminate_RECT env end in
  assign (set_mTop (top rc)) ;;
  assign (set_mLeft (left rc)) ;;
  (* width and height represent interior drawable area *)
  r <- GetClientRect env (mHWnd t) ;;
  let rc := match r with Some rc' => rc' | None => rc end in
  assign (set_mWidth (u32 (right rc))) ;;
  assign (set_mHeight (u32 (bottom rc))) ;;
  assign (set_mName (desc_title desc)) ;;
  assign (set_mIsDepthBuffered (desc_depthBuffer desc)) ;;
  assign (set_mIsFullScreen (desc_fullscreen desc)) ;;
  assign (set_mColorDepth (desc_colorDepth desc)) ;;
  assign (set_mActive true) ;;
  assign (set_mClosed false) ;;
  call call_registerWindow ;;
  call call_RenderWindow_initialize_internal.

Definition destroy_internal : M unit :=
  t <- get ;;
  when (match mDevice t with Some _ => true | None => false end)
    (Device_detachRenderWindow ;;
     assign (set_mDevice None)) ;;
  when (negb (mHWnd t =? 0) && negb (mIsExternal t))
    (DestroyWindow (mHWnd t)) ;;
  assign (set_mHWnd 0) ;;
  assign (set_mActive false) ;;
  assign (set_mClosed true) ;;
  call call_RenderWindow_destroy_internal.

Definition setFullscreen (env : Env) (fullScreen : bool) (width height : Z) : M unit :=
  THROW_IF_NOT_CORE_THREAD env ;;
  t <- get ;;
  when (negb (Bool.eqb fullScreen (mIsFullScreen t))
        || negb (width =? mWidth t) || negb (height =? mHeight t))
    (when (negb (Bool.eqb fullScreen (mIsFullScreen t)))
       (assign (set_mSwitchingFullscreen true)) ;;
     assign (set_mStyle (Z.lor WS_VISIBLE WS_CLIPCHILDREN)) ;;
     let oldFullscreen := mIsFullScreen t in
     assign (set_mIsFullScreen fullScreen) ;;
     assign (set_mDesiredWidth width) ;;
     assign (set_mWidth width) ;;
     assign (set_mDesiredHeight height) ;;
     assign (set_mHeight height) ;;
     (if fullScreen then
        assign (fun t => set_mStyle (Z.lor (mStyle t) WS_POPUP) t) ;;
        (* Get the nearest monitor to this window. *)
        hMonitor <- MonitorFromWindow env (mHWnd t) MONITOR_DEFAULTTONEAREST ;;
        (* Get monitor info *)
        monitorInfo <- GetMonitorInfo env hMonitor ;;
        assign (set_mTop (top (rcMonitor monitorInfo))) ;;
        assign (set_mLeft (left (rcMonitor monitorInfo))) ;;
        t <- get ;;
        (* need different ordering here *)
        if oldFullscreen then
          (* was previously fullscreen, just changing the resolution *)
          SetWindowPos (mHWnd t) HWND_TOPMOST (mLeft t) (mTop t) (s32 width) (s32 height)
            SWP_NOACTIVATE
        else
          SetWindowPos (mHWnd t) HWND_TOPMOST (mLeft t) (mTop t) (s32 width) (s32 height)
            SWP_NOACTIVATE ;;
          SetWindowLong (mHWnd t) GWL_STYLE (mStyle t) ;;
          SetWindowPos (mHWnd t) 0 0 0 0 0
            (Z.lor SWP_NOACTIVATE
               (Z.lor SWP_NOMOVE (Z.lor SWP_NOSIZE (Z.lor SWP_NOZORDER SWP_FRAMECHANGED))))
      else
        assign (fun t => set_mStyle (Z.lor (mStyle t) WS_OVERLAPPEDWINDOW) t) ;;
        (* Calculate window dimensions required to get the requested client area *)
        t <- get ;;
        '(winWidth, winHeight) <- _adjustWindow env (mWidth t) (mHeight t) (mStyle t) ;;
        SetWindowLong (mHWnd t) GWL_STYLE (mStyle t) ;;
        SetWindowPos (mHWnd t) HWND_NOTOPMOST 0 0 (s32 winWidth) (s32 winHeight)
          (Z.lor SWP_DRAWFRAME (Z.lor SWP_FRAMECHANGED (Z.lor SWP_NOMOVE SWP_NOACTIVATE)))
        (* Note that we also set the position in the restoreLostDevice method
           via _finishSwitchingFullScreen *)) ;;
     (* Have to release & trigger device reset *)
     Device_invalidate).

Definition isVisible (env : Env) : M bool :=
  t <- get ;;
  if mHWnd t =? 0 then ret false
  else iconic <- IsIconic env (mHWnd t) ;; ret (negb iconic).

Definition isActive (env : Env) : M bool :=
  t <- get ;;
  if mIsFullScreen t then isVisible env
  else if mActive t then isVisible env else ret false.

Definition move (env : Env) (top left : Z) : M unit :=
  THROW_IF_NOT_CORE_THREAD env ;;
  t <- get ;;
  when (negb (mHWnd t =? 0) && negb (mIsFullScreen t))
    (assign (set_mLeft left) ;;
     assign (set_mTop top) ;;
     SetWindowPos (mHWnd t) 0 top left 0 0
       (Z.lor SWP_NOSIZE (Z.lor SWP_NOZORDER SWP_NOACTIVATE))).

Definition resize (env : Env) (width height : Z) : M unit :=
  THROW_IF_NOT_CORE_THREAD env ;;
  t <- get ;;
  when (negb (mHWnd t =? 0) && negb (mIsFullScreen t))
    (assign (set_mWidth width) ;;
     assign (set_mHeight height) ;;
     '(winWidth, winHeight) <- _adjustWindow env width height (mStyle t) ;;
     SetWindowPos (mHWnd t) 0 0 0 (s32 winWidth) (s32 winHeight)
       (Z.lor SWP_NOMOVE (Z.lor SWP_NOZORDER SWP_NOACTIVATE))).

Definition swapBuffers (env : Env) : M unit :=
  THROW_IF_NOT_CORE_THREAD env ;;
  t <- get ;;
  when (mDeviceValid t) Device_present.

Definition copyToMemory (env : Env) (dst : PixelData) (buffer : FrameBuffer) : M unit :=
  THROW_IF_NOT_CORE_THREAD env ;;
  Device_copyContentsToMemory dst buffer.

Definition startResize (direction : WindowResizeDirection) : M unit :=
  let dir :=
    match direction with
    | Dir_Left => HTLEFT
    | Dir_TopLeft => HTTOPLEFT
    | Dir_Top => HTTOP
    | Dir_TopRight => HTTOPRIGHT
    | Dir_Right => HTRIGHT
    | Dir_BottomRight => HTBOTTOMRIGHT
    | Dir_Bottom => HTBOTTOM
    | Dir_BottomLeft => HTBOTTOMLEFT
    end in
  t <- get ;;
  SendMessage (mHWnd t) WM_NCLBUTTONDOWN dir 0 ;;
  HACK_SendLMBUpEvent.

Definition endResize : M unit := ret tt.

Definition startMove : M unit :=
  t <- get ;;
  SendMessage (mHWnd t) WM_NCLBUTTONDOWN HTCAPTION 0 ;;
  HACK_SendLMBUpEvent.

Definition endMove : M unit := ret tt.

Definition updateWindowRect (env : Env) : M unit :=
  t <- get ;;
  (* Update top left parameters *)
  result <- GetWindowRect env (mHWnd t) ;;
  match result with
  | None =>
      assign (set_mTop 0) ;; assign (set_mLeft 0) ;;
      assign (set_mWidth 0) ;; assign (set_mHeight 0)
  | Some rc =>
      assign (set_mTop (top rc)) ;;
      assign (set_mLeft (left rc)) ;;
      (* width and height represent drawable area only *)
      result <- GetClientRect env (mHWnd t) ;;
      match result with
      | None =>
          assign (set_mTop 0) ;; assign (set_mLeft 0) ;;
          assign (set_mWidth 0) ;; assign (set_mHeight 0)
      | Some rc =>
          assign (set_mWidth (u32 (s32 (right rc - left rc)))) ;;
          assign (set_mHeight (u32 (s32 (bottom rc - top rc))))
      end
  end.

Definition _windowMovedOrResized (env : Env) : M unit :=
  THROW_IF_NOT_CORE_THREAD env ;;
  t <- get ;;
  if mHWnd t =? 0 then ret tt
  else
    iconic <- IsIconic env (mHWnd t) ;;
    if iconic then ret tt
    else
      updateWindowRect env ;;
      call call_RenderWindow_windowMovedOrResized.

Definition _finishSwitchingFullscreen (env : Env) : M unit :=
  t <- get ;;
  (if mIsFullScreen t then
     (* Need to reset the region on the window sometimes, when the
        windowed mode was constrained by desktop *)
     SetWindowRgn (mHWnd t) (SetRect 0 0 (s32 (mWidth t)) (s32 (mHeight t))) false
   else
     (* When switching back to windowed mode, need to reset window size
        after device has been restored.
        We may have had a resize event which polluted our desired sizes *)
     '(winWidth, winHeight) <-
       _adjustWindow env (mDesiredWidth t) (mDesiredHeight t) (mStyle t) ;;
     (* deal with centreing when switching down to smaller resolution *)
     hMonitor <- MonitorFromWindow env (mHWnd t) MONITOR_DEFAULTTONEAREST ;;
     monitorInfo <- GetMonitorInfo env hMonitor ;;
     let screenw := s32 (right (rcWork monitorInfo) - left (rcWork monitorInfo)) in
     let screenh := s32 (bottom (rcWork monitorInfo) - top (rcWork monitorInfo)) in
     let left := if screenw >? s32 winWidth
                 then Z.quot (s32 (screenw - s32 winWidth)) 2 else 0 in
     let top := if screenh >? s32 winHeight
                then Z.quot (s32 (screenh - s32 winHeight)) 2 else 0 in
     SetWindowPos (mHWnd t) HWND_NOTOPMOST left top (s32 winWidth) (s32 winHeight)
       (Z.lor SWP_DRAWFRAME (Z.lor SWP_FRAMECHANGED SWP_NOACTIVATE)) ;;
     when (negb (mWidth t =? mDesiredWidth t) || negb (mHeight t =? mDesiredHeight t))
       (assign (set_mWidth (mDesiredWidth t)) ;;
        assign (set_mHeight (mDesiredHeight t)))) ;;
  assign (set_mSwitchingFullscreen false).

(** [_buildPresentParameters]: the function fills [*presentParams]; here it
    returns the structure.  [ZeroMemory] leaves zero in the fields that are
    not assigned afterwards. *)
Definition _buildPresentParameters (env : Env) : M D3DPRESENT_PARAMETERS :=
  t <- get ;;
  (* Set up the presentation parameters *)
  let devType :=
    match mDevice t with
    | Some d => dev_getDeviceType env d
    | None => D3DDEVTYPE_HAL
    end in
  let backBufferWidth := if mWidth t =? 0 then 1 else mWidth t in
  let backBufferHeight := if mHeight t =? 0 then 1 else mHeight t in
  presentationInterval <-
    (if mVSync t then
       (* D3D9 only seems to support 2-4 presentation intervals in fullscreen *)
       if mIsFullScreen t then
         let interval :=
           match mVSyncInterval t with
           | 2 => D3DPRESENT_INTERVAL_TWO
           | 3 => D3DPRESENT_INTERVAL_THREE
           | 4 => D3DPRESENT_INTERVAL_FOUR
           | _ => D3DPRESENT_INTERVAL_ONE
           end in
         (* check that the interval was supported, revert to 1 to be safe otherwise *)
         adapter <- Device_getAdapterNumber env ;;
         caps <- GetDeviceCaps env adapter devType ;;
         if Z.land (PresentationIntervals caps) interval =? 0
         then ret D3DPRESENT_INTERVAL_ONE
         else ret interval
       else ret D3DPRESENT_INTERVAL_ONE
     else ret D3DPRESENT_INTERVAL_IMMEDIATE) ;;
  let backBufferFormat := if mColorDepth t >? 16 then D3DFMT_X8R8G8B8 else D3DFMT_R5G6B5 in
  autoDepthStencilFormat <-
    (if mColorDepth t >? 16 then
       (* Try to create a 32-bit depth, 8-bit stencil *)
       adapter <- Device_getAdapterNumber env ;;
       hr <- CheckDeviceFormat env adapter devType backBufferFormat D3DUSAGE_DEPTHSTENCIL
               D3DRTYPE_SURFACE D3DFMT_D24S8 ;;
       if FAILED hr then
         (* Bugger, no 8-bit hardware stencil, just try 32-bit zbuffer *)
         adapter <- Device_getAdapterNumber env ;;
         hr <- CheckDeviceFormat env adapter devType backBufferFormat D3DUSAGE_DEPTHSTENCIL
                 D3DRTYPE_SURFACE D3DFMT_D32 ;;
         if FAILED hr then
           (* Jeez, what a naff card. Fall back on 16-bit depth buffering *)
           ret D3DFMT_D16
         else ret D3DFMT_D32
       else
         (* Woohoo! *)
         adapter <- Device_getAdapterNumber env ;;
         hr <- CheckDepthStencilMatch env adapter devType backBufferFormat backBufferFormat
                 D3DFMT_D24S8 ;;
         if SUCCEEDED hr then ret D3DFMT_D24S8 else ret D3DFMT_D24X8
     else
       (* 16-bit depth, software stencil *)
       ret D3DFMT_D16) ;;
  (* [mDevice->getD3D9Device()] *)
  deref_mDevice ;;
  '(fsaaType, fsaaQuality) <-
    determineFSAASettings env (mFSAA t) (mFSAAHint t) backBufferFormat (mIsFullScreen t) ;;
  ret {| BackBufferWidth := backBufferWidth;
         BackBufferHeight := backBufferHeight;
         BackBufferFormat := backBufferFormat;
         (* triple buffer if VSync is on *)
         BackBufferCount := if mVSync t then 2 else 1;
         MultiSampleType := fsaaType;
         MultiSampleQuality := if fsaaQuality =? 0 then 0 else fsaaQuality;
         SwapEffect := D3DSWAPEFFECT_DISCARD;
         hDeviceWindow := mHWnd t;
         Windowed := negb (mIsFullScreen t);
         EnableAutoDepthStencil := mIsDepthBuffered t;
         AutoDepthStencilFormat := autoDepthStencilFormat;
         Flags := 0;
         FullScreen_RefreshRateInHz := if mIsFullScreen t then mDisplayFrequency t else 0;
         PresentationInterval := presentationInterval |}.

Definition _getSwitchingFullscreen : M bool := t <- get ;; ret (mSwitchingFullscreen t).

Definition _getDevice : M (option D3D9Device) := t <- get ;; ret (mDevice t).

Definition _setDevice (device : option D3D9Device) : M unit :=
  assign (set_mDevice device) ;;
  assign (set_mDeviceValid false).

Definition _isDepthBuffered : M bool := t <- get ;; ret (mIsDepthBuffered t).

Definition _validateDevice (env : Env) : M bool :=
  valid <- Device_validate env ;;
  assign (set_mDeviceValid valid) ;;
  t <- get ;;
  ret (mDeviceValid t).

(** ** The operations on a window, as one step function *)

Inductive Op :=
| op_initialize_internal
| op_destroy_internal
| op_setFullscreen (fullScreen : bool) (width height : Z)
| op_isActive
| op_isVisible
| op_move (top left : Z)
| op_resize (width height : Z)
| op_swapBuffers
| op_copyToMemory (dst : PixelData) (buffer : FrameBuffer)
| op_startResize (direction : WindowResizeDirection)
| op_endResize
| op_startMove
| op_endMove
| op_windowMovedOrResized
| op_finishSwitchingFullscreen
| op_buildPresentParameters
| op_getSwitchingFullscreen
| op_getDevice
| op_setDevice (device : option D3D9Device)
| op_isDepthBuffered
| op_updateWindowRect
| op_validateDevice.

(** Forget the value a member function returns. *)
Definition void {A} (m : M A) : M unit := m ;; ret tt.

Definition exec (env : Env) (op : Op) : M unit :=
  match op with
  | op_initialize_internal => initialize_internal env
  | op_destroy_internal => destroy_internal
  | op_setFullscreen fullScreen width height => setFullscreen env fullScreen width height
  | op_isActive => void (isActive env)
  | op_isVisible => void (isVisible env)
  | op_move top left => move env top left
  | op_resize width height => resize env width height
  | op_swapBuffers => swapBuffers env
  | op_copyToMemory dst buffer => copyToMemory env dst buffer
  | op_startResize direction => startResize direction
  | op_endResize => endResize
  | op_startMove => startMove
  | op_endMove => endMove
  | op_windowMovedOrResized => _windowMovedOrResized env
  | op_finishSwitchingFullscreen => _finishSwitchingFullscreen env
  | op_buildPresentParameters => void (_buildPresentParameters env)
  | op_getSwitchingFullscreen => void _getSwitchingFullscreen
  | op_getDevice => void _getDevice
  | op_setDevice device => _setDevice device
  | op_isDepthBuffered => void _isDepthBuffered
  | op_updateWindowRect => updateWindowRect env
  | op_validateDevice => void (_validateDevice env)
  end.

(** A history of calls on one window, each with what the collaborators answer
    during it: the world after the last call, or [None] once a call went
    through a null device pointer. *)
Fixpoint run_ops (history : list (Env * Op)) (w : World) : option World :=
  match history with
  | [] => Some w
  | (env, op) :: rest =>
      match after (exec env op w) with
      | Some w' => run_ops rest w'
      | None => None
      end
  end.

Definition is_finishSwitchingFullscreen (op : Op) : bool :=
  match op with
  | op_finishSwitchingFullscreen => true
  | _ => false
  end.

(** The two operations that take a requested size: initialization (from the
    window description) and [setFullscreen]. *)
Definition is_size_request (op : Op) : bool :=
  match op with
  | op_initialize_internal | op_setFullscreen _ _ _ => true
  | _ => false
  end.

(** [preserves P m]: when [P] holds of the object before [m], it holds of the
    object [m] leaves behind, whether [m] returns or throws. *)
Definition preserves {A} (P : D3D9RenderWindow -> Prop) (m : M A) : Prop :=
  forall w w', P (this w) -> after (m w) = Some w' -> P (this w').

(** The calls that ask the capability probe about a depth/stencil format. *)
Definition is_format_probe (c : Call) : bool :=
  match c with
  | call_CheckDeviceFormat _ _ _ _ _ _ => true
  | call_CheckDepthStencilMatch _ _ _ _ _ => true
  | _ => false
  end.

(** The monitor [MonitorFromWindow] and [GetMonitorInfo] report for the
    window. *)
Definition monitor_of_window (env : Env) (t : D3D9RenderWindow) : MONITORINFO :=
  match os_GetMonitorInfo env (os_MonitorFromWindow env (mHWnd t)) with
  | Some info => info
  | None => zeroed_MONITORINFO
  end.

(** The specification's reading of the requested interval count: 1 to 4
    select the interval of that number, every other count the single
    interval. *)
Definition spec_interval_for_count (n : Z) : Z :=
  if n =? 1 then D3DPRESENT_INTERVAL_ONE
  else if n =? 2 then D3DPRESENT_INTERVAL_TWO
  else if n =? 3 then D3DPRESENT_INTERVAL_THREE
  else if n =? 4 then D3DPRESENT_INTERVAL_FOUR
  else D3DPRESENT_INTERVAL_ONE.

(** ** Sample configurations *)

Definition sample_desc : RENDER_WINDOW_DESC :=
  {| desc_width := 800; desc_height := 600; desc_fullscreen := false; desc_vsync := true;
     desc_vsyncInterval := 4; desc_depthBuffer := true; desc_colorDepth := 32;
     desc_FSAA := 0; desc_left := -1; desc_top := -1; desc_title := "sample";
     desc_border := Border_Normal; desc_outerDimensions := false;
     desc_toolWindow := false; desc_monitorIndex := -1; desc_platformSpecific := [] |}.

(** A monitor at the desktop origin, and one to its right. *)
Definition primary_monitor : MONITORINFO :=
  {| rcMonitor := SetRect 0 0 1920 1080; rcWork := SetRect 0 0 1920 1040 |}.

Definition second_monitor : MONITORINFO :=
  {| rcMonitor := SetRect 1920 0 3840 1080; rcWork := SetRect 1920 0 3840 1040 |}.

(** Decorations of 8 pixels at the left, right and bottom and 31 at the top
    for a window with a caption, none otherwise. *)
Definition sample_AdjustWindowRect (rc : RECT) (style : DWORD) : RECT :=
  if Z.land style WS_CAPTION =? WS_CAPTION
  then SetRect (left rc - 8) (top rc - 31) (right rc + 8) (bottom rc + 8)
  else rc.

(** The answers of a machine whose windows are on [monitor], with a device
    whose capability probe accepts the format checks with [checkFormat] and
    [checkMatch] and advertises the present intervals [intervals]. *)
Definition sample_env (monitor : MONITORINFO) (checkFormat : D3DFORMAT -> HRESULT)
    (checkMatch : HRESULT) (intervals : Z) : Env :=
  {| onCoreThread := true;
     os_MonitorFromPoint := fun _ _ => 1;
     os_MonitorFromWindow := fun _ => 1;
     os_GetMonitorInfo := fun _ => Some monitor;
     os_AdjustWindowRect := sample_AdjustWindowRect;
     indeterminate_RECT := SetRect 0 0 0 0;
     os_CreateWindowEx := 0x1234;
     os_GetWindowRect := fun _ => Some (SetRect 100 50 916 689);
     os_GetClientRect := fun _ => Some (SetRect 0 0 800 600);
     os_IsIconic := fun _ => false;
     d3d_GetAdapterCount := 2;
     d3d_GetAdapterMonitor := fun i => i + 1;
     d3d_GetDeviceCaps := fun _ _ => {| PresentationIntervals := intervals |};
     d3d_CheckDeviceFormat := fun _ _ _ _ _ fmt => checkFormat fmt;
     d3d_CheckDepthStencilMatch := fun _ _ _ _ _ => checkMatch;
     rs_determineFSAASettings := fun _ _ _ _ => (D3DMULTISAMPLE_NONE, 0);
     parseUnsignedInt := fun _ => 0;
     dev_getAdapterNumber := fun _ => 0;
     dev_getDeviceType := fun _ => D3DDEVTYPE_HAL;
     dev_validate := fun _ => true |}.

Definition D3D_OK : HRESULT := 0.
Definition D3DERR_NOTAVAILABLE : HRESULT := -2005530518.

Definition accept_all (_ : D3DFORMAT) : HRESULT := D3D_OK.
Definition reject_all (_ : D3DFORMAT) : HRESULT := D3DERR_NOTAVAILABLE.

Definition desktop_env : Env :=
  sample_env primary_monitor accept_all D3D_OK
    (Z.lor D3DPRESENT_INTERVAL_ONE D3DPRESENT_INTERVAL_IMMEDIATE).

(** The same machine with the windows on the second monitor. *)
Definition second_monitor_env : Env :=
  sample_env second_monitor accept_all D3D_OK
    (Z.lor D3DPRESENT_INTERVAL_ONE D3DPRESENT_INTERVAL_IMMEDIATE).

(** A device whose capability probe rejects every depth/stencil format. *)
Definition naff_card_env : Env :=
  sample_env primary_monitor reject_all D3DERR_NOTAVAILABLE
    (Z.lor D3DPRESENT_INTERVAL_ONE D3DPRESENT_INTERVAL_IMMEDIATE).

(** A windowed 800 x 600 window with a window handle, bound to device [0],
    which is valid. *)
Definition sample_window : D3D9RenderWindow :=
  {| mDesc := sample_desc; mInstance := 1; mDevice := Some 0%nat; mIsFullScreen := false;
     mIsExternal := false; mHWnd := 0x1234; mActive := true; mClosed := false;
     mSwitchingFullscreen := false; mDisplayFrequency := 60; mDeviceValid := true;
     mIsDepthBuffered := true; mFSAAType := 0; mFSAAQuality := 0; mFSAA := 0;
     mFSAAHint := ""; mVSync := true; mVSyncInterval := 4; mWidth := 800; mHeight := 600;
     mDesiredWidth := 800; mDesiredHeight := 600; mTop := 50; mLeft := 100;
     mStyle := Z.lor (Z.lor WS_VISIBLE WS_CLIPCHILDREN) WS_OVERLAPPEDWINDOW;
     mName := "sample"; mColorDepth := 32; mHwGamma := false |}.

(** The window before a device is assigned to it, and with a device that is
    not valid. *)
Definition unbound_window : D3D9RenderWindow :=
  set_mDeviceValid false (set_mDevice None sample_window).

Definition invalid_window : D3D9RenderWindow := set_mDeviceValid false sample_window.

Definition world_of (t : D3D9RenderWindow) : World := {| this := t; calls := [] |}.

(** ** Custom attributes *)

(** The objects a device hands out: its Direct3D device and the depth and
    back buffer it keeps for a window. *)
Record DeviceObjects := {
  dev_getD3D9Device : D3D9Device -> Z;
  dev_getDepthBuffer : D3D9Device -> Z;
  dev_getBackBuffer : D3D9Device -> Z
}.

(** What [getCustomAttribute] writes through [pData]. *)
Inductive AttributeValue :=
| Attr_Device (device : Z)
| Attr_Window (hWnd : HWND)
| Attr_Bool (b : bool)
| Attr_Surface (surface : Z).

Definition _getD3D9Device (objs : DeviceObjects) : M Z :=
  d <- deref_mDevice ;; ret (dev_getD3D9Device objs d).

Definition _getRenderSurface (objs : DeviceObjects) : M Z :=
  d <- deref_mDevice ;; ret (dev_getBackBuffer objs d).

(** [getCustomAttribute]: the value written through [pData], [None] when
    nothing is written. *)
Definition getCustomAttribute (objs : DeviceObjects) (name : string)
    : M (option AttributeValue) :=
  if String.eqb name "D3DDEVICE" then
    device <- _getD3D9Device objs ;; ret (Some (Attr_Device device))
  else if String.eqb name "WINDOW" then
    t <- get ;; ret (Some (Attr_Window (mHWnd t)))
  else if String.eqb name "isTexture" then
    ret (Some (Attr_Bool false))
  else if String.eqb name "D3DZBUFFER" then
    d <- deref_mDevice ;; ret (Some (Attr_Surface (dev_getDepthBuffer objs d)))
  else if String.eqb name "DDBACKBUFFER" then
    d <- deref_mDevice ;; ret (Some (Attr_Surface (dev_getBackBuffer objs d)))
  else if String.eqb name "DDFRONTBUFFER" then
    d <- deref_mDevice ;; ret (Some (Attr_Surface (dev_getBackBuffer objs d)))
  else ret None.

Definition attribute_names : list string :=
  ["D3DDEVICE"; "WINDOW"; "isTexture"; "D3DZBUFFER"; "DDBACKBUFFER"; "DDFRONTBUFFER"]%string.

(** ** Classes of operations and of calls *)

(** The member functions that start with [THROW_IF_NOT_CORE_THREAD]. *)
Definition is_thread_checked (op : Op) : bool :=
  match op with
  | op_setFullscreen _ _ _ | op_move _ _ | op_resize _ _ | op_swapBuffers
  | op_copyToMemory _ _ | op_windowMovedOrResized => true
  | _ => false
  end.

(** The member functions that assign [mDevice]. *)
Definition assigns_mDevice (op : Op) : bool :=
  match op with
  | op_setDevice _ | op_destroy_internal => true
  | _ => false
  end.

(** The member functions that assign [mDeviceValid]. *)
Definition assigns_mDeviceValid (op : Op) : bool :=
  match op with
  | op_setDevice _ | op_validateDevice => true
  | _ => false
  end.

(** The member functions that assign [mHWnd]. *)
Definition assigns_mHWnd (op : Op) : bool :=
  match op with
  | op_initialize_internal | op_destroy_internal => true
  | _ => false
  end.

(** The calls in a log that release something: the window or the binding to
    the device. *)
Definition is_release (c : Call) : bool :=
  match c with
  | call_DestroyWindow _ | call_Device_detachRenderWindow _ => true
  | _ => false
  end.

Definition is_invalidate (c : Call) : bool :=
  match c with
  | call_Device_invalidate _ => true
  | _ => false
  end.

(** The handles the window description carries in [platformSpecific]: zero
    when the key is missing. *)
Definition external_handle (env : Env) (desc : RENDER_WINDOW_DESC) : Z :=
  match find "externalWindowHandle" (desc_platformSpecific desc) with
  | Some v => parseUnsignedInt env v
  | None => 0
  end.

Definition parent_handle (env : Env) (desc : RENDER_WINDOW_DESC) : Z :=
  match find "parentWindowHandle" (desc_platformSpecific desc) with
  | Some v => parseUnsignedInt env v
  | None => 0
  end.

(** The monitor a new window is placed on: the monitor of the adapter
    [monitorIndex] when the index is given, is below the adapter count and
    has a monitor, and otherwise the monitor of the anchor point. *)
Definition target_monitor (env : Env) (desc : RENDER_WINDOW_DESC) : MONITORINFO :=
  let idx := u32 (desc_monitorIndex desc) in
  let adapterMonitor :=
    if negb (idx =? u32 (-1))
    then if idx <? d3d_GetAdapterCount env then d3d_GetAdapterMonitor env idx else 0
    else 0 in
  let hMonitor :=
    if adapterMonitor =? 0
    then os_MonitorFromPoint env (s32 (desc_left desc)) (s32 (desc_top desc))
    else adapterMonitor in
  match os_GetMonitorInfo env hMonitor with
  | Some info => info
  | None => zeroed_MONITORINFO
  end.

(** ** Further sample configurations *)

(** The answers of [env], given to a caller that is not the core thread. *)
Definition off_core_thread (env : Env) : Env :=
  {| onCoreThread := false;
     os_MonitorFromPoint := os_MonitorFromPoint env;
     os_MonitorFromWindow := os_MonitorFromWindow env;
     os_GetMonitorInfo := os_GetMonitorInfo env;
     os_AdjustWindowRect := os_AdjustWindowRect env;
     indeterminate_RECT := indeterminate_RECT env;
     os_CreateWindowEx := os_CreateWindowEx env;
     os_GetWindowRect := os_GetWindowRect env;
     os_GetClientRect := os_GetClientRect env;
     os_IsIconic := os_IsIconic env;
     d3d_GetAdapterCount := d3d_GetAdapterCount env;
     d3d_GetAdapterMonitor := d3d_GetAdapterMonitor env;
     d3d_GetDeviceCaps := d3d_GetDeviceCaps env;
     d3d_CheckDeviceFormat := d3d_CheckDeviceFormat env;
     d3d_CheckDepthStencilMatch := d3d_CheckDepthStencilMatch env;
     rs_determineFSAASettings := rs_determineFSAASettings env;
     parseUnsignedInt := parseUnsignedInt env;
     dev_getAdapterNumber := dev_getAdapterNumber env;
     dev_getDeviceType := dev_getDeviceType env;
     dev_validate := dev_validate env |}.

(** The answers of [env], with another reading of handle strings. *)
Definition with_parseUnsignedInt (parse : string -> Z) (env : Env) : Env :=
  {| onCoreThread := onCoreThread env;
     os_MonitorFromPoint := os_MonitorFromPoint env;
     os_MonitorFromWindow := os_MonitorFromWindow env;
     os_GetMonitorInfo := os_GetMonitorInfo env;
     os_AdjustWindowRect := os_AdjustWindowRect env;
     indeterminate_RECT := indeterminate_RECT env;
     os_CreateWindowEx := os_CreateWindowEx env;
     os_GetWindowRect := os_GetWindowRect env;
     os_GetClientRect := os_GetClientRect env;
     os_IsIconic := os_IsIconic env;
     d3d_GetAdapterCount := d3d_GetAdapterCount env;
     d3d_GetAdapterMonitor := d3d_GetAdapterMonitor env;
     d3d_GetDeviceCaps := d3d_GetDeviceCaps env;
     d3d_CheckDeviceFormat := d3d_CheckDeviceFormat env;
     d3d_CheckDepthStencilMatch := d3d_CheckDepthStencilMatch env;
     rs_determineFSAASettings := rs_determineFSAASettings env;
     parseUnsignedInt := parse;
     dev_getAdapterNumber := dev_getAdapterNumber env;
     dev_getDeviceType := dev_getDeviceType env;
     dev_validate := dev_validate env |}.

(** A history on the sample window, with a switch to fullscreen, a
    notification, the end of the switch and a present. *)
Definition busy_history : list (Env * Op) :=
  [(desktop_env, op_setFullscreen true 1920 1080);
   (desktop_env, op_windowMovedOrResized);
   (desktop_env, op_finishSwitchingFullscreen);
   (desktop_env, op_buildPresentParameters);
   (desktop_env, op_swapBuffers);
   (desktop_env, op_resize 640 480)].

(** The handle of the sample window has become invalid for the client
    rectangle. *)
Definition stale_handle_env : Env :=
  {| onCoreThread := true;
     os_MonitorFromPoint := os_MonitorFromPoint desktop_env;
     os_MonitorFromWindow := os_MonitorFromWindow desktop_env;
     os_GetMonitorInfo := fun _ => None;
     os_AdjustWindowRect := os_AdjustWindowRect desktop_env;
     indeterminate_RECT := indeterminate_RECT desktop_env;
     os_CreateWindowEx := os_CreateWindowEx desktop_env;
     os_GetWindowRect := os_GetWindowRect desktop_env;
     os_GetClientRect := fun _ => None;
     os_IsIconic := os_IsIconic desktop_env;
     d3d_GetAdapterCount := d3d_GetAdapterCount desktop_env;
     d3d_GetAdapterMonitor := d3d_GetAdapterMonitor desktop_env;
     d3d_GetDeviceCaps := d3d_GetDeviceCaps desktop_env;
     d3d_CheckDeviceFormat := d3d_CheckDeviceFormat desktop_env;
     d3d_CheckDepthStencilMatch := d3d_CheckDepthStencilMatch desktop_env;
     rs_determineFSAASettings := rs_determineFSAASettings desktop_env;
     parseUnsignedInt := parseUnsignedInt desktop_env;
     dev_getAdapterNumber := dev_getAdapterNumber desktop_env;
     dev_getDeviceType := dev_getDeviceType desktop_env;
     dev_validate := dev_validate desktop_env |}.

Definition iconic_env : Env :=
  {| onCoreThread := true;
     os_MonitorFromPoint := os_MonitorFromPoint desktop_env;
     os_MonitorFromWindow := os_MonitorFromWindow desktop_env;
     os_GetMonitorInfo := os_GetMonitorInfo desktop_env;
     os_AdjustWindowRect := os_AdjustWindowRect desktop_env;
     indeterminate_RECT := indeterminate_RECT desktop_env;
     os_CreateWindowEx := os_CreateWindowEx desktop_env;
     os_GetWindowRect := fun _ => Some (SetRect (-32000) (-32000) (-31840) (-31972));
     os_GetClientRect := fun _ => Some (SetRect 0 0 0 0);
     os_IsIconic := fun _ => true;
     d3d_GetAdapterCount := d3d_GetAdapterCount desktop_env;
     d3d_GetAdapterMonitor := d3d_GetAdapterMonitor desktop_env;
     d3d_GetDeviceCaps := d3d_GetDeviceCaps desktop_env;
     d3d_CheckDeviceFormat := d3d_CheckDeviceFormat desktop_env;
     d3d_CheckDepthStencilMatch := d3d_CheckDepthStencilMatch desktop_env;
     rs_determineFSAASettings := rs_determineFSAASettings desktop_env;
     parseUnsignedInt := parseUnsignedInt desktop_env;
     dev_getAdapterNumber := dev_getAdapterNumber desktop_env;
     dev_getDeviceType := dev_getDeviceType desktop_env;
     dev_validate := dev_validate desktop_env |}.

(** A description that hands over the window [0x4321]. *)
Definition adopting_desc : RENDER_WINDOW_DESC :=
  {| desc_width := 800; desc_height := 600; desc_fullscreen := false; desc_vsync := true;
     desc_vsyncInterval := 1; desc_depthBuffer := true; desc_colorDepth := 32;
     desc_FSAA := 0; desc_left := -1; desc_top := -1; desc_title := "adopted";
     desc_border := Border_Normal; desc_outerDimensions := false;
     desc_toolWindow := false; desc_monitorIndex := -1;
     desc_platformSpecific := [("externalWindowHandle"%string, "17185"%string)] |}.

Definition adopting_env : Env := with_parseUnsignedInt (fun _ => 0x4321) desktop_env.

(** A fullscreen description for the second adapter. *)
Definition fullscreen_desc : RENDER_WINDOW_DESC :=
  {| desc_width := 1920; desc_height := 1080; desc_fullscreen := true; desc_vsync := true;
     desc_vsyncInterval := 1; desc_depthBuffer := true; desc_colorDepth := 32;
     desc_FSAA := 0; desc_left := -1; desc_top := -1; desc_title := "fullscreen";
     desc_border := Border_Normal; desc_outerDimensions := false;
     desc_toolWindow := false; desc_monitorIndex := 1; desc_platformSpecific := [] |}.

(** A description that asks for a client size larger than the monitor. *)
Definition oversized_desc : RENDER_WINDOW_DESC :=
  {| desc_width := 5000; desc_height := 4000; desc_fullscreen := false; desc_vsync := true;
     desc_vsyncInterval := 1; desc_depthBuffer := true; desc_colorDepth := 32;
     desc_FSAA := 0; desc_left := 1000; desc_top := 500; desc_title := "oversized";
     desc_border := Border_Normal; desc_outerDimensions := false;
     desc_toolWindow := false; desc_monitorIndex := -1; desc_platformSpecific := [] |}.

Definition sample_objects : DeviceObjects :=
  {| dev_getD3D9Device := fun d => 100 + Z.of_nat d;
     dev_getDepthBuffer := fun d => 200 + Z.of_nat d;
     dev_getBackBuffer := fun d => 300 + Z.of_nat d |}.

(** * Properties *)

(** ** Running the monad *)

(** Unfold the combinators of [M] and the wrappers of the outside calls. *)
Ltac run :=
  cbv beta iota delta
    [bind ret get assign call throw when void THROW_IF_NOT_CORE_THREAD deref_mDevice
     MonitorFromPoint MonitorFromWindow GetMonitorInfo AdjustWindowRect GetWindowRect
     GetClientRect IsIconic SetWindowPos SetWindowLong SetWindowRgn SendMessage
     DestroyWindow CreateWindowEx GetAdapterCount GetAdapterMonitor determineFSAASettings
     GetDeviceCaps CheckDeviceFormat CheckDepthStencilMatch Device_getAdapterNumber
     Device_invalidate Device_present Device_copyContentsToMemory Device_validate
     Device_detachRenderWindow HACK_SendLMBUpEvent];
  cbn [this calls].

(** ** The model at work *)

(** The initialization of a fresh object with the sample description: the
    window is created with the outer size [_adjustWindow] gives, at the
    position that centers the client size on the 1920 x 1040 work area; the
    position and the client size are then read back from the window system. *)
Example initialize_internal_sample :
  option_map
    (fun w => (calls w, mHWnd (this w), (mLeft (this w), mTop (this w)),
               (mWidth (this w), mHeight (this w)),
               (mDesiredWidth (this w), mDesiredHeight (this w))))
    (after (initialize_internal desktop_env
              (world_of (D3D9RenderWindow_ctor sample_window sample_desc 1))))
  = Some
      ([call_MonitorFromPoint (-1) (-1) MONITOR_DEFAULTTOPRIMARY; call_GetMonitorInfo 1;
        call_AdjustWindowRect (SetRect 0 0 800 600) (mStyle sample_window);
        call_MonitorFromWindow 0 MONITOR_DEFAULTTONEAREST; call_GetMonitorInfo 1;
        call_AdjustWindowRect (SetRect 0 0 800 600) (mStyle sample_window);
        call_RegisterClass;
        call_CreateWindowEx 0 "sample" (mStyle sample_window) 560 220 816 639 0 1;
        call_GetWindowRect 0x1234; call_GetClientRect 0x1234;
        call_registerWindow; call_RenderWindow_initialize_internal],
       0x1234, (100, 50), (800, 600), (800, 600)).
Proof. reflexivity. Qed.

(** A switch of the sample window to 1920 x 1080 fullscreen: the window goes
    to the origin of the monitor, loses its decorations, and the device is
    invalidated once. *)
Example setFullscreen_sample :
  setFullscreen desktop_env true 1920 1080 (world_of sample_window)
  = Returned tt
      {| this :=
           set_mLeft 0 (set_mTop 0
             (set_mStyle (Z.lor (Z.lor WS_VISIBLE WS_CLIPCHILDREN) WS_POPUP)
                (set_mHeight 1080 (set_mDesiredHeight 1080
                   (set_mWidth 1920 (set_mDesiredWidth 1920
                      (set_mIsFullScreen true
                         (set_mSwitchingFullscreen true sample_window))))))));
         calls :=
           [call_MonitorFromWindow 0x1234 MONITOR_DEFAULTTONEAREST; call_GetMonitorInfo 1;
            call_SetWindowPos 0x1234 HWND_TOPMOST 0 0 1920 1080 SWP_NOACTIVATE;
            call_SetWindowLong 0x1234 GWL_STYLE
              (Z.lor (Z.lor WS_VISIBLE WS_CLIPCHILDREN) WS_POPUP);
            call_SetWindowPos 0x1234 0 0 0 0 0
              (Z.lor SWP_NOACTIVATE
                 (Z.lor SWP_NOMOVE
                    (Z.lor SWP_NOSIZE (Z.lor SWP_NOZORDER SWP_FRAMECHANGED))));
            call_Device_invalidate 0%nat] |}.
Proof. reflexivity. Qed.

(** ** Idempotence of [setFullscreen] *)

(** C1: [setFullscreen] called with the window's current fullscreen flag, width
    and height changes nothing: the object (every member) and the log of
    outside calls are the ones before the call, so the device is not
    invalidated.  Off the core thread the call throws, also without a change. *)
Theorem setFullscreen_current_mode_is_noop (env : Env) (w : World) :
  setFullscreen env (mIsFullScreen (this w)) (mWidth (this w)) (mHeight (this w)) w
  = if onCoreThread env then Returned tt w else Thrown NotCoreThread w.
Proof.
  unfold setFullscreen. run.
  destruct (onCoreThread env); [ | reflexivity ].
  rewrite Bool.eqb_reflx, !Z.eqb_refl. reflexivity.
Qed.

(** ** Frame reasoning: what a member function leaves true of the object *)

Section Preserves.
Variable P : D3D9RenderWindow -> Prop.

Lemma preserves_ret {A} (a : A) : preserves P (ret a).
Proof. intros w w' H E; injection E as <-; exact H. Qed.

Lemma preserves_throw {A} (e : Exception) : preserves P (@throw A e).
Proof. intros w w' H E; injection E as <-; exact H. Qed.

Lemma preserves_get : preserves P get.
Proof. intros w w' H E; injection E as <-; exact H. Qed.

Lemma preserves_call (c : Call) : preserves P (call c).
Proof. intros w w' H E; injection E as <-; exact H. Qed.

Lemma preserves_deref : preserves P deref_mDevice.
Proof.
  intros w w' H E; unfold deref_mDevice in E.
  destruct (mDevice (this w)); [ injection E as <-; exact H | discriminate ].
Qed.

Lemma preserves_assign (f : D3D9RenderWindow -> D3D9RenderWindow) :
  (forall t, P t -> P (f t)) -> preserves P (assign f).
Proof. intros Hf w w' H E; injection E as <-; apply Hf, H. Qed.

Lemma preserves_bind {A B} (m : M A) (k : A -> M B) :
  preserves P m -> (forall a, preserves P (k a)) -> preserves P (bind m k).
Proof.
  intros Hm Hk w w' H E; unfold bind in E.
  destruct (m w) as [a w1 | e w1 | ] eqn:Em.
  - apply (Hk a w1 w'); [ apply (Hm w w1 H); rewrite Em; reflexivity | exact E ].
  - apply (Hm w w' H); rewrite Em; exact E.
  - discriminate.
Qed.

Lemma preserves_when (b : bool) (m : M unit) : preserves P m -> preserves P (when b m).
Proof. intros Hm; destruct b; [ exact Hm | apply preserves_ret ]. Qed.

Lemma preserves_THROW (env : Env) : preserves P (THROW_IF_NOT_CORE_THREAD env).
Proof.
  unfold THROW_IF_NOT_CORE_THREAD; destruct (onCoreThread env);
    [ apply preserves_ret | apply preserves_throw ].
Qed.
End Preserves.

Create HintDb frame discriminated.
#[local] Hint Resolve preserves_ret preserves_throw preserves_get preserves_call
  preserves_deref preserves_THROW : frame.

(** Walk through a member function: one frame lemma for each combinator, a
    case split for each branch, the member assignments by computation. *)
Ltac frame_step :=
  lazymatch goal with
  | |- preserves _ (bind _ _) => apply preserves_bind; [ | intros ? ]
  | |- preserves _ (when _ _) => apply preserves_when
  | |- preserves _ (assign _) => apply preserves_assign; intros ? ?; cbn; auto
  | |- preserves _ (if ?b then _ else _) => destruct b
  | |- preserves _ (match ?x with _ => _ end) => destruct x
  | |- preserves _ (let '(_, _) := ?x in _) => destruct x
  | |- preserves _ _ => solve [ auto with frame ]
  end.

Ltac frame := repeat frame_step.

Ltac frame_outside :=
  unfold MonitorFromPoint, MonitorFromWindow, GetMonitorInfo, AdjustWindowRect,
    GetWindowRect, GetClientRect, IsIconic, SetWindowPos, SetWindowLong, SetWindowRgn,
    SendMessage, DestroyWindow, CreateWindowEx, GetAdapterCount, GetAdapterMonitor,
    determineFSAASettings, GetDeviceCaps, CheckDeviceFormat, CheckDepthStencilMatch,
    Device_getAdapterNumber, Device_invalidate, Device_present,
    Device_copyContentsToMemory, Device_validate, Device_detachRenderWindow,
    HACK_SendLMBUpEvent, void.

Lemma preserves__adjustWindow (P : D3D9RenderWindow -> Prop) (env : Env)
    (clientWidth clientHeight : Z) (style : DWORD) :
  preserves P (_adjustWindow env clientWidth clientHeight style).
Proof. unfold _adjustWindow; frame_outside; frame. Qed.

Lemma preserves_isVisible (P : D3D9RenderWindow -> Prop) (env : Env) :
  preserves P (isVisible env).
Proof. unfold isVisible; frame_outside; frame. Qed.

Lemma preserves_isActive (P : D3D9RenderWindow -> Prop) (env : Env) :
  preserves P (isActive env).
Proof. unfold isActive; frame; apply preserves_isVisible. Qed.

Lemma preserves__buildPresentParameters (P : D3D9RenderWindow -> Prop) (env : Env) :
  preserves P (_buildPresentParameters env).
Proof. unfold _buildPresentParameters; frame_outside; frame. Qed.

#[local] Hint Resolve preserves__adjustWindow preserves_isVisible preserves_isActive
  preserves__buildPresentParameters : frame.

Lemma preserves_adapter_monitor_loop (P : D3D9RenderWindow -> Prop) (env : Env)
    (monitorIndex : Z) (fuel : nat) :
  forall i, preserves P (adapter_monitor_loop env monitorIndex i fuel).
Proof.
  induction fuel as [ | fuel IH ]; intros i; cbn [adapter_monitor_loop];
    frame_outside; frame.
Qed.

#[local] Hint Resolve preserves_adapter_monitor_loop : frame.

(** A predicate on the object carries over a history when every call of the
    history preserves it. *)
Lemma run_ops_preserves (P : D3D9RenderWindow -> Prop) (allowed : Op -> bool) :
  (forall env op, allowed op = true -> preserves P (exec env op)) ->
  forall history w w',
    forallb (fun call => allowed (snd call)) history = true ->
    P (this w) -> run_ops history w = Some w' -> P (this w').
Proof.
  intros Hstep history.
  induction history as [ | [env op] rest IH ]; intros w w' Hall HP Hrun; cbn in *.
  - injection Hrun as <-; exact HP.
  - apply andb_prop in Hall as [Hop Hrest].
    destruct (after (exec env op w)) as [w1 | ] eqn:E; [ | discriminate ].
    apply (IH w1 w' Hrest); [ | exact Hrun ].
    apply (Hstep env op Hop w w1 HP E).
Qed.

(** ** The transitional flag *)

Lemma switching_stays_set (env : Env) (op : Op) :
  negb (is_finishSwitchingFullscreen op) = true ->
  preserves (fun t => mSwitchingFullscreen t = true) (exec env op).
Proof.
  destruct op; cbn [is_finishSwitchingFullscreen negb exec]; intros H; try discriminate;
    unfold initialize_internal, destroy_internal, setFullscreen, move, resize, swapBuffers,
      copyToMemory, startResize, endResize, startMove, endMove, _windowMovedOrResized,
      updateWindowRect, _getSwitchingFullscreen, _getDevice, _setDevice, _isDepthBuffered,
      _validateDevice;
    frame_outside; frame.
Qed.

(** [setFullscreen] returns when it runs on the core thread with a bound
    device, and then the transitional flag is set exactly by a change of the
    fullscreen flag. *)
Lemma setFullscreen_switching (env : Env) (w : World) (d : D3D9Device)
    (fullScreen : bool) (width height : Z) :
  onCoreThread env = true ->
  mDevice (this w) = Some d ->
  exists w',
    setFullscreen env fullScreen width height w = Returned tt w' /\
    mSwitchingFullscreen (this w') =
      (if Bool.eqb fullScreen (mIsFullScreen (this w))
       then mSwitchingFullscreen (this w) else true).
Proof.
  intros Hcore Hdev. unfold setFullscreen, _adjustWindow. run. rewrite Hcore.
  cbn [this calls].
  destruct (negb (Bool.eqb fullScreen (mIsFullScreen (this w)))
            || negb (width =? mWidth (this w)) || negb (height =? mHeight (this w)))
    eqn:Guard.
  - destruct fullScreen, (mIsFullScreen (this w)); cbn; rewrite ?Hdev;
      eexists; split; reflexivity.
  - (* the guard is false, so the fullscreen flags agree *)
    apply orb_false_elim in Guard as [Guard _].
    apply orb_false_elim in Guard as [Guard _].
    apply negb_false_iff in Guard. rewrite Guard.
    eexists; split; reflexivity.
Qed.

Lemma _finishSwitchingFullscreen_clears (env : Env) (w : World) :
  exists w',
    _finishSwitchingFullscreen env w = Returned tt w' /\
    mSwitchingFullscreen (this w') = false.
Proof.
  unfold _finishSwitchingFullscreen, _adjustWindow. run.
  destruct (mIsFullScreen (this w)); cbn.
  - eexists; split; reflexivity.
  - destruct (negb (mWidth (this w) =? mDesiredWidth (this w))
              || negb (mHeight (this w) =? mDesiredHeight (this w)));
      eexists; split; reflexivity.
Qed.

(** C2: on the core thread with a bound device, [setFullscreen] returns; the
    transitional flag is then set when the call changed the fullscreen flag and
    is the flag of before when the fullscreen flag stayed (a change of width or
    height alone never sets it).  Once set, the flag stays set along every
    history of calls without [_finishSwitchingFullscreen], and
    [_finishSwitchingFullscreen] always returns with the flag cleared. *)
Theorem switching_flag_lifecycle :
  (forall env w d fullScreen width height,
      onCoreThread env = true ->
      mDevice (this w) = Some d ->
      exists w',
        setFullscreen env fullScreen width height w = Returned tt w' /\
        mSwitchingFullscreen (this w') =
          (if Bool.eqb fullScreen (mIsFullScreen (this w))
           then mSwitchingFullscreen (this w) else true)) /\
  (forall history w w',
      forallb (fun call => negb (is_finishSwitchingFullscreen (snd call))) history = true ->
      mSwitchingFullscreen (this w) = true ->
      run_ops history w = Some w' ->
      mSwitchingFullscreen (this w') = true) /\
  (forall env w,
      exists w',
        _finishSwitchingFullscreen env w = Returned tt w' /\
        mSwitchingFullscreen (this w') = false).
Proof.
  split; [ | split ].
  - intros env w d fullScreen width height. apply setFullscreen_switching.
  - intros history w w'.
    apply (run_ops_preserves (fun t => mSwitchingFullscreen t = true)
             (fun op => negb (is_finishSwitchingFullscreen op))).
    intros env op. apply switching_stays_set.
  - apply _finishSwitchingFullscreen_clears.
Qed.

(** The lifecycle on the sample window: a switch to fullscreen sets the flag,
    a resize notification, a resize request, a change of resolution and a
    present leave it set, the end of the switch clears it. *)
Lemma switching_flag_lifecycle_witness :
  exists w1 w2 w3,
    setFullscreen desktop_env true 1920 1080 (world_of sample_window) = Returned tt w1 /\
    mSwitchingFullscreen (this w1) = true /\
    run_ops [(desktop_env, op_windowMovedOrResized); (desktop_env, op_resize 640 480);
             (desktop_env, op_setFullscreen true 1280 720); (desktop_env, op_swapBuffers)]
      w1 = Some w2 /\
    mSwitchingFullscreen (this w2) = true /\
    _finishSwitchingFullscreen desktop_env w2 = Returned tt w3 /\
    mSwitchingFullscreen (this w3) = false.
Proof.
  destruct switching_flag_lifecycle as (Hset & Hstay & Hclear).
  destruct (Hset desktop_env (world_of sample_window) 0%nat true 1920 1080
              eq_refl eq_refl) as (w1 & E1 & F1).
  exists w1.
  assert (R : exists w2,
             run_ops [(desktop_env, op_windowMovedOrResized);
                      (desktop_env, op_resize 640 480);
                      (desktop_env, op_setFullscreen true 1280 720);
                      (desktop_env, op_swapBuffers)] w1 = Some w2).
  { vm_compute in E1. injection E1 as <-. vm_compute. eexists; reflexivity. }
  destruct R as (w2 & R). exists w2.
  destruct (Hclear desktop_env w2) as (w3 & E3 & F3). exists w3.
  repeat split; try assumption.
  eapply Hstay; [ | exact F1 | exact R ]; reflexivity.
Defined.

(** ** [move] and [resize] outside windowed mode *)

(** C10: when the window is fullscreen or has no window handle, [move] and
    [resize] change nothing: the object and the log of outside calls are the
    ones before the call (no member is written, no window-system call is
    made).  Off the core thread the calls throw, also without a change. *)
Theorem move_resize_noop_when_fullscreen_or_no_window (env : Env) (w : World)
    (top left width height : Z) :
  mIsFullScreen (this w) = true \/ mHWnd (this w) = 0 ->
  move env top left w = (if onCoreThread env then Returned tt w else Thrown NotCoreThread w)
  /\ resize env width height w
     = (if onCoreThread env then Returned tt w else Thrown NotCoreThread w).
Proof.
  intros H. unfold move, resize. run.
  assert (G : negb (mHWnd (this w) =? 0) && negb (mIsFullScreen (this w)) = false).
  { destruct H as [H | H]; rewrite H.
    - apply andb_false_r.
    - reflexivity. }
  destruct (onCoreThread env); cbv beta iota; rewrite ?G; split; reflexivity.
Qed.

Lemma move_resize_noop_when_fullscreen_or_no_window_witness :
  let fullscreen := world_of (set_mIsFullScreen true sample_window) in
  let closed := world_of (set_mHWnd 0 sample_window) in
  (move desktop_env 10 20 fullscreen = Returned tt fullscreen
   /\ resize desktop_env 640 480 fullscreen = Returned tt fullscreen)
  /\ (move desktop_env 10 20 closed = Returned tt closed
      /\ resize desktop_env 640 480 closed = Returned tt closed).
Proof.
  split.
  - apply (move_resize_noop_when_fullscreen_or_no_window desktop_env
             (world_of (set_mIsFullScreen true sample_window)) 10 20 640 480).
    left; reflexivity.
  - apply (move_resize_noop_when_fullscreen_or_no_window desktop_env
             (world_of (set_mHWnd 0 sample_window)) 10 20 640 480).
    right; reflexivity.
Defined.

(** ** The desired size *)

Lemma desired_size_stays (env : Env) (op : Op) (dw dh : Z) :
  negb (is_size_request op) = true ->
  preserves (fun t => mDesiredWidth t = dw /\ mDesiredHeight t = dh) (exec env op).
Proof.
  destruct op; cbn [is_size_request negb exec]; intros H; try discriminate;
    unfold destroy_internal, move, resize, swapBuffers, copyToMemory, startResize,
      endResize, startMove, endMove, _windowMovedOrResized, updateWindowRect,
      _finishSwitchingFullscreen, _getSwitchingFullscreen, _getDevice, _setDevice,
      _isDepthBuffered, _validateDevice;
    frame_outside; frame.
Qed.

(** What a resize notification does to a visible window: the position and the
    client size the window system reports replace the current ones. *)
Lemma _windowMovedOrResized_overwrites (env : Env) (w : World) (rcWindow rcClient : RECT) :
  onCoreThread env = true ->
  mHWnd (this w) <> 0 ->
  os_IsIconic env (mHWnd (this w)) = false ->
  os_GetWindowRect env (mHWnd (this w)) = Some rcWindow ->
  os_GetClientRect env (mHWnd (this w)) = Some rcClient ->
  exists w',
    _windowMovedOrResized env w = Returned tt w' /\
    mTop (this w') = top rcWindow /\
    mLeft (this w') = left rcWindow /\
    mWidth (this w') = u32 (s32 (right rcClient - left rcClient)) /\
    mHeight (this w') = u32 (s32 (bottom rcClient - top rcClient)).
Proof.
  intros Hcore Hwnd Hicon Hwr Hcr.
  unfold _windowMovedOrResized, updateWindowRect. run.
  rewrite Hcore. cbn [this calls].
  apply Z.eqb_neq in Hwnd. rewrite Hwnd, Hicon. cbn [this calls].
  rewrite Hwr. cbn. rewrite Hcr. cbn.
  eexists; repeat split; reflexivity.
Qed.

(** What a request does: the requested size becomes the desired and the
    current size. *)
Lemma setFullscreen_sets_size (env : Env) (w : World) (d : D3D9Device)
    (fullScreen : bool) (width height : Z) :
  onCoreThread env = true ->
  mDevice (this w) = Some d ->
  exists w',
    setFullscreen env fullScreen width height w = Returned tt w' /\
    mIsFullScreen (this w') = fullScreen /\
    mWidth (this w') = width /\ mHeight (this w') = height /\
    (fullScreen <> mIsFullScreen (this w) \/ width <> mWidth (this w)
     \/ height <> mHeight (this w) ->
     mDesiredWidth (this w') = width /\ mDesiredHeight (this w') = height).
Proof.
  intros Hcore Hdev. unfold setFullscreen, _adjustWindow. run. rewrite Hcore.
  cbn [this calls].
  destruct (negb (Bool.eqb fullScreen (mIsFullScreen (this w)))
            || negb (width =? mWidth (this w)) || negb (height =? mHeight (this w)))
    eqn:Guard.
  - destruct fullScreen, (mIsFullScreen (this w)); cbn; rewrite ?Hdev;
      eexists; repeat split; reflexivity.
  - apply orb_false_elim in Guard as [Guard Gh].
    apply orb_false_elim in Guard as [Gf Gw].
    apply negb_false_iff in Gf, Gw, Gh.
    apply Bool.eqb_prop in Gf. apply Z.eqb_eq in Gw, Gh.
    eexists; split; [ reflexivity | ]. cbn [this].
    split; [ congruence | ]. split; [ congruence | ]. split; [ congruence | ].
    intros [ Hd | [ Hd | Hd ] ]; congruence.
Qed.

(** C9: the desired width and height are the same before and after every
    history of calls that contains neither the initialization nor
    [setFullscreen] (so [move], [resize], the notifications, the end of a
    switch, the device calls leave them alone).  In particular a notification
    [_windowMovedOrResized] on a visible window returns with the current
    top, left, width and height replaced by what the window system reports and
    with the desired size untouched. *)
Theorem desired_size_changes_only_on_request :
  (forall history w w',
      forallb (fun call => negb (is_size_request (snd call))) history = true ->
      run_ops history w = Some w' ->
      mDesiredWidth (this w') = mDesiredWidth (this w) /\
      mDesiredHeight (this w') = mDesiredHeight (this w)) /\
  (forall env w rcWindow rcClient,
      onCoreThread env = true ->
      mHWnd (this w) <> 0 ->
      os_IsIconic env (mHWnd (this w)) = false ->
      os_GetWindowRect env (mHWnd (this w)) = Some rcWindow ->
      os_GetClientRect env (mHWnd (this w)) = Some rcClient ->
      exists w',
        _windowMovedOrResized env w = Returned tt w' /\
        mTop (this w') = top rcWindow /\
        mLeft (this w') = left rcWindow /\
        mWidth (this w') = u32 (s32 (right rcClient - left rcClient)) /\
        mHeight (this w') = u32 (s32 (bottom rcClient - top rcClient)) /\
        mDesiredWidth (this w') = mDesiredWidth (this w) /\
        mDesiredHeight (this w') = mDesiredHeight (this w)).
Proof.
  assert (Hist : forall history w w',
             forallb (fun call => negb (is_size_request (snd call))) history = true ->
             run_ops history w = Some w' ->
             mDesiredWidth (this w') = mDesiredWidth (this w) /\
             mDesiredHeight (this w') = mDesiredHeight (this w)).
  { intros history w w' Hall Hrun.
    apply (run_ops_preserves
             (fun t => mDesiredWidth t = mDesiredWidth (this w)
                       /\ mDesiredHeight t = mDesiredHeight (this w))
             (fun op => negb (is_size_request op))
             (fun env op => desired_size_stays env op _ _)
             history w w' Hall (conj eq_refl eq_refl) Hrun). }
  split; [ exact Hist | ].
  intros env w rcWindow rcClient Hcore Hwnd Hicon Hwr Hcr.
  destruct (_windowMovedOrResized_overwrites env w rcWindow rcClient Hcore Hwnd Hicon
              Hwr Hcr) as (w' & E & Ht & Hl & Hw & Hh).
  exists w'. repeat (split; [ assumption | ]).
  apply (Hist [(env, op_windowMovedOrResized)] w w' eq_refl).
  cbn. rewrite E. reflexivity.
Qed.

(** A window that asked for 1024 x 768 is told by the window system that its
    client area is 800 x 600. *)
Lemma desired_size_changes_only_on_request_witness :
  let w := world_of (set_mDesiredWidth 1024 (set_mDesiredHeight 768 sample_window)) in
  exists w',
    _windowMovedOrResized desktop_env w = Returned tt w' /\
    (mTop (this w'), mLeft (this w')) = (50, 100) /\
    (mWidth (this w'), mHeight (this w')) = (800, 600) /\
    (mDesiredWidth (this w'), mDesiredHeight (this w')) = (1024, 768).
Proof.
  intros w.
  destruct desired_size_changes_only_on_request as [_ Hnotify].
  destruct (Hnotify desktop_env w (SetRect 100 50 916 689) (SetRect 0 0 800 600)
              eq_refl ltac:(discriminate) eq_refl eq_refl eq_refl)
    as (w' & E & Ht & Hl & Hw & Hh & Hdw & Hdh).
  exists w'. split; [ exact E | ].
  rewrite Ht, Hl, Hw, Hh, Hdw, Hdh. repeat split.
Defined.

(** ** Presenting and copying *)

(** C8 (as the code has it): on the core thread [swapBuffers] presents through
    the device when the validity flag is set and otherwise returns without a
    call and without an error, whether a device is bound or not;
    [copyToMemory] does not look at the validity flag and always hands the copy
    to the device.  Neither checks that a device is bound: with no device,
    [copyToMemory], and [swapBuffers] under a set validity flag, call through
    the null pointer.  Off the core thread both throw and change nothing. *)
Theorem presentation_guards (env : Env) (w : World) (dst : PixelData)
    (buffer : FrameBuffer) :
  swapBuffers env w =
    (if onCoreThread env then
       if mDeviceValid (this w) then
         match mDevice (this w) with
         | Some d =>
             Returned tt {| this := this w; calls := calls w ++ [call_Device_present d] |}
         | None => NullDeviceCall
         end
       else Returned tt w
     else Thrown NotCoreThread w)
  /\ copyToMemory env dst buffer w =
       (if onCoreThread env then
          match mDevice (this w) with
          | Some d =>
              Returned tt
                {| this := this w;
                   calls := calls w ++ [call_Device_copyContentsToMemory d dst buffer] |}
          | None => NullDeviceCall
          end
        else Thrown NotCoreThread w).
Proof.
  unfold swapBuffers, copyToMemory. run.
  destruct (onCoreThread env); cbv beta iota; [ | split; reflexivity ].
  split.
  - destruct (mDeviceValid (this w)); [ | reflexivity ].
    destruct (mDevice (this w)); reflexivity.
  - destruct (mDevice (this w)); reflexivity.
Qed.

(** C8 as stated fails twice: with no device bound (and the validity flag
    false, as [_setDevice] and the constructor leave it) [swapBuffers] returns
    normally, having done nothing, and with a device that is bound but not
    valid [copyToMemory] still calls the device. *)
Lemma presentation_guards_counterexample :
  (mDevice unbound_window = None /\
   swapBuffers desktop_env (world_of unbound_window)
   = Returned tt (world_of unbound_window))
  /\
  (mDevice invalid_window = Some 0%nat /\
   mDeviceValid invalid_window = false /\
   copyToMemory desktop_env 7 FB_AUTO (world_of invalid_window)
   = Returned tt {| this := invalid_window;
                    calls := [call_Device_copyContentsToMemory 0%nat 7 FB_AUTO] |}).
Proof. repeat split. Qed.

(** ** Negotiation of the presentation parameters *)

Lemma FAILED_SUCCEEDED (hr : HRESULT) : FAILED hr = negb (SUCCEEDED hr).
Proof.
  unfold FAILED, SUCCEEDED.
  destruct (Z.ltb_spec hr 0), (Z.leb_spec 0 hr); try reflexivity; lia.
Qed.

Lemma switch_is_spec_interval (n : Z) :
  match n with
  | 2 => D3DPRESENT_INTERVAL_TWO
  | 3 => D3DPRESENT_INTERVAL_THREE
  | 4 => D3DPRESENT_INTERVAL_FOUR
  | _ => D3DPRESENT_INTERVAL_ONE
  end = spec_interval_for_count n.
Proof.
  destruct n as [ | p | p ]; try reflexivity.
  destruct p as [ [ q | q | ] | [ q | q | ] | ]; try reflexivity; destruct q; reflexivity.
Qed.

(** With a bound device the negotiation returns, leaves the object as it was,
    and its interval, its depth/stencil format and the format probes it made
    are these. *)
Lemma _buildPresentParameters_bound (env : Env) (w : World) (d : D3D9Device) :
  mDevice (this w) = Some d ->
  let adapter := dev_getAdapterNumber env d in
  let devType := dev_getDeviceType env d in
  let probe fmt :=
    d3d_CheckDeviceFormat env adapter devType D3DFMT_X8R8G8B8 D3DUSAGE_DEPTHSTENCIL
      D3DRTYPE_SURFACE fmt in
  let compatible :=
    d3d_CheckDepthStencilMatch env adapter devType D3DFMT_X8R8G8B8 D3DFMT_X8R8G8B8
      D3DFMT_D24S8 in
  let wanted := spec_interval_for_count (mVSyncInterval (this w)) in
  exists p new,
    _buildPresentParameters env w = Returned p {| this := this w; calls := calls w ++ new |} /\
    PresentationInterval p =
      (if mVSync (this w) then
         if mIsFullScreen (this w) then
           if Z.land (PresentationIntervals (d3d_GetDeviceCaps env adapter devType)) wanted
              =? 0
           then D3DPRESENT_INTERVAL_ONE else wanted
         else D3DPRESENT_INTERVAL_ONE
       else D3DPRESENT_INTERVAL_IMMEDIATE) /\
    AutoDepthStencilFormat p =
      (if mColorDepth (this w) >? 16 then
         if FAILED (probe D3DFMT_D24S8) then
           if FAILED (probe D3DFMT_D32) then D3DFMT_D16 else D3DFMT_D32
         else if SUCCEEDED compatible then D3DFMT_D24S8 else D3DFMT_D24X8
       else D3DFMT_D16) /\
    filter is_format_probe new =
      (if mColorDepth (this w) >? 16 then
         call_CheckDeviceFormat adapter devType D3DFMT_X8R8G8B8 D3DUSAGE_DEPTHSTENCIL
           D3DRTYPE_SURFACE D3DFMT_D24S8
         :: (if FAILED (probe D3DFMT_D24S8)
             then [call_CheckDeviceFormat adapter devType D3DFMT_X8R8G8B8
                     D3DUSAGE_DEPTHSTENCIL D3DRTYPE_SURFACE D3DFMT_D32]
             else [call_CheckDepthStencilMatch adapter devType D3DFMT_X8R8G8B8
                     D3DFMT_X8R8G8B8 D3DFMT_D24S8])
       else []).
Proof.
  intros Hdev adapter devType probe compatible wanted.
  unfold _buildPresentParameters. run. rewrite Hdev.
  rewrite switch_is_spec_interval. fold adapter devType wanted.
  destruct (rs_determineFSAASettings env (mFSAA (this w)) (mFSAAHint (this w))
              (if mColorDepth (this w) >? 16 then D3DFMT_X8R8G8B8 else D3DFMT_R5G6B5)
              (mIsFullScreen (this w))) as [fsaaType fsaaQuality] eqn:Efsaa.
  destruct (mVSync (this w)), (mIsFullScreen (this w));
    cbv beta iota; cbn [this calls]; rewrite ?Hdev; fold adapter;
    try destruct (Z.land (PresentationIntervals (d3d_GetDeviceCaps env adapter devType))
                    wanted =? 0);
    cbv beta iota; cbn [this calls];
    (destruct (mColorDepth (this w) >? 16);
     cbv beta iota; cbn [this calls]; rewrite ?Hdev; fold adapter;
     fold (probe D3DFMT_D24S8);
     [ destruct (FAILED (probe D3DFMT_D24S8));
       cbv beta iota; cbn [this calls]; rewrite ?Hdev; fold adapter;
       fold (probe D3DFMT_D32); fold compatible;
       [ destruct (FAILED (probe D3DFMT_D32)) | destruct (SUCCEEDED compatible) ] | ]);
    cbv beta iota; cbn [this calls]; rewrite ?Hdev; cbv beta iota; cbn [this calls];
    rewrite ?Efsaa; repeat rewrite <- app_assoc; cbn [app].
  all: eexists; eexists; (split; [ reflexivity | ]); cbn; repeat split.
Qed.

(** C3: with a bound device the negotiation returns, and its depth/stencil
    format follows the chain.  For a color depth of at most 16 it is the 16-bit
    format and no format probe is made.  For a color depth above 16: when the
    probe accepts D24S8, it is D24S8 if the depth/stencil match check passes
    and D24X8 if not; when the probe rejects D24S8, D32 is probed, and the
    format is D32 if that is accepted and D16 if not. *)
Theorem depth_stencil_fallback_chain (env : Env) (w : World) (d : D3D9Device) :
  mDevice (this w) = Some d ->
  let adapter := dev_getAdapterNumber env d in
  let devType := dev_getDeviceType env d in
  let probe fmt :=
    d3d_CheckDeviceFormat env adapter devType D3DFMT_X8R8G8B8 D3DUSAGE_DEPTHSTENCIL
      D3DRTYPE_SURFACE fmt in
  let compatible :=
    d3d_CheckDepthStencilMatch env adapter devType D3DFMT_X8R8G8B8 D3DFMT_X8R8G8B8
      D3DFMT_D24S8 in
  let probed fmt :=
    call_CheckDeviceFormat adapter devType D3DFMT_X8R8G8B8 D3DUSAGE_DEPTHSTENCIL
      D3DRTYPE_SURFACE fmt in
  let matched :=
    call_CheckDepthStencilMatch adapter devType D3DFMT_X8R8G8B8 D3DFMT_X8R8G8B8
      D3DFMT_D24S8 in
  exists p new,
    _buildPresentParameters env w = Returned p {| this := this w; calls := calls w ++ new |} /\
    (mColorDepth (this w) <= 16 ->
     AutoDepthStencilFormat p = D3DFMT_D16 /\ filter is_format_probe new = []) /\
    (16 < mColorDepth (this w) ->
     (SUCCEEDED (probe D3DFMT_D24S8) = true -> SUCCEEDED compatible = true ->
      AutoDepthStencilFormat p = D3DFMT_D24S8
      /\ filter is_format_probe new = [probed D3DFMT_D24S8; matched]) /\
     (SUCCEEDED (probe D3DFMT_D24S8) = true -> SUCCEEDED compatible = false ->
      AutoDepthStencilFormat p = D3DFMT_D24X8
      /\ filter is_format_probe new = [probed D3DFMT_D24S8; matched]) /\
     (SUCCEEDED (probe D3DFMT_D24S8) = false -> SUCCEEDED (probe D3DFMT_D32) = true ->
      AutoDepthStencilFormat p = D3DFMT_D32
      /\ filter is_format_probe new = [probed D3DFMT_D24S8; probed D3DFMT_D32]) /\
     (SUCCEEDED (probe D3DFMT_D24S8) = false -> SUCCEEDED (probe D3DFMT_D32) = false ->
      AutoDepthStencilFormat p = D3DFMT_D16
      /\ filter is_format_probe new = [probed D3DFMT_D24S8; probed D3DFMT_D32])).
Proof.
  intros Hdev. cbv zeta.
  destruct (_buildPresentParameters_bound env w d Hdev) as (p & new & E & _ & Hfmt & Hlog).
  exists p, new. split; [ exact E | ]. rewrite Hfmt, Hlog, !FAILED_SUCCEEDED. split.
  - intros Hdepth.
    assert (G : (mColorDepth (this w) >? 16) = false)
      by (rewrite Z.gtb_ltb; apply Z.ltb_ge; lia).
    rewrite G. split; reflexivity.
  - intros Hdepth.
    assert (G : (mColorDepth (this w) >? 16) = true)
      by (rewrite Z.gtb_ltb; apply Z.ltb_lt; lia).
    rewrite G.
    split; [ | split; [ | split ] ];
      intros H1 H2; rewrite H1; cbn [negb]; rewrite ?H2; split; reflexivity.
Qed.

(** A 32-bit window on a device that rejects D24S8 and D32 gets D16. *)
Lemma depth_stencil_fallback_chain_witness :
  exists p w',
    _buildPresentParameters naff_card_env (world_of sample_window) = Returned p w' /\
    AutoDepthStencilFormat p = D3DFMT_D16.
Proof.
  destruct (depth_stencil_fallback_chain naff_card_env (world_of sample_window) 0%nat
              eq_refl) as (p & new & E & _ & Hchain).
  exists p. eexists. split; [ exact E | ].
  destruct (Hchain eq_refl) as (_ & _ & _ & Hboth).
  apply Hboth; reflexivity.
Defined.

(** C4: with a bound device the negotiation returns, and its present interval
    is: the immediate interval when vsync is off; the single interval when
    vsync is on and the window is windowed; when vsync is on and the window is
    fullscreen, the interval of the requested count (1 to 4, any other count
    the single interval) if the capability mask has it and the single
    interval if not.  So a request for interval 4 under a mask without it
    yields the single interval. *)
Theorem present_interval_selection (env : Env) (w : World) (d : D3D9Device) :
  mDevice (this w) = Some d ->
  let mask :=
    PresentationIntervals
      (d3d_GetDeviceCaps env (dev_getAdapterNumber env d) (dev_getDeviceType env d)) in
  let wanted := spec_interval_for_count (mVSyncInterval (this w)) in
  exists p w',
    _buildPresentParameters env w = Returned p w' /\
    (mVSync (this w) = false -> PresentationInterval p = D3DPRESENT_INTERVAL_IMMEDIATE) /\
    (mVSync (this w) = true -> mIsFullScreen (this w) = false ->
     PresentationInterval p = D3DPRESENT_INTERVAL_ONE) /\
    (mVSync (this w) = true -> mIsFullScreen (this w) = true ->
     (Z.land mask wanted <> 0 -> PresentationInterval p = wanted) /\
     (Z.land mask wanted = 0 -> PresentationInterval p = D3DPRESENT_INTERVAL_ONE)) /\
    (mVSync (this w) = true -> mIsFullScreen (this w) = true ->
     mVSyncInterval (this w) = 4 -> Z.land mask D3DPRESENT_INTERVAL_FOUR = 0 ->
     PresentationInterval p = D3DPRESENT_INTERVAL_ONE).
Proof.
  intros Hdev. cbv zeta.
  destruct (_buildPresentParameters_bound env w d Hdev) as (p & new & E & Hint & _).
  exists p. eexists. split; [ exact E | ]. rewrite Hint.
  split; [ | split; [ | split ] ].
  - intros Hv; rewrite Hv; reflexivity.
  - intros Hv Hf; rewrite Hv, Hf; reflexivity.
  - intros Hv Hf; rewrite Hv, Hf. split; intros Hmask.
    + apply Z.eqb_neq in Hmask. rewrite Hmask. reflexivity.
    + apply Z.eqb_eq in Hmask. rewrite Hmask. reflexivity.
  - intros Hv Hf Hcount Hmask. rewrite Hv, Hf, Hcount.
    change (spec_interval_for_count 4) with D3DPRESENT_INTERVAL_FOUR.
    rewrite Hmask. reflexivity.
Qed.

(** A fullscreen window that asks for interval 4 on a device that advertises
    the single and the immediate interval only. *)
Lemma present_interval_selection_witness :
  exists p w',
    _buildPresentParameters desktop_env (world_of (set_mIsFullScreen true sample_window))
    = Returned p w' /\
    PresentationInterval p = D3DPRESENT_INTERVAL_ONE.
Proof.
  destruct (present_interval_selection desktop_env
              (world_of (set_mIsFullScreen true sample_window)) 0%nat eq_refl)
    as (p & w' & E & _ & _ & _ & Hfour).
  exists p, w'. split; [ exact E | ].
  apply Hfour; reflexivity.
Defined.

(** C7 as stated fails: on a device whose probe rejects every depth/stencil
    format, the 16-bit one included, the negotiation for a 32-bit window
    returns normally with the 16-bit format; no error is raised. *)
Lemma negotiation_error_counterexample :
  FAILED (d3d_CheckDeviceFormat naff_card_env 0 D3DDEVTYPE_HAL D3DFMT_X8R8G8B8
            D3DUSAGE_DEPTHSTENCIL D3DRTYPE_SURFACE D3DFMT_D16) = true /\
  exists p w',
    _buildPresentParameters naff_card_env (world_of sample_window) = Returned p w' /\
    AutoDepthStencilFormat p = D3DFMT_D16.
Proof. split; [ reflexivity | ]. vm_compute. eexists; eexists; split; reflexivity. Qed.

(** Without a device the negotiation ends in a call through the null pointer
    (at the latest when it asks for the multisample settings). *)
Lemma _buildPresentParameters_unbound (env : Env) (w : World) :
  mDevice (this w) = None -> _buildPresentParameters env w = NullDeviceCall.
Proof.
  intros Hdev. unfold _buildPresentParameters. run. rewrite Hdev.
  destruct (mVSync (this w)), (mIsFullScreen (this w));
    cbv beta iota; cbn [this calls]; rewrite ?Hdev; try reflexivity;
    destruct (mColorDepth (this w) >? 16);
    cbv beta iota; cbn [this calls]; rewrite ?Hdev; reflexivity.
Qed.

(** C7 (as the code has it): the negotiation has no error outcome: it never
    throws, and with a bound device it returns.  A rejection by the capability
    probe only moves the negotiation down the chain; the last format of the
    chain, D16, is never probed, and when D24S8 and D32 are both rejected it
    is selected as it is. *)
Theorem negotiation_consumes_rejections (env : Env) (w : World) :
  (forall e w', _buildPresentParameters env w <> Thrown e w') /\
  (forall d,
      mDevice (this w) = Some d ->
      let probe fmt :=
        d3d_CheckDeviceFormat env (dev_getAdapterNumber env d) (dev_getDeviceType env d)
          D3DFMT_X8R8G8B8 D3DUSAGE_DEPTHSTENCIL D3DRTYPE_SURFACE fmt in
      exists p new,
        _buildPresentParameters env w
        = Returned p {| this := this w; calls := calls w ++ new |} /\
        (forall adapter devType adapterFormat usage rtype,
            ~ In (call_CheckDeviceFormat adapter devType adapterFormat usage rtype
                    D3DFMT_D16) new) /\
        (16 < mColorDepth (this w) ->
         FAILED (probe D3DFMT_D24S8) = true -> FAILED (probe D3DFMT_D32) = true ->
         AutoDepthStencilFormat p = D3DFMT_D16)).
Proof.
  split.
  - intros e w' E.
    destruct (mDevice (this w)) as [d | ] eqn:Hdev.
    + destruct (_buildPresentParameters_bound env w d Hdev) as (p & new & E' & _).
      congruence.
    + rewrite (_buildPresentParameters_unbound env w Hdev) in E. discriminate.
  - intros d Hdev. cbv zeta.
    destruct (_buildPresentParameters_bound env w d Hdev) as (p & new & E & _ & Hfmt & Hlog).
    exists p, new. split; [ exact E | ]. split.
    + intros adapter devType adapterFormat usage rtype Hin.
      assert (Hprobe : In (call_CheckDeviceFormat adapter devType adapterFormat usage rtype
                             D3DFMT_D16) (filter is_format_probe new))
        by (apply filter_In; split; [ exact Hin | reflexivity ]).
      rewrite Hlog in Hprobe.
      destruct (mColorDepth (this w) >? 16); [ | exact Hprobe ].
      destruct (FAILED _) in Hprobe;
        destruct Hprobe as [ H | [ H | [] ] ]; discriminate.
    + intros Hdepth H1 H2. rewrite Hfmt, H1, H2.
      assert (G : (mColorDepth (this w) >? 16) = true)
        by (rewrite Z.gtb_ltb; apply Z.ltb_lt; lia).
      rewrite G. reflexivity.
Qed.

Lemma negotiation_consumes_rejections_witness :
  exists p w',
    _buildPresentParameters naff_card_env (world_of sample_window) = Returned p w' /\
    AutoDepthStencilFormat p = D3DFMT_D16.
Proof.
  destruct (negotiation_consumes_rejections naff_card_env (world_of sample_window))
    as [_ Hbound].
  destruct (Hbound 0%nat eq_refl) as (p & new & E & _ & Hlast).
  exists p. eexists. split; [ exact E | ].
  apply Hlast; reflexivity.
Defined.

(** ** Window geometry *)

Lemma u32_range (z : Z) : 0 <= u32 z < 2 ^ 32.
Proof. unfold u32. apply Z.mod_pos_bound. reflexivity. Qed.

Lemma u32_small (z : Z) : 0 <= z < 2 ^ 32 -> u32 z = z.
Proof. intros H. unfold u32. apply Z.mod_small, H. Qed.

Lemma u32_s32 (z : Z) : u32 (s32 z) = u32 z.
Proof.
  unfold u32, s32. rewrite Zminus_mod_idemp_l. f_equal. lia.
Qed.


(** [_adjustWindow] always returns and leaves the object alone; its results
    are the decorated size, each axis cut down to the extent of the work area
    (as an unsigned number) when it is larger. *)
Lemma _adjustWindow_run (env : Env) (w : World) (clientWidth clientHeight : Z)
    (style : DWORD) :
  let work := rcWork (monitor_of_window env (this w)) in
  let rc := os_AdjustWindowRect env (SetRect 0 0 (s32 clientWidth) (s32 clientHeight)) style in
  let outerW := u32 (right rc - left rc) in
  let outerH := u32 (bottom rc - top rc) in
  let maxW := u32 (right work - left work) in
  let maxH := u32 (bottom work - top work) in
  exists new,
    _adjustWindow env clientWidth clientHeight style w
    = Returned (if outerW >? maxW then maxW else outerW,
                if outerH >? maxH then maxH else outerH)
        {| this := this w; calls := calls w ++ new |}.
Proof.
  cbv zeta. unfold _adjustWindow, monitor_of_window. run.
  rewrite !u32_s32. repeat rewrite <- app_assoc. cbn [app].
  eexists. reflexivity.
Qed.

(** C6: for every client size and style, on a monitor whose work area is a
    rectangle (left <= right, top <= bottom, coordinates in the range of
    [LONG]), [_adjustWindow] returns an outer size that is within the extents
    of the work area in both axes: it is the decorated size where that fits
    and the extent of the work area where the decorated size is larger. *)
Theorem _adjustWindow_within_work_area (env : Env) (w : World)
    (clientWidth clientHeight : Z) (style : DWORD) :
  let work := rcWork (monitor_of_window env (this w)) in
  let rc := os_AdjustWindowRect env (SetRect 0 0 (s32 clientWidth) (s32 clientHeight)) style in
  let outerW := u32 (right rc - left rc) in
  let outerH := u32 (bottom rc - top rc) in
  is_s32 (left work) -> is_s32 (right work) -> is_s32 (top work) -> is_s32 (bottom work) ->
  left work <= right work -> top work <= bottom work ->
  exists winWidth winHeight w',
    _adjustWindow env clientWidth clientHeight style w = Returned (winWidth, winHeight) w' /\
    this w' = this w /\
    0 <= winWidth <= right work - left work /\
    0 <= winHeight <= bottom work - top work /\
    winWidth = Z.min outerW (right work - left work) /\
    winHeight = Z.min outerH (bottom work - top work).
Proof.
  cbv zeta. unfold is_s32. intros Hl Hr Ht Hb Hlr Htb.
  destruct (_adjustWindow_run env w clientWidth clientHeight style) as (new & E).
  cbv zeta in E. rewrite E. clear E.
  set (work := rcWork (monitor_of_window env (this w))) in *.
  set (rc := os_AdjustWindowRect env _ style).
  rewrite (u32_small (right work - left work)) by lia.
  rewrite (u32_small (bottom work - top work)) by lia.
  pose proof (u32_range (right rc - left rc)) as HW.
  pose proof (u32_range (bottom rc - top rc)) as HH.
  eexists; eexists; eexists. split; [ reflexivity | ]. cbn [this].
  split; [ reflexivity | ].
  destruct (Z.gtb_spec (u32 (right rc - left rc)) (right work - left work));
    destruct (Z.gtb_spec (u32 (bottom rc - top rc)) (bottom work - top work)); lia.
Qed.

(** A client size of 5000 x 4000 on the 1920 x 1040 work area. *)
Lemma _adjustWindow_within_work_area_witness :
  exists w',
    _adjustWindow desktop_env 5000 4000 WS_OVERLAPPEDWINDOW (world_of sample_window)
    = Returned (1920, 1040) w'.
Proof.
  destruct (_adjustWindow_within_work_area desktop_env (world_of sample_window) 5000 4000
              WS_OVERLAPPEDWINDOW)
    as (winWidth & winHeight & w' & E & _ & _ & _ & HW & HH);
    try (vm_compute; split; congruence); try (vm_compute; congruence).
  exists w'. rewrite E. vm_compute in HW, HH. rewrite HW, HH. reflexivity.
Defined.

(** The end of a switch to windowed mode, in general: the outer size is the
    one [_adjustWindow] computes for the desired size, the window is put at
    [(screenw - winWidth) / 2], [(screenh - winHeight) / 2] (zero where the
    work area is not larger than the window), [screenw] and [screenh] being
    the extents of the work area, and the desired size becomes the current
    size.  The origin of the work area does not enter the position. *)
Lemma _finishSwitchingFullscreen_windowed (env : Env) (w : World) :
  mIsFullScreen (this w) = false ->
  let work := rcWork (monitor_of_window env (this w)) in
  let screenw := s32 (right work - left work) in
  let screenh := s32 (bottom work - top work) in
  exists winWidth winHeight new w',
    _adjustWindow env (mDesiredWidth (this w)) (mDesiredHeight (this w)) (mStyle (this w)) w
    = Returned (winWidth, winHeight) {| this := this w; calls := calls w ++ new |} /\
    _finishSwitchingFullscreen env w = Returned tt w' /\
    calls w' =
      calls w ++ new ++
      [call_MonitorFromWindow (mHWnd (this w)) MONITOR_DEFAULTTONEAREST;
       call_GetMonitorInfo (os_MonitorFromWindow env (mHWnd (this w)));
       call_SetWindowPos (mHWnd (this w)) HWND_NOTOPMOST
         (if screenw >? s32 winWidth then Z.quot (s32 (screenw - s32 winWidth)) 2 else 0)
         (if screenh >? s32 winHeight then Z.quot (s32 (screenh - s32 winHeight)) 2 else 0)
         (s32 winWidth) (s32 winHeight)
         (Z.lor SWP_DRAWFRAME (Z.lor SWP_FRAMECHANGED SWP_NOACTIVATE))] /\
    mWidth (this w') = mDesiredWidth (this w) /\
    mHeight (this w') = mDesiredHeight (this w) /\
    mDesiredWidth (this w') = mDesiredWidth (this w) /\
    mDesiredHeight (this w') = mDesiredHeight (this w).
Proof.
  intros Hwindowed. cbv zeta.
  destruct (_adjustWindow_run env w (mDesiredWidth (this w)) (mDesiredHeight (this w))
              (mStyle (this w))) as (new & E).
  cbv zeta in E.
  unfold _finishSwitchingFullscreen.
  unfold bind at 1. unfold get at 1. rewrite Hwindowed.
  unfold bind at 1. unfold bind at 1. rewrite E.
  unfold monitor_of_window. run.
  eexists; eexists; exists new.
  destruct (negb (mWidth (this w) =? mDesiredWidth (this w))
            || negb (mHeight (this w) =? mDesiredHeight (this w))) eqn:Guard;
    cbv beta iota; cbn [this calls];
    (eexists; split; [ reflexivity | ]; split; [ reflexivity | ]; cbn [this calls];
     split; [ repeat rewrite <- app_assoc; reflexivity | ]).
  - repeat split.
  - apply orb_false_elim in Guard as [Gw Gh].
    apply negb_false_iff in Gw, Gh. apply Z.eqb_eq in Gw, Gh.
    cbn. repeat split; assumption.
Qed.

(** C5 on a second monitor.  The sample window, windowed with a desired size
    of 800 x 600, ends its switch on a monitor whose work area starts at
    x = 1920: the outer size comes from the desired size (816 x 639) and is
    adopted, but the window is put at x = 552, so that it lies wholly to the
    left of the work area of its monitor; the initialization of the same
    window on the same monitor creates it at x = 2480, inside that work
    area. *)
Theorem _finishSwitchingFullscreen_on_second_monitor :
  let w := world_of (set_mSwitchingFullscreen true sample_window) in
  let work := rcWork (monitor_of_window second_monitor_env (this w)) in
  (exists w',
      _finishSwitchingFullscreen second_monitor_env w = Returned tt w' /\
      calls w' =
        [call_AdjustWindowRect (SetRect 0 0 800 600) (mStyle sample_window);
         call_MonitorFromWindow 0x1234 MONITOR_DEFAULTTONEAREST; call_GetMonitorInfo 1;
         call_MonitorFromWindow 0x1234 MONITOR_DEFAULTTONEAREST; call_GetMonitorInfo 1;
         call_SetWindowPos 0x1234 HWND_NOTOPMOST 552 200 816 639
           (Z.lor SWP_DRAWFRAME (Z.lor SWP_FRAMECHANGED SWP_NOACTIVATE))] /\
      (mWidth (this w'), mHeight (this w')) = (800, 600))
  /\ (left work, right work) = (1920, 3840)
  /\ 552 + 816 <= left work
  /\ (exists w0,
         initialize_internal second_monitor_env
           (world_of (D3D9RenderWindow_ctor sample_window sample_desc 1))
         = Returned tt w0 /\
         In (call_CreateWindowEx 0 "sample" (mStyle sample_window) 2480 220 816 639 0 1)
           (calls w0)).
Proof.
  cbv zeta. split; [ | split; [ | split ] ].
  - vm_compute. eexists; repeat split.
  - reflexivity.
  - vm_compute. discriminate.
  - vm_compute. eexists. split; [ reflexivity | ]. do 7 right. left. reflexivity.
Qed.
(** * Further properties of the window *)

(** ** Thread affinity *)

(** X1: off the core thread, each of [setFullscreen], [move], [resize],
    [swapBuffers], [copyToMemory] and [_windowMovedOrResized] throws before it
    does anything: no member is written and no outside call is made. *)
Theorem thread_checked_ops_throw_off_core_thread (env : Env) (op : Op) (w : World) :
  onCoreThread env = false ->
  is_thread_checked op = true ->
  exec env op w = Thrown NotCoreThread w.
Proof.
  intros Hoff Hop.
  destruct op; try discriminate Hop; cbn [exec];
    unfold setFullscreen, move, resize, swapBuffers, copyToMemory, _windowMovedOrResized;
    unfold bind at 1; unfold THROW_IF_NOT_CORE_THREAD; rewrite Hoff; reflexivity.
Qed.

Lemma thread_checked_ops_throw_off_core_thread_witness :
  exec (off_core_thread desktop_env) (op_setFullscreen true 1920 1080)
    (world_of sample_window)
  = Thrown NotCoreThread (world_of sample_window)
  /\ exec (off_core_thread desktop_env) op_swapBuffers (world_of sample_window)
     = Thrown NotCoreThread (world_of sample_window).
Proof.
  split; apply (thread_checked_ops_throw_off_core_thread (off_core_thread desktop_env));
    reflexivity.
Defined.

(** ** Which operations write which member *)

Ltac frame_ops :=
  unfold initialize_internal, destroy_internal, setFullscreen, move, resize, swapBuffers,
    copyToMemory, startResize, endResize, startMove, endMove, _windowMovedOrResized,
    updateWindowRect, _finishSwitchingFullscreen, _getSwitchingFullscreen, _getDevice,
    _setDevice, _isDepthBuffered, _validateDevice;
  frame_outside; frame.

Lemma mDevice_stays (env : Env) (op : Op) (d : option D3D9Device) :
  negb (assigns_mDevice op) = true ->
  preserves (fun t => mDevice t = d) (exec env op).
Proof.
  destruct op; cbn [assigns_mDevice negb exec]; intros H; try discriminate; frame_ops.
Qed.

Lemma mDeviceValid_stays (env : Env) (op : Op) (v : bool) :
  negb (assigns_mDeviceValid op) = true ->
  preserves (fun t => mDeviceValid t = v) (exec env op).
Proof.
  destruct op; cbn [assigns_mDeviceValid negb exec]; intros H; try discriminate; frame_ops.
Qed.

Lemma mode_stays (env : Env) (op : Op) (fs : bool) (style : DWORD) :
  negb (is_size_request op) = true ->
  preserves (fun t => mIsFullScreen t = fs /\ mStyle t = style) (exec env op).
Proof.
  destruct op; cbn [is_size_request negb exec]; intros H; try discriminate; frame_ops.
Qed.

Lemma mHWnd_stays (env : Env) (op : Op) (h : HWND) (external : bool) :
  negb (assigns_mHWnd op) = true ->
  preserves (fun t => mHWnd t = h /\ mIsExternal t = external) (exec env op).
Proof.
  destruct op; cbn [assigns_mHWnd negb exec]; intros H; try discriminate; frame_ops.
Qed.

(** X2: the binding to a device is the same before and after every history
    of calls that contains neither [_setDevice] nor [destroy_internal]: no
    other member function assigns [mDevice]. *)
Theorem mDevice_changes_only_by_setDevice_and_destroy
    (history : list (Env * Op)) (w w' : World) :
  forallb (fun call => negb (assigns_mDevice (snd call))) history = true ->
  run_ops history w = Some w' ->
  mDevice (this w') = mDevice (this w).
Proof.
  intros Hall Hrun.
  apply (run_ops_preserves (fun t => mDevice t = mDevice (this w))
           (fun op => negb (assigns_mDevice op))
           (fun env op => mDevice_stays env op _) history w w' Hall eq_refl Hrun).
Qed.

Lemma mDevice_changes_only_by_setDevice_and_destroy_witness :
  exists w',
    run_ops busy_history (world_of sample_window) = Some w' /\
    mDevice (this w') = Some 0%nat.
Proof.
  assert (R : exists w', run_ops busy_history (world_of sample_window) = Some w')
    by (vm_compute; eexists; reflexivity).
  destruct R as (w' & R). exists w'. split; [ exact R | ].
  apply (mDevice_changes_only_by_setDevice_and_destroy busy_history
           (world_of sample_window) w' eq_refl R).
Defined.

(** X3: the validity flag of the window is the same before and after every
    history of calls that contains neither [_setDevice] nor [_validateDevice].
    In particular [setFullscreen], which tells the device to invalidate, and
    [destroy_internal], which drops the device, leave the flag as it is. *)
Theorem mDeviceValid_changes_only_by_setDevice_and_validate
    (history : list (Env * Op)) (w w' : World) :
  forallb (fun call => negb (assigns_mDeviceValid (snd call))) history = true ->
  run_ops history w = Some w' ->
  mDeviceValid (this w') = mDeviceValid (this w).
Proof.
  intros Hall Hrun.
  apply (run_ops_preserves (fun t => mDeviceValid t = mDeviceValid (this w))
           (fun op => negb (assigns_mDeviceValid op))
           (fun env op => mDeviceValid_stays env op _) history w w' Hall eq_refl Hrun).
Qed.

Lemma mDeviceValid_changes_only_by_setDevice_and_validate_witness :
  exists w',
    run_ops (busy_history ++ [(desktop_env, op_destroy_internal)])
      (world_of sample_window) = Some w' /\
    mDevice (this w') = None /\
    mDeviceValid (this w') = true.
Proof.
  assert (R : exists w', run_ops (busy_history ++ [(desktop_env, op_destroy_internal)])
                           (world_of sample_window) = Some w' /\ mDevice (this w') = None)
    by (vm_compute; eexists; split; reflexivity).
  destruct R as (w' & R & Hd). exists w'. split; [ exact R | ]. split; [ exact Hd | ].
  apply (mDeviceValid_changes_only_by_setDevice_and_validate
           (busy_history ++ [(desktop_env, op_destroy_internal)])
           (world_of sample_window) w' eq_refl R).
Defined.

(** X4: the fullscreen flag and the window style are the same before and
    after every history of calls that contains neither the initialization nor
    [setFullscreen]; the end of a switch, the notifications, [move] and
    [resize] do not touch them. *)
Theorem mode_changes_only_on_request (history : list (Env * Op)) (w w' : World) :
  forallb (fun call => negb (is_size_request (snd call))) history = true ->
  run_ops history w = Some w' ->
  mIsFullScreen (this w') = mIsFullScreen (this w) /\ mStyle (this w') = mStyle (this w).
Proof.
  intros Hall Hrun.
  apply (run_ops_preserves
           (fun t => mIsFullScreen t = mIsFullScreen (this w) /\ mStyle t = mStyle (this w))
           (fun op => negb (is_size_request op))
           (fun env op => mode_stays env op _ _) history w w' Hall
           (conj eq_refl eq_refl) Hrun).
Qed.

Lemma mode_changes_only_on_request_witness :
  exists w',
    run_ops (tl busy_history) (world_of sample_window) = Some w' /\
    mIsFullScreen (this w') = false /\
    mStyle (this w') = mStyle sample_window.
Proof.
  assert (R : exists w', run_ops (tl busy_history) (world_of sample_window) = Some w')
    by (vm_compute; eexists; reflexivity).
  destruct R as (w' & R). exists w'. split; [ exact R | ].
  apply (mode_changes_only_on_request (tl busy_history) (world_of sample_window) w'
           eq_refl R).
Defined.

(** X5: the window handle and the mark of an adopted window are the same
    before and after every history of calls that contains neither the
    initialization nor [destroy_internal]. *)
Theorem mHWnd_changes_only_by_initialize_and_destroy
    (history : list (Env * Op)) (w w' : World) :
  forallb (fun call => negb (assigns_mHWnd (snd call))) history = true ->
  run_ops history w = Some w' ->
  mHWnd (this w') = mHWnd (this w) /\ mIsExternal (this w') = mIsExternal (this w).
Proof.
  intros Hall Hrun.
  apply (run_ops_preserves
           (fun t => mHWnd t = mHWnd (this w) /\ mIsExternal t = mIsExternal (this w))
           (fun op => negb (assigns_mHWnd op))
           (fun env op => mHWnd_stays env op _ _) history w w' Hall
           (conj eq_refl eq_refl) Hrun).
Qed.

Lemma mHWnd_changes_only_by_initialize_and_destroy_witness :
  exists w',
    run_ops busy_history (world_of sample_window) = Some w' /\
    mHWnd (this w') = 0x1234 /\ mIsExternal (this w') = false.
Proof.
  assert (R : exists w', run_ops busy_history (world_of sample_window) = Some w')
    by (vm_compute; eexists; reflexivity).
  destruct R as (w' & R). exists w'. split; [ exact R | ].
  apply (mHWnd_changes_only_by_initialize_and_destroy busy_history
           (world_of sample_window) w' eq_refl R).
Defined.

(** ** The binding to a device *)

(** X6: after [_setDevice], whatever the device (a null pointer too), the
    window is not valid and [swapBuffers] is skipped; [_validateDevice] stores
    and returns what the device answers, and only after an accepting answer
    does [swapBuffers] present, once, through that device. *)
Theorem new_binding_presents_only_after_validation (env : Env) (w : World) :
  onCoreThread env = true ->
  (forall device,
      exists w1,
        _setDevice device w = Returned tt w1 /\
        mDevice (this w1) = device /\
        mDeviceValid (this w1) = false /\
        calls w1 = calls w /\
        swapBuffers env w1 = Returned tt w1) /\
  (forall d,
      exists w1 w2,
        _setDevice (Some d) w = Returned tt w1 /\
        _validateDevice env w1 = Returned (dev_validate env d) w2 /\
        mDeviceValid (this w2) = dev_validate env d /\
        calls w2 = calls w ++ [call_Device_validate d] /\
        swapBuffers env w2 =
          (if dev_validate env d
           then Returned tt {| this := this w2;
                               calls := calls w2 ++ [call_Device_present d] |}
           else Returned tt w2)).
Proof.
  intros Hcore. split.
  - intros device. eexists. split; [ reflexivity | ].
    unfold swapBuffers. run. rewrite Hcore. cbn. repeat split.
  - intros d. eexists; eexists. split; [ reflexivity | ].
    unfold _validateDevice, swapBuffers. run. rewrite Hcore. cbn.
    split; [ reflexivity | ]. cbn. split; [ reflexivity | ]. split; [ reflexivity | ].
    destruct (dev_validate env d); reflexivity.
Qed.

Lemma new_binding_presents_only_after_validation_witness :
  exists w1 w2 w3,
    _setDevice (Some 5%nat) (world_of unbound_window) = Returned tt w1 /\
    swapBuffers desktop_env w1 = Returned tt w1 /\
    _validateDevice desktop_env w1 = Returned true w2 /\
    swapBuffers desktop_env w2 = Returned tt w3 /\
    calls w3 = [call_Device_validate 5%nat; call_Device_present 5%nat].
Proof.
  destruct (new_binding_presents_only_after_validation desktop_env
              (world_of unbound_window) eq_refl) as [Hset Hvalidate].
  destruct (Hvalidate 5%nat) as (w1 & w2 & E1 & E2 & Hv & Hc & Hswap).
  destruct (Hset (Some 5%nat)) as (w1' & E1' & _ & _ & _ & Hskip).
  assert (Hsame : w1' = w1) by (vm_compute in E1, E1'; congruence). subst w1'.
  exists w1, w2. eexists.
  split; [ exact E1 | ]. split; [ exact Hskip | ]. split; [ exact E2 | ].
  split; [ exact Hswap | ]. cbn. rewrite Hc. reflexivity.
Defined.

(** ** Teardown *)

(** X7: [destroy_internal] always returns, with no window handle, no device,
    not active and closed.  What it releases: the binding to the device when
    one is bound, and the window when there is a handle and the window is not
    an adopted one; the window of an adopted handle is never destroyed. *)
Theorem destroy_internal_releases (w : World) :
  exists new w',
    destroy_internal w = Returned tt w' /\
    calls w' = calls w ++ new /\
    mHWnd (this w') = 0 /\ mDevice (this w') = None /\
    mActive (this w') = false /\ mClosed (this w') = true /\
    filter is_release new =
      (match mDevice (this w) with
       | Some d => [call_Device_detachRenderWindow d]
       | None => []
       end)
      ++ (if negb (mHWnd (this w) =? 0) && negb (mIsExternal (this w))
          then [call_DestroyWindow (mHWnd (this w))] else []) /\
    (mIsExternal (this w) = true -> forall h, ~ In (call_DestroyWindow h) new).
Proof.
  unfold destroy_internal. run.
  destruct (mDevice (this w)) as [d | ] eqn:Hdev; cbn [this calls]; rewrite ?Hdev;
    cbv beta iota; cbn [this calls set_mDevice mHWnd mIsExternal];
    destruct (mHWnd (this w) =? 0); destruct (mIsExternal (this w));
    cbn [negb andb]; cbv beta iota; cbn [this calls];
    repeat rewrite <- app_assoc; cbn [app];
    (eexists; eexists; split; [ reflexivity | ]; cbn [this calls];
     split; [ reflexivity | ]; cbn;
     repeat (split; [ first [ reflexivity | assumption ] | ]);
     intros Hext h Hin; try discriminate Hext;
     repeat (destruct Hin as [ Hin | Hin ]; [ discriminate Hin | ]); exact Hin).
Qed.

Lemma destroy_internal_releases_witness :
  exists new w',
    destroy_internal (world_of (set_mIsExternal true sample_window)) = Returned tt w' /\
    calls w' = new /\ forall h, ~ In (call_DestroyWindow h) new.
Proof.
  destruct (destroy_internal_releases (world_of (set_mIsExternal true sample_window)))
    as (new & w' & E & Hc & _ & _ & _ & _ & _ & Hnever).
  exists new, w'. split; [ exact E | ]. split; [ exact Hc | ].
  apply Hnever. reflexivity.
Defined.

(** X8: a second [destroy_internal] releases nothing: it detaches no device
    and destroys no window, and leaves the object as the first one left
    it. *)
Theorem destroy_internal_twice (w : World) :
  exists w1 w2,
    destroy_internal w = Returned tt w1 /\
    destroy_internal w1 = Returned tt w2 /\
    this w2 = this w1 /\
    calls w2 = calls w1 ++ [call_RenderWindow_destroy_internal].
Proof.
  unfold destroy_internal. run.
  destruct (mDevice (this w)) as [d | ] eqn:Hdev; cbn [this calls]; rewrite ?Hdev;
    cbv beta iota; cbn [this calls set_mDevice mHWnd mIsExternal];
    destruct (negb (mHWnd (this w) =? 0) && negb (mIsExternal (this w)));
    cbv beta iota; cbn [this calls];
    (eexists; eexists; split; [ reflexivity | ]; cbn; rewrite ?Hdev; cbn;
     repeat (split; [ reflexivity | ]); reflexivity).
Qed.

(** X9: a destroyed window is inert: on it [move], [resize] and the
    notification [_windowMovedOrResized] return without a change and without
    an outside call, and [isVisible] and [isActive] answer false without
    asking the window system. *)
Theorem destroyed_window_is_inert (env : Env) (w : World) :
  onCoreThread env = true ->
  exists w',
    destroy_internal w = Returned tt w' /\
    (forall top left, move env top left w' = Returned tt w') /\
    (forall width height, resize env width height w' = Returned tt w') /\
    _windowMovedOrResized env w' = Returned tt w' /\
    isVisible env w' = Returned false w' /\
    isActive env w' = Returned false w'.
Proof.
  intros Hcore.
  unfold destroy_internal, move, resize, _windowMovedOrResized, isActive, isVisible. run.
  rewrite Hcore.
  destruct (mDevice (this w)) as [d | ] eqn:Hdev; cbn [this calls]; rewrite ?Hdev;
    cbv beta iota; cbn [this calls set_mDevice mHWnd mIsExternal];
    destruct (negb (mHWnd (this w) =? 0) && negb (mIsExternal (this w)));
    cbv beta iota; cbn [this calls];
    (eexists; split; [ reflexivity | ]; cbn;
     destruct (mIsFullScreen (this w)); repeat split).
Qed.

Lemma destroyed_window_is_inert_witness :
  exists w',
    destroy_internal (world_of sample_window) = Returned tt w' /\
    move desktop_env 10 20 w' = Returned tt w' /\
    isActive desktop_env w' = Returned false w'.
Proof.
  destruct (destroyed_window_is_inert desktop_env (world_of sample_window) eq_refl)
    as (w' & E & Hmove & _ & _ & _ & Hactive).
  exists w'. split; [ exact E | ]. split; [ apply Hmove | exact Hactive ].
Defined.

(** X10: [destroy_internal] drops the device but not the validity flag: on a
    window that was valid, a [swapBuffers] or [copyToMemory] after the
    teardown calls through the null device pointer. *)
Theorem present_after_destroy_calls_null_device (env : Env) (w : World)
    (dst : PixelData) (buffer : FrameBuffer) :
  onCoreThread env = true ->
  mDeviceValid (this w) = true ->
  exists w',
    destroy_internal w = Returned tt w' /\
    mDeviceValid (this w') = true /\
    swapBuffers env w' = NullDeviceCall /\
    copyToMemory env dst buffer w' = NullDeviceCall.
Proof.
  intros Hcore Hvalid.
  unfold destroy_internal, swapBuffers, copyToMemory. run. rewrite Hcore.
  destruct (mDevice (this w)) as [d | ] eqn:Hdev; cbn [this calls]; rewrite ?Hdev;
    cbv beta iota; cbn [this calls set_mDevice mHWnd mIsExternal];
    destruct (negb (mHWnd (this w) =? 0) && negb (mIsExternal (this w)));
    cbv beta iota; cbn [this calls];
    (eexists; split; [ reflexivity | ]; cbn; rewrite Hvalid; cbn; rewrite ?Hdev;
     repeat split).
Qed.

Lemma present_after_destroy_calls_null_device_witness :
  exists w',
    destroy_internal (world_of sample_window) = Returned tt w' /\
    swapBuffers desktop_env w' = NullDeviceCall.
Proof.
  destruct (present_after_destroy_calls_null_device desktop_env (world_of sample_window)
              0 FB_AUTO eq_refl eq_refl) as (w' & E & _ & Hswap & _).
  exists w'. split; [ exact E | exact Hswap ].
Defined.

(** ** More of the negotiation *)

(** With a bound device: the fields of the presentation parameters that do
    not come out of a fallback chain. *)
Lemma _buildPresentParameters_fields (env : Env) (w : World) (d : D3D9Device) :
  mDevice (this w) = Some d ->
  let t := this w in
  let format := if mColorDepth t >? 16 then D3DFMT_X8R8G8B8 else D3DFMT_R5G6B5 in
  let fsaa := rs_determineFSAASettings env (mFSAA t) (mFSAAHint t) format (mIsFullScreen t) in
  exists p new,
    _buildPresentParameters env w = Returned p {| this := t; calls := calls w ++ new |} /\
    BackBufferWidth p = (if mWidth t =? 0 then 1 else mWidth t) /\
    BackBufferHeight p = (if mHeight t =? 0 then 1 else mHeight t) /\
    BackBufferFormat p = format /\
    BackBufferCount p = (if mVSync t then 2 else 1) /\
    Windowed p = negb (mIsFullScreen t) /\
    FullScreen_RefreshRateInHz p = (if mIsFullScreen t then mDisplayFrequency t else 0) /\
    hDeviceWindow p = mHWnd t /\
    EnableAutoDepthStencil p = mIsDepthBuffered t /\
    MultiSampleType p = fst fsaa /\
    MultiSampleQuality p = snd fsaa.
Proof.
  intros Hdev. cbv zeta.
  unfold _buildPresentParameters. run. rewrite Hdev.
  destruct (rs_determineFSAASettings env (mFSAA (this w)) (mFSAAHint (this w))
              (if mColorDepth (this w) >? 16 then D3DFMT_X8R8G8B8 else D3DFMT_R5G6B5)
              (mIsFullScreen (this w))) as [fsaaType fsaaQuality] eqn:Efsaa.
  destruct (mVSync (this w)), (mIsFullScreen (this w));
    cbv beta iota; cbn [this calls]; rewrite ?Hdev;
    try match goal with
        | |- context [if ?c =? 0 then fun _ => Returned D3DPRESENT_INTERVAL_ONE _ else _] =>
            destruct (c =? 0)
        end;
    cbv beta iota; cbn [this calls];
    (destruct (mColorDepth (this w) >? 16);
     repeat (cbv beta iota; cbn [this calls]; rewrite ?Hdev;
             match goal with
             | |- context [if FAILED ?hr then _ else _] => destruct (FAILED hr)
             | |- context [if SUCCEEDED ?hr then _ else _] => destruct (SUCCEEDED hr)
             end);
     cbv beta iota; cbn [this calls]; rewrite ?Hdev);
    cbv beta iota; cbn [this calls]; rewrite ?Efsaa;
    repeat rewrite <- app_assoc; cbn [app].
  all: eexists; eexists; (split; [ reflexivity | ]); cbn [BackBufferWidth BackBufferHeight
         BackBufferFormat BackBufferCount Windowed FullScreen_RefreshRateInHz hDeviceWindow
         EnableAutoDepthStencil MultiSampleType MultiSampleQuality fst snd negb];
       repeat (split; [ reflexivity | ]);
       destruct (Z.eqb_spec fsaaQuality 0); congruence.
Qed.

(** X11: with a bound device the negotiation returns, does not change the
    object, and never asks for an empty back buffer: for a window whose
    current width and height are not negative, the back buffer is at least
    1 x 1, and it has the current width (height) whenever that is not zero. *)
Theorem back_buffer_is_never_empty (env : Env) (w : World) (d : D3D9Device) :
  mDevice (this w) = Some d ->
  0 <= mWidth (this w) -> 0 <= mHeight (this w) ->
  exists p w',
    _buildPresentParameters env w = Returned p w' /\
    this w' = this w /\
    1 <= BackBufferWidth p /\ 1 <= BackBufferHeight p /\
    (mWidth (this w) <> 0 -> BackBufferWidth p = mWidth (this w)) /\
    (mHeight (this w) <> 0 -> BackBufferHeight p = mHeight (this w)).
Proof.
  intros Hdev Hw Hh.
  destruct (_buildPresentParameters_fields env w d Hdev) as (p & new & E & Hbw & Hbh & _).
  exists p. eexists. split; [ exact E | ]. split; [ reflexivity | ].
  rewrite Hbw, Hbh.
  destruct (Z.eqb_spec (mWidth (this w)) 0), (Z.eqb_spec (mHeight (this w)) 0);
    repeat split; try lia; intros; congruence.
Qed.

(** A window that an iconified notification left at 0 x 0. *)
Lemma back_buffer_is_never_empty_witness :
  exists p w',
    _buildPresentParameters desktop_env
      (world_of (set_mWidth 0 (set_mHeight 0 sample_window))) = Returned p w' /\
    (BackBufferWidth p, BackBufferHeight p) = (1, 1).
Proof.
  destruct (back_buffer_is_never_empty desktop_env
              (world_of (set_mWidth 0 (set_mHeight 0 sample_window))) 0%nat eq_refl)
    as (p & w' & E & _ & Hw & Hh & _); try (cbn; lia).
  exists p, w'. split; [ exact E | ].
  pose proof E as E'. vm_compute in E'. injection E' as <- _. reflexivity.
Defined.

(** X12: with a bound device the negotiated parameters follow the mode of the
    window: they are windowed exactly when the window is not fullscreen; the
    refresh rate is the display frequency in fullscreen and zero when
    windowed; there are two back buffers with vsync and one without; the back
    buffer format is X8R8G8B8 for a color depth above 16 and R5G6B5
    otherwise; the device window is the window's handle. *)
Theorem present_parameters_follow_mode (env : Env) (w : World) (d : D3D9Device) :
  mDevice (this w) = Some d ->
  exists p w',
    _buildPresentParameters env w = Returned p w' /\
    Windowed p = negb (mIsFullScreen (this w)) /\
    (mIsFullScreen (this w) = false -> FullScreen_RefreshRateInHz p = 0) /\
    (mIsFullScreen (this w) = true ->
     FullScreen_RefreshRateInHz p = mDisplayFrequency (this w)) /\
    (mVSync (this w) = true -> BackBufferCount p = 2) /\
    (mVSync (this w) = false -> BackBufferCount p = 1) /\
    (16 < mColorDepth (this w) -> BackBufferFormat p = D3DFMT_X8R8G8B8) /\
    (mColorDepth (this w) <= 16 -> BackBufferFormat p = D3DFMT_R5G6B5) /\
    hDeviceWindow p = mHWnd (this w).
Proof.
  intros Hdev.
  destruct (_buildPresentParameters_fields env w d Hdev)
    as (p & new & E & _ & _ & Hfmt & Hcount & Hwin & Hrate & Hwnd & _).
  exists p. eexists. split; [ exact E | ].
  rewrite Hwin, Hrate, Hcount, Hfmt, Hwnd.
  split; [ reflexivity | ].
  split; [ intros H; rewrite H; reflexivity | ].
  split; [ intros H; rewrite H; reflexivity | ].
  split; [ intros H; rewrite H; reflexivity | ].
  split; [ intros H; rewrite H; reflexivity | ].
  split; [ | split; [ | reflexivity ] ]; intros H;
    destruct (Z.gtb_spec (mColorDepth (this w)) 16); try reflexivity; lia.
Qed.

Lemma present_parameters_follow_mode_witness :
  exists p w',
    _buildPresentParameters desktop_env (world_of sample_window) = Returned p w' /\
    Windowed p = true /\ FullScreen_RefreshRateInHz p = 0 /\ BackBufferCount p = 2 /\
    BackBufferFormat p = D3DFMT_X8R8G8B8.
Proof.
  destruct (present_parameters_follow_mode desktop_env (world_of sample_window) 0%nat
              eq_refl) as (p & w' & E & Hwin & Hrate & _ & Hcount & _ & Hfmt & _).
  exists p, w'. split; [ exact E | ]. split; [ exact Hwin | ].
  split; [ apply Hrate; reflexivity | ]. split; [ apply Hcount; reflexivity | ].
  apply Hfmt. reflexivity.
Defined.

Lemma setFullscreen_keeps_mDevice (env : Env) (w w' : World) (fullScreen : bool)
    (width height : Z) :
  setFullscreen env fullScreen width height w = Returned tt w' ->
  mDevice (this w') = mDevice (this w).
Proof.
  intros E.
  apply (mDevice_stays env (op_setFullscreen fullScreen width height) (mDevice (this w))
           eq_refl w w' eq_refl).
  cbn [exec]. rewrite E. reflexivity.
Qed.

(** X13: the geometry of a request is authoritative at once: on the core
    thread with a bound device, a negotiation that follows [setFullscreen]
    (before the window system and the device have caught up) is for the
    requested mode and the requested size, with the floor of 1. *)
Theorem negotiation_sees_requested_mode (env env' : Env) (w : World) (d : D3D9Device)
    (fullScreen : bool) (width height : Z) :
  onCoreThread env = true ->
  mDevice (this w) = Some d ->
  exists w1 p w2,
    setFullscreen env fullScreen width height w = Returned tt w1 /\
    _buildPresentParameters env' w1 = Returned p w2 /\
    Windowed p = negb fullScreen /\
    BackBufferWidth p = (if width =? 0 then 1 else width) /\
    BackBufferHeight p = (if height =? 0 then 1 else height).
Proof.
  intros Hcore Hdev.
  destruct (setFullscreen_sets_size env w d fullScreen width height Hcore Hdev)
    as (w1 & E1 & Hfs & Hw & Hh & _).
  assert (Hdev1 : mDevice (this w1) = Some d)
    by (rewrite (setFullscreen_keeps_mDevice env w w1 _ _ _ E1); exact Hdev).
  destruct (_buildPresentParameters_fields env' w1 d Hdev1)
    as (p & new & E2 & Hbw & Hbh & _ & _ & Hwin & _).
  exists w1, p. eexists. split; [ exact E1 | ]. split; [ exact E2 | ].
  rewrite Hwin, Hbw, Hbh, Hfs, Hw, Hh. repeat split.
Qed.

Lemma negotiation_sees_requested_mode_witness :
  exists w1 p w2,
    setFullscreen desktop_env true 1920 1080 (world_of sample_window) = Returned tt w1 /\
    _buildPresentParameters desktop_env w1 = Returned p w2 /\
    Windowed p = false /\ BackBufferWidth p = 1920 /\ BackBufferHeight p = 1080.
Proof.
  destruct (negotiation_sees_requested_mode desktop_env desktop_env
              (world_of sample_window) 0%nat true 1920 1080 eq_refl eq_refl)
    as (w1 & p & w2 & E1 & E2 & H).
  exists w1, p, w2. split; [ exact E1 | ]. split; [ exact E2 | exact H ].
Defined.

(** ** More of the mode switch *)

(** X14: on the core thread with a bound device, a [setFullscreen] whose mode
    or size differs from the current one returns after having told the device
    to invalidate exactly once, as its last outside call.  The style it
    leaves depends on the target mode only (popup for fullscreen, overlapped
    window for windowed, whatever the style was).  Into fullscreen the
    recorded position becomes the origin of the monitor's full area; into
    windowed mode the recorded position is kept. *)
Theorem setFullscreen_effective (env : Env) (w : World) (d : D3D9Device)
    (fullScreen : bool) (width height : Z) :
  onCoreThread env = true ->
  mDevice (this w) = Some d ->
  fullScreen <> mIsFullScreen (this w) \/ width <> mWidth (this w)
  \/ height <> mHeight (this w) ->
  let monitor := monitor_of_window env (this w) in
  exists new w',
    setFullscreen env fullScreen width height w = Returned tt w' /\
    calls w' = calls w ++ new /\
    filter is_invalidate new = [call_Device_invalidate d] /\
    last new call_RegisterClass = call_Device_invalidate d /\
    mStyle (this w') =
      Z.lor (Z.lor WS_VISIBLE WS_CLIPCHILDREN)
        (if fullScreen then WS_POPUP else WS_OVERLAPPEDWINDOW) /\
    (fullScreen = true ->
     mLeft (this w') = left (rcMonitor monitor) /\ mTop (this w') = top (rcMonitor monitor)) /\
    (fullScreen = false ->
     mLeft (this w') = mLeft (this w) /\ mTop (this w') = mTop (this w)).
Proof.
  intros Hcore Hdev Hdiff. cbv zeta.
  assert (Guard : negb (Bool.eqb fullScreen (mIsFullScreen (this w)))
                  || negb (width =? mWidth (this w)) || negb (height =? mHeight (this w))
                  = true).
  { destruct Hdiff as [ H | [ H | H ] ].
    - destruct fullScreen, (mIsFullScreen (this w)); try reflexivity; congruence.
    - apply Z.eqb_neq in H. rewrite H. cbn [negb].
      rewrite orb_true_r. reflexivity.
    - apply Z.eqb_neq in H. rewrite H. apply orb_true_r. }
  unfold setFullscreen, _adjustWindow, monitor_of_window. run. rewrite Hcore.
  cbn [this calls]. rewrite Guard.
  destruct fullScreen, (mIsFullScreen (this w)); cbn; rewrite ?Hdev; cbn;
    repeat rewrite <- app_assoc; cbn [app];
    (eexists; eexists; split; [ reflexivity | ]; cbn [this calls];
     split; [ reflexivity | ]; cbn; repeat split; intros; discriminate).
Qed.

Lemma setFullscreen_effective_witness :
  exists new w',
    setFullscreen desktop_env false 1024 768
      (world_of (set_mStyle (Z.lor (Z.lor WS_VISIBLE WS_CLIPCHILDREN) WS_POPUP)
                   sample_window)) = Returned tt w' /\
    calls w' = new /\
    filter is_invalidate new = [call_Device_invalidate 0%nat] /\
    mStyle (this w') = Z.lor (Z.lor WS_VISIBLE WS_CLIPCHILDREN) WS_OVERLAPPEDWINDOW.
Proof.
  destruct (setFullscreen_effective desktop_env
              (world_of (set_mStyle (Z.lor (Z.lor WS_VISIBLE WS_CLIPCHILDREN) WS_POPUP)
                           sample_window)) 0%nat false 1024 768 eq_refl eq_refl)
    as (new & w' & E & Hc & Honce & _ & Hstyle & _).
  - right. left. discriminate.
  - exists new, w'. split; [ exact E | ]. split; [ exact Hc | ].
    split; [ exact Honce | exact Hstyle ].
Defined.

(** X15: the end of a switch repairs a polluted size.  When a window on the
    core thread leaves fullscreen for a windowed size, then whatever calls
    other than the initialization and [setFullscreen] follow (notifications
    that overwrite the current size, [resize], presents), the next
    [_finishSwitchingFullscreen] returns with the requested size as the current
    size, still windowed, and with the transitional flag cleared. *)
Theorem finishSwitchingFullscreen_restores_requested_size (env env' : Env)
    (history : list (Env * Op)) (w : World) (d : D3D9Device) (width height : Z) :
  onCoreThread env = true ->
  mDevice (this w) = Some d ->
  mIsFullScreen (this w) = true ->
  forallb (fun call => negb (is_size_request (snd call))) history = true ->
  forall w2,
    (exists w1,
        setFullscreen env false width height w = Returned tt w1 /\
        run_ops history w1 = Some w2) ->
    exists w3,
      _finishSwitchingFullscreen env' w2 = Returned tt w3 /\
      mWidth (this w3) = width /\ mHeight (this w3) = height /\
      mIsFullScreen (this w3) = false /\ mSwitchingFullscreen (this w3) = false.
Proof.
  intros Hcore Hdev Hfs Hall w2 (w1 & E1 & Hrun).
  destruct (setFullscreen_sets_size env w d false width height Hcore Hdev)
    as (w1' & E1' & Hfs1 & _ & _ & Hdesired).
  rewrite E1 in E1'. injection E1' as <-.
  destruct Hdesired as [Hdw Hdh]; [ left; rewrite Hfs; discriminate | ].
  assert (Hkept : (mDesiredWidth (this w2) = width /\ mDesiredHeight (this w2) = height)
                  /\ mIsFullScreen (this w2) = false).
  { apply (run_ops_preserves
             (fun t => (mDesiredWidth t = width /\ mDesiredHeight t = height)
                       /\ mIsFullScreen t = false)
             (fun op => negb (is_size_request op))) with (history := history) (w := w1);
      [ | exact Hall | repeat split; assumption | exact Hrun ].
    intros e op Hop w0 w0' [Hd Hm] Hafter. split.
    - apply (desired_size_stays e op width height Hop w0 w0' Hd Hafter).
    - apply (mode_stays e op false (mStyle (this w0)) Hop w0 w0' (conj Hm eq_refl) Hafter). }
  destruct Hkept as [[Hdw2 Hdh2] Hfs2].
  destruct (_finishSwitchingFullscreen_windowed env' w2 Hfs2)
    as (winWidth & winHeight & new & w3 & _ & E3 & _ & Hw3 & Hh3 & _).
  exists w3. split; [ exact E3 | ].
  destruct (_finishSwitchingFullscreen_clears env' w2) as (w3' & E3' & Hflag).
  rewrite E3 in E3'. injection E3' as <-.
  split; [ congruence | ]. split; [ congruence | ]. split; [ | exact Hflag ].
  apply (mode_stays env' op_finishSwitchingFullscreen false (mStyle (this w2)) eq_refl
           w2 w3 (conj Hfs2 eq_refl)).
  cbn [exec]. rewrite E3. reflexivity.
Qed.

(** The fullscreen sample window goes back to 800 x 600; before the switch
    ends a notification reports the client size of the window system. *)
Lemma finishSwitchingFullscreen_restores_requested_size_witness :
  exists w1 w2 w3,
    setFullscreen desktop_env false 1024 768
      (world_of (set_mIsFullScreen true sample_window)) = Returned tt w1 /\
    run_ops [(desktop_env, op_windowMovedOrResized)] w1 = Some w2 /\
    (mWidth (this w2), mHeight (this w2)) = (800, 600) /\
    _finishSwitchingFullscreen desktop_env w2 = Returned tt w3 /\
    (mWidth (this w3), mHeight (this w3)) = (1024, 768).
Proof.
  assert (R : exists w1 w2,
             setFullscreen desktop_env false 1024 768
               (world_of (set_mIsFullScreen true sample_window)) = Returned tt w1 /\
             run_ops [(desktop_env, op_windowMovedOrResized)] w1 = Some w2 /\
             (mWidth (this w2), mHeight (this w2)) = (800, 600))
    by (vm_compute; eexists; eexists; repeat split).
  destruct R as (w1 & w2 & E1 & R & Hpolluted).
  destruct (finishSwitchingFullscreen_restores_requested_size desktop_env desktop_env
              [(desktop_env, op_windowMovedOrResized)]
              (world_of (set_mIsFullScreen true sample_window)) 0%nat 1024 768
              eq_refl eq_refl eq_refl eq_refl w2
              (ex_intro _ w1 (conj E1 R))) as (w3 & E3 & Hw & Hh & _).
  exists w1, w2, w3. rewrite Hw, Hh. repeat split; assumption.
Defined.

(** ** Notifications and queries *)

(** X16: when the window system cannot report the window rectangle, or
    reports it but cannot report the client rectangle, [updateWindowRect]
    returns with the position and the size all zero (a position read in the
    first step is not kept); the desired size is not touched. *)
Theorem updateWindowRect_failure_zeroes_geometry (env : Env) (w : World) :
  os_GetWindowRect env (mHWnd (this w)) = None
  \/ os_GetClientRect env (mHWnd (this w)) = None ->
  exists w',
    updateWindowRect env w = Returned tt w' /\
    mTop (this w') = 0 /\ mLeft (this w') = 0 /\
    mWidth (this w') = 0 /\ mHeight (this w') = 0 /\
    mDesiredWidth (this w') = mDesiredWidth (this w) /\
    mDesiredHeight (this w') = mDesiredHeight (this w).
Proof.
  intros Hfail. unfold updateWindowRect. run.
  destruct (os_GetWindowRect env (mHWnd (this w))) as [rcWindow | ] eqn:Ewr; cbn.
  - destruct Hfail as [ H | H ]; [ discriminate H | ]. rewrite H. cbn.
    eexists; repeat split.
  - eexists; repeat split.
Qed.

Lemma updateWindowRect_failure_zeroes_geometry_witness :
  exists w',
    updateWindowRect stale_handle_env (world_of sample_window) = Returned tt w' /\
    (mLeft (this w'), mTop (this w'), mWidth (this w'), mHeight (this w')) = (0, 0, 0, 0).
Proof.
  destruct (updateWindowRect_failure_zeroes_geometry stale_handle_env
              (world_of sample_window)) as (w' & E & Ht & Hl & Hw & Hh & _).
  - right. reflexivity.
  - exists w'. split; [ exact E | ]. rewrite Ht, Hl, Hw, Hh. reflexivity.
Defined.

(** X17: a notification for an iconified window is ignored: on the core
    thread [_windowMovedOrResized] returns with the object as it was, having
    only asked whether the window is iconic; the base class is not
    notified. *)
Theorem _windowMovedOrResized_ignored_when_iconic (env : Env) (w : World) :
  onCoreThread env = true ->
  mHWnd (this w) <> 0 ->
  os_IsIconic env (mHWnd (this w)) = true ->
  _windowMovedOrResized env w
  = Returned tt {| this := this w; calls := calls w ++ [call_IsIconic (mHWnd (this w))] |}.
Proof.
  intros Hcore Hwnd Hicon. unfold _windowMovedOrResized. run. rewrite Hcore.
  cbn [this calls]. apply Z.eqb_neq in Hwnd. rewrite Hwnd, Hicon. reflexivity.
Qed.

Lemma _windowMovedOrResized_ignored_when_iconic_witness :
  exists w',
    _windowMovedOrResized iconic_env (world_of sample_window) = Returned tt w' /\
    this w' = sample_window.
Proof.
  eexists. split.
  - apply (_windowMovedOrResized_ignored_when_iconic iconic_env (world_of sample_window));
      [ reflexivity | discriminate | reflexivity ].
  - reflexivity.
Defined.

(** X18: [isVisible] and [isActive] return, and leave the object alone.  A
    window is visible when it has a handle and is not iconic; it is active
    when it is visible and either fullscreen or marked active, so an active
    window is always a visible one, and a fullscreen window is active
    whenever it is visible, whatever its active mark. *)
Theorem isActive_isVisible (env : Env) (w : World) :
  let visible := negb (mHWnd (this w) =? 0) && negb (os_IsIconic env (mHWnd (this w))) in
  exists w1 w2,
    isVisible env w = Returned visible w1 /\ this w1 = this w /\
    isActive env w
    = Returned ((mIsFullScreen (this w) || mActive (this w)) && visible) w2 /\
    this w2 = this w.
Proof.
  cbv zeta. unfold isActive, isVisible. run.
  destruct (mIsFullScreen (this w)), (mActive (this w)); cbv beta iota;
    destruct (mHWnd (this w) =? 0); cbn; eexists; eexists; repeat split.
Qed.

(** X19: [resize] is not remembered.  On the core thread, for a windowed
    window with a handle, [resize] returns with the requested size as the
    current size but leaves the desired size, so the next
    [_finishSwitchingFullscreen] puts the current size back to the desired
    one. *)
Theorem resize_is_undone_by_finishSwitchingFullscreen (env env' : Env) (w : World)
    (width height : Z) :
  onCoreThread env = true ->
  mHWnd (this w) <> 0 ->
  mIsFullScreen (this w) = false ->
  exists w1 w2,
    resize env width height w = Returned tt w1 /\
    mWidth (this w1) = width /\ mHeight (this w1) = height /\
    _finishSwitchingFullscreen env' w1 = Returned tt w2 /\
    mWidth (this w2) = mDesiredWidth (this w) /\
    mHeight (this w2) = mDesiredHeight (this w).
Proof.
  intros Hcore Hwnd Hwindowed.
  assert (R : exists w1,
             resize env width height w = Returned tt w1 /\
             this w1 = set_mHeight height (set_mWidth width (this w))).
  { unfold resize, _adjustWindow. run. rewrite Hcore. cbn [this calls].
    apply Z.eqb_neq in Hwnd. rewrite Hwnd, Hwindowed. cbn.
    eexists; split; reflexivity. }
  destruct R as (w1 & E1 & Hthis).
  assert (Hfs1 : mIsFullScreen (this w1) = false) by (rewrite Hthis; exact Hwindowed).
  destruct (_finishSwitchingFullscreen_windowed env' w1 Hfs1)
    as (winWidth & winHeight & new & w2 & _ & E2 & _ & Hw2 & Hh2 & _).
  exists w1, w2. rewrite Hw2, Hh2, Hthis. repeat split; assumption.
Qed.

Lemma resize_is_undone_by_finishSwitchingFullscreen_witness :
  exists w1 w2,
    resize desktop_env 640 480 (world_of sample_window) = Returned tt w1 /\
    (mWidth (this w1), mHeight (this w1)) = (640, 480) /\
    _finishSwitchingFullscreen desktop_env w1 = Returned tt w2 /\
    (mWidth (this w2), mHeight (this w2)) = (800, 600).
Proof.
  destruct (resize_is_undone_by_finishSwitchingFullscreen desktop_env desktop_env
              (world_of sample_window) 640 480 eq_refl ltac:(discriminate) eq_refl)
    as (w1 & w2 & E1 & Hw1 & Hh1 & E2 & Hw2 & Hh2).
  exists w1, w2. rewrite Hw1, Hh1, Hw2, Hh2. repeat split; assumption.
Defined.

(** X20: when the monitor of the window cannot be queried, the zeroed monitor
    information is used as it is: [_adjustWindow] returns the size 0 x 0
    whatever the client size and the style. *)
Theorem _adjustWindow_without_monitor_info (env : Env) (w : World)
    (clientWidth clientHeight : Z) (style : DWORD) :
  os_GetMonitorInfo env (os_MonitorFromWindow env (mHWnd (this w))) = None ->
  exists w',
    _adjustWindow env clientWidth clientHeight style w = Returned (0, 0) w' /\
    this w' = this w.
Proof.
  intros Hfail.
  destruct (_adjustWindow_run env w clientWidth clientHeight style) as (new & E).
  cbv zeta in E. unfold monitor_of_window in E. rewrite Hfail in E.
  cbn [rcWork zeroed_MONITORINFO SetRect right left top bottom] in E.
  change (u32 (0 - 0)) with 0 in E.
  assert (Hz : forall z, (if u32 z >? 0 then 0 else u32 z) = 0).
  { intros z. pose proof (u32_range z). destruct (Z.gtb_spec (u32 z) 0); lia. }
  rewrite !Hz in E.
  eexists. split; [ exact E | reflexivity ].
Qed.

Lemma _adjustWindow_without_monitor_info_witness :
  exists w',
    _adjustWindow stale_handle_env 800 600 WS_OVERLAPPEDWINDOW (world_of sample_window)
    = Returned (0, 0) w'.
Proof.
  destruct (_adjustWindow_without_monitor_info stale_handle_env (world_of sample_window)
              800 600 WS_OVERLAPPEDWINDOW eq_refl) as (w' & E & _).
  exists w'. exact E.
Defined.

(** ** Initialization *)

Lemma s32_range (z : Z) : - 2 ^ 31 <= s32 z < 2 ^ 31.
Proof.
  unfold s32. pose proof (Z.mod_pos_bound (z + 2 ^ 31) (2 ^ 32) eq_refl). lia.
Qed.

Lemma s32_small (z : Z) : - 2 ^ 31 <= z < 2 ^ 31 -> s32 z = z.
Proof. intros H. unfold s32. rewrite Z.mod_small; lia. Qed.

Lemma s32_u32 (z : Z) : s32 (u32 z) = s32 z.
Proof. unfold s32, u32. rewrite Zplus_mod_idemp_l. reflexivity. Qed.

Lemma s32_s32 (z : Z) : s32 (s32 z) = s32 z.
Proof. apply s32_small, s32_range. Qed.

(** The clamp of [initialize_internal], read as signed numbers. *)
Lemma clamp_le (W D : Z) : s32 (if s32 W >? s32 D then u32 (s32 D) else W) <= s32 D.
Proof.
  destruct (Z.gtb_spec (s32 W) (s32 D)); [ rewrite s32_u32, s32_s32 | ]; lia.
Qed.

Lemma adapter_monitor_loop_exact (env : Env) (idx : Z) (fuel : nat) :
  d3d_GetAdapterCount env < 2 ^ 32 ->
  forall i w,
    0 <= i <= idx ->
    d3d_GetAdapterCount env <= i + Z.of_nat fuel ->
    exists new,
      adapter_monitor_loop env idx i fuel w
      = Returned
          (if idx <? d3d_GetAdapterCount env then d3d_GetAdapterMonitor env idx else 0)
          {| this := this w; calls := calls w ++ new |}.
Proof.
  intros Hcount.
  induction fuel as [ | fuel IH ]; intros i w Hi Hfuel; cbn [adapter_monitor_loop]; run.
  - destruct (Z.ltb_spec i (d3d_GetAdapterCount env)); [ lia | ].
    destruct (Z.ltb_spec idx (d3d_GetAdapterCount env)); [ lia | ].
    eexists; reflexivity.
  - destruct (Z.ltb_spec i (d3d_GetAdapterCount env)) as [Hlt | Hge].
    + destruct (Z.eqb_spec i idx) as [-> | Hne]; cbv beta iota; cbn [this calls].
      * destruct (Z.ltb_spec idx (d3d_GetAdapterCount env)); [ | lia ].
        rewrite <- app_assoc. eexists; reflexivity.
      * rewrite (u32_small (i + 1)) by lia.
        destruct (IH (i + 1)
                    {| this := this w; calls := calls w ++ [call_GetAdapterCount] |})
          as (new & E); [ lia | lia | ].
        rewrite E. cbn [this calls]. rewrite <- app_assoc. eexists; reflexivity.
    + destruct (Z.ltb_spec idx (d3d_GetAdapterCount env)); [ lia | ].
      eexists; reflexivity.
Qed.

(** X21: the search for the monitor of an adapter, as [initialize_internal]
    runs it (from index 0, on an adapter count that fits an unsigned 32-bit
    number): it returns the monitor of adapter [idx] when [idx] is below the
    adapter count and the null monitor when it is not, and leaves the object
    alone. *)
Theorem adapter_monitor_lookup (env : Env) (idx : Z) (w : World) :
  0 <= idx ->
  0 <= d3d_GetAdapterCount env < 2 ^ 32 ->
  exists hMonitor w',
    adapter_monitor_loop env idx 0 (Z.to_nat (d3d_GetAdapterCount env)) w
    = Returned hMonitor w' /\
    this w' = this w /\
    (idx < d3d_GetAdapterCount env -> hMonitor = d3d_GetAdapterMonitor env idx) /\
    (d3d_GetAdapterCount env <= idx -> hMonitor = 0).
Proof.
  intros Hidx [Hc0 Hcount].
  destruct (adapter_monitor_loop_exact env idx (Z.to_nat (d3d_GetAdapterCount env)) Hcount
              0 w) as (new & E); [ lia | rewrite Z2Nat.id by lia; lia | ].
  eexists; eexists. split; [ exact E | ]. split; [ reflexivity | ].
  destruct (Z.ltb_spec idx (d3d_GetAdapterCount env)); split; intros; try reflexivity; lia.
Qed.

Lemma adapter_monitor_lookup_witness :
  (exists w',
      adapter_monitor_loop desktop_env 1 0 2 (world_of sample_window) = Returned 2 w')
  /\ (exists w',
         adapter_monitor_loop desktop_env 2 0 2 (world_of sample_window) = Returned 0 w').
Proof.
  split.
  - destruct (adapter_monitor_lookup desktop_env 1 (world_of sample_window))
      as (hm & w' & E & _ & Hin & _); [ lia | cbn; lia | ].
    exists w'. rewrite (Hin eq_refl) in E. exact E.
  - destruct (adapter_monitor_lookup desktop_env 2 (world_of sample_window))
      as (hm & w' & E & _ & _ & Hout); [ lia | cbn; lia | ].
    exists w'. rewrite Hout in E by (cbn; lia). exact E.
Defined.

(** X22: initialization with an external window handle adopts the window: it
    returns with that handle and the mark of an adopted window, registers no
    window class, creates no window and asks for no monitor; it reads the
    position and the client size back from the window system and leaves the
    style and the desired size as they were. *)
Theorem initialize_internal_adopts_external_window (env : Env) (w : World) :
  external_handle env (mDesc (this w)) <> 0 ->
  let hWnd := external_handle env (mDesc (this w)) in
  exists w',
    initialize_internal env w = Returned tt w' /\
    calls w' =
      calls w ++ [call_GetWindowRect hWnd; call_GetClientRect hWnd; call_registerWindow;
                  call_RenderWindow_initialize_internal] /\
    mHWnd (this w') = hWnd /\ mIsExternal (this w') = true /\
    mStyle (this w') = mStyle (this w) /\
    mDesiredWidth (this w') = mDesiredWidth (this w) /\
    mDesiredHeight (this w') = mDesiredHeight (this w) /\
    mIsFullScreen (this w') = desc_fullscreen (mDesc (this w)) /\
    mActive (this w') = true /\ mClosed (this w') = false.
Proof.
  intros Hext. cbv zeta. unfold external_handle in *. apply Z.eqb_neq in Hext.
  unfold initialize_internal. run.
  cbn [mDesc set_mFSAAType set_mFSAAQuality set_mFSAA set_mVSync set_mVSyncInterval].
  rewrite Hext. cbv beta iota. cbn [this calls].
  repeat rewrite <- app_assoc. cbn [app].
  eexists. split; [ reflexivity | ]. cbn. repeat split.
Qed.

Lemma initialize_internal_adopts_external_window_witness :
  exists w',
    initialize_internal adopting_env
      (world_of (D3D9RenderWindow_ctor sample_window adopting_desc 1)) = Returned tt w' /\
    mHWnd (this w') = 0x4321 /\ mIsExternal (this w') = true /\
    calls w' = [call_GetWindowRect 0x4321; call_GetClientRect 0x4321; call_registerWindow;
                call_RenderWindow_initialize_internal].
Proof.
  destruct (initialize_internal_adopts_external_window adopting_env
              (world_of (D3D9RenderWindow_ctor sample_window adopting_desc 1)))
    as (w' & E & Hc & Hh & He & _).
  - discriminate.
  - exists w'. split; [ exact E | ]. split; [ exact Hh | ]. split; [ exact He | exact Hc ].
Defined.

Ltac init_step Hcount :=
  cbv beta iota; cbn [this calls];
  match goal with
  | |- context [adapter_monitor_loop ?e ?i 0 ?f ?w0] =>
      let El := fresh "El" in
      destruct (adapter_monitor_loop_exact e i f Hcount 0 w0) as (? & El);
      [ pose proof (u32_range (desc_monitorIndex (mDesc (this w0)))); cbn [this mDesc] in *;
        split; [ lia | apply u32_range ]
      | rewrite Z2Nat.id by lia; lia
      | rewrite El; clear El ]
  | |- context [match (let '(_, _) := ?x in _) with _ => _ end] => destruct x
  | |- context [(let '(_, _) := ?x in _) _] => destruct x
  | |- context [match (if ?b then _ else _) _ with _ => _ end] => destruct b eqn:?
  end.

(** Initialization without an external handle, on an adapter count that fits
    an unsigned 32-bit number: the window that is created and the object that
    is left. *)
Lemma initialize_internal_own (env : Env) (w : World) :
  external_handle env (mDesc (this w)) = 0 ->
  0 <= d3d_GetAdapterCount env < 2 ^ 32 ->
  let desc := mDesc (this w) in
  let M := target_monitor env desc in
  exists new w' exStyle style x y cx cy,
    initialize_internal env w = Returned tt w' /\
    calls w' = calls w ++ new /\
    In (call_CreateWindowEx exStyle (desc_title desc) style x y cx cy
          (parent_handle env desc) (mInstance (this w))) new /\
    mHWnd (this w') = os_CreateWindowEx env /\
    mIsExternal (this w') = false /\
    mStyle (this w') = style /\
    mDesiredWidth (this w') = desc_width desc /\
    mDesiredHeight (this w') = desc_height desc /\
    mIsFullScreen (this w') = desc_fullscreen desc /\
    mActive (this w') = true /\ mClosed (this w') = false /\
    (desc_fullscreen desc = true ->
     exStyle = WS_EX_TOPMOST /\
     style = Z.lor (Z.lor WS_VISIBLE WS_CLIPCHILDREN) WS_POPUP /\
     x = left (rcMonitor M) /\ y = top (rcMonitor M) /\
     cx = s32 (desc_width desc) /\ cy = s32 (desc_height desc)) /\
    (desc_fullscreen desc = false -> desc_outerDimensions desc = false ->
     left (rcWork M) <= x /\ top (rcWork M) <= y /\
     cx <= s32 (right (rcWork M) - x) /\ cy <= s32 (bottom (rcWork M) - y)).
Proof.
  intros Hext Hcount. cbv zeta. unfold external_handle in Hext. apply Z.eqb_eq in Hext.
  unfold target_monitor, parent_handle. cbv zeta.
  unfold initialize_internal, _adjustWindow. run.
  cbn [mDesc set_mFSAAType set_mFSAAQuality set_mFSAA set_mVSync set_mVSyncInterval].
  rewrite Hext.
  destruct Hcount as [Hc0 Hcount].
  repeat init_step Hcount.
  all: cbv beta iota; cbn [this calls]; repeat rewrite <- app_assoc; cbn [app].
  all: do 8 eexists; (split; [ reflexivity | ]); cbn [this calls];
       (split; [ reflexivity | ]);
       (split; [ first [ apply in_or_app; right | idtac ]; cbn [In];
                 repeat (first [ left; reflexivity | right ]) | ]).
  all: cbn; repeat (split; [ reflexivity | ]).
  all: (split; [ intros Hf; try discriminate Hf; repeat (split; [ reflexivity | ]);
                 reflexivity
               | intros Hf Ho; try discriminate Hf; try discriminate Ho ]).
  all: try (rewrite Ho in *; discriminate).
  all: clear Hext; cbn in *.
  all: repeat match goal with
              | H : (_ <? _) = true |- _ => apply Z.ltb_lt in H
              | H : (_ <? _) = false |- _ => apply Z.ltb_ge in H
              end.
  all: repeat split; first [ apply clamp_le | lia ].
Qed.

(** X23: initialization without an external window handle creates the
    window: it returns after having asked the window system for a window
    with the title, the parent and the instance of the description, with the
    handle the window system gave, not marked as adopted, active and not
    closed; the desired size is the size of the description and the
    fullscreen flag the one of the description. *)
Theorem initialize_internal_creates_window (env : Env) (w : World) :
  external_handle env (mDesc (this w)) = 0 ->
  0 <= d3d_GetAdapterCount env < 2 ^ 32 ->
  exists new w' exStyle style x y cx cy,
    initialize_internal env w = Returned tt w' /\
    calls w' = calls w ++ new /\
    In (call_CreateWindowEx exStyle (desc_title (mDesc (this w))) style x y cx cy
          (parent_handle env (mDesc (this w))) (mInstance (this w))) new /\
    mHWnd (this w') = os_CreateWindowEx env /\
    mIsExternal (this w') = false /\
    mStyle (this w') = style /\
    mDesiredWidth (this w') = desc_width (mDesc (this w)) /\
    mDesiredHeight (this w') = desc_height (mDesc (this w)) /\
    mIsFullScreen (this w') = desc_fullscreen (mDesc (this w)) /\
    mActive (this w') = true /\ mClosed (this w') = false.
Proof.
  intros Hext Hcount.
  destruct (initialize_internal_own env w Hext Hcount)
    as (new & w' & exStyle & style & x & y & cx & cy & E & Hc & Hin & H).
  exists new, w', exStyle, style, x, y, cx, cy.
  split; [ exact E | ]. split; [ exact Hc | ]. split; [ exact Hin | ].
  decompose [and] H. repeat split; assumption.
Qed.

Lemma initialize_internal_creates_window_witness :
  exists w',
    initialize_internal desktop_env
      (world_of (D3D9RenderWindow_ctor sample_window sample_desc 1)) = Returned tt w' /\
    mHWnd (this w') = 0x1234 /\
    (mDesiredWidth (this w'), mDesiredHeight (this w')) = (800, 600).
Proof.
  destruct (initialize_internal_creates_window desktop_env
              (world_of (D3D9RenderWindow_ctor sample_window sample_desc 1)))
    as (new & w' & exStyle & style & x & y & cx & cy & E & _ & _ & Hh & _ & _ & Hdw & Hdh
        & _).
  - reflexivity.
  - cbn. lia.
  - exists w'. split; [ exact E | ]. split; [ exact Hh | ]. rewrite Hdw, Hdh. reflexivity.
Defined.

(** X24: a fullscreen description gives a topmost popup window at the origin
    of the full area of the target monitor, with exactly the size of the
    description (no decoration is added and nothing is clamped); the target
    monitor is the monitor of the anchor point when the adapter index is not
    given, is out of range or has no monitor. *)
Theorem initialize_internal_fullscreen_placement (env : Env) (w : World) :
  external_handle env (mDesc (this w)) = 0 ->
  0 <= d3d_GetAdapterCount env < 2 ^ 32 ->
  desc_fullscreen (mDesc (this w)) = true ->
  let desc := mDesc (this w) in
  let M := target_monitor env desc in
  exists new w',
    initialize_internal env w = Returned tt w' /\
    calls w' = calls w ++ new /\
    In (call_CreateWindowEx WS_EX_TOPMOST (desc_title desc)
          (Z.lor (Z.lor WS_VISIBLE WS_CLIPCHILDREN) WS_POPUP)
          (left (rcMonitor M)) (top (rcMonitor M))
          (s32 (desc_width desc)) (s32 (desc_height desc))
          (parent_handle env desc) (mInstance (this w))) new /\
    mStyle (this w') = Z.lor (Z.lor WS_VISIBLE WS_CLIPCHILDREN) WS_POPUP.
Proof.
  intros Hext Hcount Hfs. cbv zeta.
  destruct (initialize_internal_own env w Hext Hcount)
    as (new & w' & exStyle & style & x & y & cx & cy & E & Hc & Hin & _ & _ & Hstyle & _ & _
        & _ & _ & _ & Hfull & _).
  destruct (Hfull Hfs) as (-> & -> & -> & -> & -> & ->).
  exists new, w'. repeat split; assumption.
Qed.

Lemma initialize_internal_fullscreen_placement_witness :
  exists new w',
    initialize_internal second_monitor_env
      (world_of (D3D9RenderWindow_ctor sample_window fullscreen_desc 1)) = Returned tt w' /\
    calls w' = new /\
    In (call_CreateWindowEx WS_EX_TOPMOST "fullscreen"
          (Z.lor (Z.lor WS_VISIBLE WS_CLIPCHILDREN) WS_POPUP) 1920 0 1920 1080 0 1) new.
Proof.
  destruct (initialize_internal_fullscreen_placement second_monitor_env
              (world_of (D3D9RenderWindow_ctor sample_window fullscreen_desc 1)))
    as (new & w' & E & Hc & Hin & _).
  - reflexivity.
  - cbn. lia.
  - reflexivity.
  - exists new, w'. split; [ exact E | ]. split; [ exact Hc | exact Hin ].
Defined.

(** X25: a windowed description that gives the client size
    ([outerDimensions] false) gives a window that is clamped to the work area
    of the target monitor: it is created not left of and not above the work
    area, and its width and height are at most what is left of the work area
    from that position (whenever that remainder fits a 32-bit integer). *)
Theorem initialize_internal_window_within_work_area (env : Env) (w : World) :
  external_handle env (mDesc (this w)) = 0 ->
  0 <= d3d_GetAdapterCount env < 2 ^ 32 ->
  desc_fullscreen (mDesc (this w)) = false ->
  desc_outerDimensions (mDesc (this w)) = false ->
  let desc := mDesc (this w) in
  let work := rcWork (target_monitor env desc) in
  exists new w' exStyle style x y cx cy,
    initialize_internal env w = Returned tt w' /\
    calls w' = calls w ++ new /\
    In (call_CreateWindowEx exStyle (desc_title desc) style x y cx cy
          (parent_handle env desc) (mInstance (this w))) new /\
    left work <= x /\ top work <= y /\
    (is_s32 (right work - x) -> x + cx <= right work) /\
    (is_s32 (bottom work - y) -> y + cy <= bottom work).
Proof.
  intros Hext Hcount Hfs Houter. cbv zeta.
  destruct (initialize_internal_own env w Hext Hcount)
    as (new & w' & exStyle & style & x & y & cx & cy & E & Hc & Hin & _ & _ & _ & _ & _
        & _ & _ & _ & _ & Hclamp).
  destruct (Hclamp Hfs Houter) as (Hx & Hy & Hcx & Hcy).
  exists new, w', exStyle, style, x, y, cx, cy.
  split; [ exact E | ]. split; [ exact Hc | ]. split; [ exact Hin | ].
  split; [ exact Hx | ]. split; [ exact Hy | ].
  unfold is_s32. split; intros Hr.
  - rewrite s32_small in Hcx by exact Hr. lia.
  - rewrite s32_small in Hcy by exact Hr. lia.
Qed.

Lemma initialize_internal_window_within_work_area_witness :
  exists new w',
    initialize_internal desktop_env
      (world_of (D3D9RenderWindow_ctor sample_window oversized_desc 1)) = Returned tt w' /\
    calls w' = new /\
    In (call_CreateWindowEx 0 "oversized" (mStyle sample_window) 1000 500 920 540 0 1) new.
Proof.
  destruct (initialize_internal_window_within_work_area desktop_env
              (world_of (D3D9RenderWindow_ctor sample_window oversized_desc 1)))
    as (new & w' & exStyle & style & x & y & cx & cy & E & Hc & Hin & _).
  - reflexivity.
  - cbn. lia.
  - reflexivity.
  - reflexivity.
  - exists new, w'. split; [ exact E | ]. split; [ exact Hc | ].
    vm_compute in E. injection E as <-. cbn in Hc. subst new.
    do 7 right. left. reflexivity.
Defined.

(** ** Custom attributes *)

(** X26: [getCustomAttribute] never changes the object and makes no outside
    call.  A name that is not one of the six attribute names (the comparison
    is by exact spelling) writes nothing and is no error.  "WINDOW" and
    "isTexture" need no device; the four device attributes call through the
    null pointer when no device is bound.  "DDFRONTBUFFER" gives the same
    surface as "DDBACKBUFFER", the back buffer. *)
Theorem getCustomAttribute_cases (objs : DeviceObjects) (w : World) :
  (forall name, ~ In name attribute_names ->
                getCustomAttribute objs name w = Returned None w) /\
  getCustomAttribute objs "WINDOW" w = Returned (Some (Attr_Window (mHWnd (this w)))) w /\
  getCustomAttribute objs "isTexture" w = Returned (Some (Attr_Bool false)) w /\
  getCustomAttribute objs "DDFRONTBUFFER" w = getCustomAttribute objs "DDBACKBUFFER" w /\
  (forall name, In name attribute_names ->
     match mDevice (this w) with
     | Some d =>
         exists v, getCustomAttribute objs name w = Returned (Some v) w /\
                   (name = "DDBACKBUFFER"%string ->
                    v = Attr_Surface (dev_getBackBuffer objs d))
     | None =>
         name <> "WINDOW"%string -> name <> "isTexture"%string ->
         getCustomAttribute objs name w = NullDeviceCall
     end).
Proof.
  split; [ | split; [ | split; [ | split ] ] ].
  - intros name Hname. unfold getCustomAttribute, attribute_names in *.
    repeat match goal with
           | |- context [String.eqb name ?s] =>
               destruct (String.eqb_spec name s) as [-> | _];
               [ exfalso; apply Hname; cbn; tauto | ]
           end.
    reflexivity.
  - reflexivity.
  - reflexivity.
  - reflexivity.
  - intros name Hname. unfold attribute_names in Hname. cbn [In] in Hname.
    destruct (mDevice (this w)) as [d | ] eqn:Hdev.
    + decompose [or] Hname; try contradiction; subst name;
        unfold getCustomAttribute, _getD3D9Device; cbn [String.eqb Ascii.eqb Bool.eqb];
        run; rewrite ?Hdev; (eexists; split; [ reflexivity | ]);
        intros Hn; first [ discriminate Hn | reflexivity ].
    + intros Hw Ht.
      decompose [or] Hname; try contradiction; subst name; try congruence;
        unfold getCustomAttribute, _getD3D9Device; cbn [String.eqb Ascii.eqb Bool.eqb];
        run; rewrite ?Hdev; reflexivity.
Qed.

Lemma getCustomAttribute_cases_witness :
  getCustomAttribute sample_objects "window" (world_of sample_window)
  = Returned None (world_of sample_window)
  /\ getCustomAttribute sample_objects "DDFRONTBUFFER" (world_of sample_window)
     = Returned (Some (Attr_Surface 300)) (world_of sample_window)
  /\ getCustomAttribute sample_objects "D3DZBUFFER" (world_of unbound_window)
     = NullDeviceCall.
Proof.
  destruct (getCustomAttribute_cases sample_objects (world_of sample_window))
    as (Hunknown & _ & _ & Hfront & Hknown).
  destruct (getCustomAttribute_cases sample_objects (world_of unbound_window))
    as (_ & _ & _ & _ & Hunbound).
  split; [ | split ].
  - apply Hunknown. cbn. intros H. decompose [or] H; try discriminate; contradiction.
  - rewrite Hfront.
    destruct (Hknown "DDBACKBUFFER"%string) as (v & E & Hv).
    + cbn. tauto.
    + rewrite E, (Hv eq_refl). reflexivity.
  - apply (Hunbound "D3DZBUFFER"%string); [ cbn; tauto | discriminate | discriminate ].
Defined.

(** ** Move and resize gestures *)

(** X27: [startResize] and [startMove] leave the object alone and make two
    outside calls: the non-client button-down message to the window, then the
    simulated release of the left mouse button.  The eight resize directions
    are sent as eight different hit-test codes, none of them the caption code
    of [startMove]. *)
Theorem gestures_post_button_down_then_release (w : World) :
  (forall direction,
      exists code,
        startResize direction w
        = Returned tt
            {| this := this w;
               calls := calls w ++ [call_SendMessage (mHWnd (this w)) WM_NCLBUTTONDOWN code 0;
                                    call_simulateButtonUp] |} /\
        code <> HTCAPTION) /\
  startMove w
  = Returned tt
      {| this := this w;
         calls := calls w ++ [call_SendMessage (mHWnd (this w)) WM_NCLBUTTONDOWN HTCAPTION 0;
                              call_simulateButtonUp] |} /\
  (forall d1 d2, startResize d1 w = startResize d2 w -> d1 = d2).
Proof.
  split; [ | split ].
  - intros direction. unfold startResize. run. rewrite <- app_assoc.
    eexists. split; [ reflexivity | ]. destruct direction; discriminate.
  - unfold startMove. run. rewrite <- app_assoc. reflexivity.
  - intros d1 d2. unfold startResize. run. intros E.
    injection E as E. rewrite <- !app_assoc in E. apply app_inv_head in E.
    injection E as E. destruct d1, d2; first [ reflexivity | discriminate E ].
Qed.
